(** * signquote-pro: the quote calculation engine ([src/utils/pricing.ts])

    A shallow embedding of [calculateQuote] and of the types it reads and
    builds ([types.ts]), followed by the properties of the engine.

    Modelling choices.
    - A JavaScript [number] is an exact rational ([Q]).  Rounding of IEEE
      doubles, [NaN] and the infinities are outside the model; [<], [<=],
      [>] and [===] on numbers are the boolean comparisons of [Q], and
      [Math.max] is [Qmax].
    - The string enums [SignType] and [LightingType] and the string-literal
      union of [liftType] are the strings they are at run time (App.tsx
      casts the value of a form control to them), compared with [===].
    - [text] is a sequence of UTF-16 code units, so that [/\s/] means what
      ECMAScript says it means.
    - A template literal pushed on [fabAdders] or [installAdders] is kept as
      a constructor carrying the numbers interpolated in it, before they
      are rendered; what [toFixed] makes of them is [toFixed] below, the
      number its digits denote, read by [fabPrinted] and [installPrinted].
    - [constants.ts] is not among the sources: the pricing table is a
      parameter, with the shape the accesses in [pricing.ts] give it. *)

From Stdlib Require Import QArith Qminmax.
From Stdlib Require Import Sorted Qround.
From Stdlib Require Import List String Ascii NArith ZArith Bool Lia Lqa.
Import ListNotations.

Open Scope Q_scope.

(** ** JavaScript values *)

Module JS.

(** A string is a sequence of UTF-16 code units. *)
Definition codeUnit := N.
Definition jsstring := list codeUnit.

(** The code units of an ASCII literal. *)
Definition ofString (s : string) : jsstring :=
  List.map N_of_ascii (list_ascii_of_string s).

(** The class [\s] of a regular expression without the [u] flag:
    WhiteSpace and LineTerminator of ECMAScript. *)
Definition isWhiteSpace (c : codeUnit) : bool :=
  ((9 <=? c) && (c <=? 13)          (* \t \n \v \f \r *)
   || (c =? 32)                      (* space *)
   || (c =? 160)                     (* U+00A0 *)
   || (c =? 5760)                    (* U+1680 *)
   || ((8192 <=? c) && (c <=? 8202)) (* U+2000 .. U+200A *)
   || (c =? 8232) || (c =? 8233)     (* U+2028, U+2029 *)
   || (c =? 8239)                    (* U+202F *)
   || (c =? 8287)                    (* U+205F *)
   || (c =? 12288)                   (* U+3000 *)
   || (c =? 65279))%N.               (* U+FEFF *)

(** [s.replace(/\s/g, '')] *)
Definition removeWhiteSpace (s : jsstring) : jsstring :=
  List.filter (fun c => negb (isWhiteSpace c)) s.

(** Comparisons of numbers. *)
Definition ltb (x y : Q) : bool := negb (Qle_bool y x).
Definition leb (x y : Q) : bool := Qle_bool x y.
Definition gtb (x y : Q) : bool := ltb y x.
Definition eqb (x y : Q) : bool := Qeq_bool x y.

(** [Math.max(x, y)] *)
Definition Math_max (x y : Q) : Q := Qmax x y.

(** The length of a string or array, as a number. *)
Definition ofNat (n : nat) : Q := inject_Z (Z.of_nat n).

(** [xs.find(p)] *)
Definition find {A} (p : A -> bool) (xs : list A) : option A := List.find p xs.

(** [xs[xs.length - 1]]: [undefined] on the empty array. *)
Definition lastElement {A} (xs : list A) : option A :=
  nth_error xs (List.length xs - 1).

(** What a call can throw. *)
Inductive Error := TypeError.

Inductive result (A : Type) :=
| Ok (a : A)
| Throw (e : Error).
Arguments Ok {A} a.
Arguments Throw {A} e.

Definition bind {A B} (m : result A) (k : A -> result B) : result B :=
  match m with
  | Ok a => k a
  | Throw e => Throw e
  end.

(** Reading a property of [x]: a TypeError when [x] is [undefined]. *)
Definition deref {A} (x : option A) : result A :=
  match x with
  | Some a => Ok a
  | None => Throw TypeError
  end.

End JS.

Notation "x <- m ;; k" := (JS.bind m (fun x => k))
  (at level 61, m at next level, right associativity).

(** ** types.ts *)

Module SignType.
Definition CHANNEL_LETTERS : string := "Channel Letters".
Definition LIGHTBOX : string := "Lightbox".
Definition WINDOW_VINYL : string := "Window Vinyl".
End SignType.

Module LightingType.
Definition NON_LIT : string := "NON_LIT".
Definition FRONT_LIT : string := "FRONT_LIT".
Definition BACK_LIT : string := "BACK_LIT".
End LightingType.

Record DesignVariant := {
  name : string;
  fontFamily : string;
  letterSpacing : string;
  lighting : string;
  roundedBacker : bool;
  stroke : bool;
  strokeWidth : string;
  recommendedLetterHeightIn : Q;
  color : option string;
  backgroundColor : option string;
  description : option string
}.

Record Dimensions := {
  widthIn : Q;
  heightIn : Q
}.

Record InstallConfig := {
  heightFeet : Q;
  liftType : string;
  electricalWork : bool;
  permit : bool;
  hardAccess : bool;
  address : string;
  clientName : string
}.

(** The lines of [breakdown.fabAdders], one constructor per template. *)
Inductive FabAdder :=
| LettersBase (letterCount rate cost : Q)
| HeightAdder (heightIn cost : Q)
| FrontLitUpgrade (cost : Q)
| BackLitUpgrade (cost : Q)
| RacewayBacker (cost : Q)
| MinimumPricingApplied (minPrice : Q)
| SizeSqft (sqft rate cost : Q)
| DepthAdder (depthExcess cost : Q)
| InternalIllumination (cost : Q)
| Lamination (cost : Q)
| RushOrder (fee : Q).

(** The lines of [breakdown.installAdders]. *)
Inductive InstallAdder :=
| BaseTripFee (fee : Q)
| Labor (hours rate cost : Q)
| Lift (liftType : string) (cost : Q)
| ElectricalHookup (cost : Q)
| PermitAllowance (cost : Q)
| HardAccessParking (cost : Q)
| Contingency (amount : Q).

Record Breakdown := {
  fabBase : Q;
  fabAdders : list FabAdder;
  installLabor : Q;
  installLift : Q;
  installAdders : list InstallAdder
}.

Record QuoteResult := {
  fabricationCost : Q;
  installationCost : Q;
  subtotal : Q;
  gst : Q;
  total : Q;
  breakdown : Breakdown
}.

(** ** constants.ts: the shape of PRICING *)

Module Pricing.

Record LightingAdder := {
  FRONT_LIT : Q;
  BACK_LIT : Q
}.

Record ChannelLetters := {
  BASE_PER_LETTER : Q;
  PER_INCH_HEIGHT : Q;
  LIGHTING_ADDER : LightingAdder;
  BACKER_ADDER : Q;
  CL_MIN_PRICE : Q
}.

Record Lightbox := {
  LB_PER_SQFT : Q;
  DEPTH_BASE : Q;
  DEPTH_ADDER_PER_INCH : Q;
  LIGHTING_ADDER_FRONT_LIT : Q;
  LB_MIN_PRICE : Q
}.

Record WindowVinyl := {
  WV_PER_SQFT : Q;
  LAMINATION_PERCENT : Q;
  WV_MIN_PRICE : Q
}.

Record Fabrication := {
  CHANNEL_LETTERS : ChannelLetters;
  LIGHTBOX : Lightbox;
  WINDOW_VINYL : WindowVinyl;
  RUSH_ORDER_PERCENT : Q
}.

Record Tier := {
  maxFt : Q;
  hours : Q
}.

Record LiftTable := {
  SCISSOR : Q;
  BOOM : Q
}.

Record Installation := {
  BASE_TRIP : Q;
  HEIGHT_TIERS : list Tier;
  LABOR_RATE : Q;
  LIFT : LiftTable;
  ELECTRICAL : Q;
  PERMIT : Q;
  HARD_ACCESS : Q;
  CONTINGENCY_PERCENT : Q
}.

Record Tax := {
  GST : Q
}.

Record Table := {
  FABRICATION : Fabrication;
  INSTALLATION : Installation;
  TAX : Tax
}.

End Pricing.

(** ** utils/pricing.ts *)

Section Engine.

Variable PRICING : Pricing.Table.

(** [text.replace(/\s/g, '').length] (line 20). *)
Definition letterCount (text : JS.jsstring) : Q :=
  JS.ofNat (List.length (JS.removeWhiteSpace text)).

(** Lines 19-48: the raw cost of channel letters and the lines it pushes. *)
Definition channelLettersRaw (dimensions : Dimensions) (text : JS.jsstring)
    (variant : DesignVariant) (fabAdders : list FabAdder) : Q * list FabAdder :=
  let rules := Pricing.CHANNEL_LETTERS (Pricing.FABRICATION PRICING) in
  let letterCount := letterCount text in
  let rawCost := 0 in
  let baseLettersCost := letterCount * Pricing.BASE_PER_LETTER rules in
  let fabAdders :=
    fabAdders ++ [LettersBase letterCount (Pricing.BASE_PER_LETTER rules) baseLettersCost] in
  let rawCost := rawCost + baseLettersCost in
  let heightCost := letterCount * heightIn dimensions * Pricing.PER_INCH_HEIGHT rules in
  let fabAdders := fabAdders ++ [HeightAdder (heightIn dimensions) heightCost] in
  let rawCost := rawCost + heightCost in
  let '(rawCost, fabAdders) :=
    if (lighting variant =? LightingType.FRONT_LIT)%string then
      let litCost := letterCount * Pricing.FRONT_LIT (Pricing.LIGHTING_ADDER rules) in
      (rawCost + litCost, fabAdders ++ [FrontLitUpgrade litCost])
    else if (lighting variant =? LightingType.BACK_LIT)%string then
      let litCost := letterCount * Pricing.BACK_LIT (Pricing.LIGHTING_ADDER rules) in
      (rawCost + litCost, fabAdders ++ [BackLitUpgrade litCost])
    else (rawCost, fabAdders) in
  if roundedBacker variant then
    (rawCost + Pricing.BACKER_ADDER rules,
     fabAdders ++ [RacewayBacker (Pricing.BACKER_ADDER rules)])
  else (rawCost, fabAdders).

(** Lines 56-74: the raw cost of a lightbox. *)
Definition lightboxRaw (dimensions : Dimensions) (variant : DesignVariant)
    (lightboxDepth : Q) (fabAdders : list FabAdder) : Q * list FabAdder :=
  let rules := Pricing.LIGHTBOX (Pricing.FABRICATION PRICING) in
  let sqft := (widthIn dimensions * heightIn dimensions) / 144 in
  let rawCost := sqft * Pricing.LB_PER_SQFT rules in
  let fabAdders := fabAdders ++ [SizeSqft sqft (Pricing.LB_PER_SQFT rules) rawCost] in
  let '(rawCost, fabAdders) :=
    if JS.gtb lightboxDepth (Pricing.DEPTH_BASE rules) then
      let depthExcess := lightboxDepth - Pricing.DEPTH_BASE rules in
      let depthCost := depthExcess * Pricing.DEPTH_ADDER_PER_INCH rules in
      (rawCost + depthCost, fabAdders ++ [DepthAdder depthExcess depthCost])
    else (rawCost, fabAdders) in
  if (lighting variant =? LightingType.FRONT_LIT)%string then
    (rawCost + Pricing.LIGHTING_ADDER_FRONT_LIT rules,
     fabAdders ++ [InternalIllumination (Pricing.LIGHTING_ADDER_FRONT_LIT rules)])
  else (rawCost, fabAdders).

(** Lines 82-92: the raw cost of window vinyl. *)
Definition windowVinylRaw (dimensions : Dimensions) (hasLamination : bool)
    (fabAdders : list FabAdder) : Q * list FabAdder :=
  let rules := Pricing.WINDOW_VINYL (Pricing.FABRICATION PRICING) in
  let sqft := (widthIn dimensions * heightIn dimensions) / 144 in
  let rawCost := sqft * Pricing.WV_PER_SQFT rules in
  let fabAdders := fabAdders ++ [SizeSqft sqft (Pricing.WV_PER_SQFT rules) rawCost] in
  if hasLamination then
    let lamCost := rawCost * Pricing.LAMINATION_PERCENT rules in
    (rawCost + lamCost, fabAdders ++ [Lamination lamCost])
  else (rawCost, fabAdders).

(** Lines 14-95: [fabCost] and [fabAdders] when the rush block is reached. *)
Definition fabrication (signType : string) (dimensions : Dimensions)
    (text : JS.jsstring) (variant : DesignVariant) (hasLamination : bool)
    (lightboxDepth : Q) : Q * list FabAdder :=
  let fabCost := 0 in
  let fabAdders := [] in
  if (signType =? SignType.CHANNEL_LETTERS)%string then
    let rules := Pricing.CHANNEL_LETTERS (Pricing.FABRICATION PRICING) in
    let '(rawCost, fabAdders) := channelLettersRaw dimensions text variant fabAdders in
    let fabCost := JS.Math_max rawCost (Pricing.CL_MIN_PRICE rules) in
    if JS.eqb fabCost (Pricing.CL_MIN_PRICE rules)
       && JS.ltb rawCost (Pricing.CL_MIN_PRICE rules)
    then (fabCost, fabAdders ++ [MinimumPricingApplied (Pricing.CL_MIN_PRICE rules)])
    else (fabCost, fabAdders)
  else if (signType =? SignType.LIGHTBOX)%string then
    let rules := Pricing.LIGHTBOX (Pricing.FABRICATION PRICING) in
    let '(rawCost, fabAdders) := lightboxRaw dimensions variant lightboxDepth fabAdders in
    let fabCost := JS.Math_max rawCost (Pricing.LB_MIN_PRICE rules) in
    if JS.eqb fabCost (Pricing.LB_MIN_PRICE rules)
       && JS.ltb rawCost (Pricing.LB_MIN_PRICE rules)
    then (fabCost, fabAdders ++ [MinimumPricingApplied (Pricing.LB_MIN_PRICE rules)])
    else (fabCost, fabAdders)
  else if (signType =? SignType.WINDOW_VINYL)%string then
    let rules := Pricing.WINDOW_VINYL (Pricing.FABRICATION PRICING) in
    let '(rawCost, fabAdders) := windowVinylRaw dimensions hasLamination fabAdders in
    let fabCost := JS.Math_max rawCost (Pricing.WV_MIN_PRICE rules) in
    (fabCost, fabAdders)
  else (fabCost, fabAdders).

(** Lines 98-102: the rush order block. *)
Definition rushOrder (isRush : bool) (fab : Q * list FabAdder) : Q * list FabAdder :=
  let '(fabCost, fabAdders) := fab in
  if isRush then
    let rushFee := fabCost * Pricing.RUSH_ORDER_PERCENT (Pricing.FABRICATION PRICING) in
    (fabCost + rushFee, fabAdders ++ [RushOrder rushFee])
  else (fabCost, fabAdders).

(** Line 112: [HEIGHT_TIERS.find(...) || HEIGHT_TIERS[HEIGHT_TIERS.length - 1]]. *)
Definition selectTier (installConfig : InstallConfig) : option Pricing.Tier :=
  let iRules := Pricing.INSTALLATION PRICING in
  match JS.find (fun t => JS.leb (heightFeet installConfig) (Pricing.maxFt t))
                (Pricing.HEIGHT_TIERS iRules) with
  | Some t => Some t
  | None => JS.lastElement (Pricing.HEIGHT_TIERS iRules)
  end.

(** [calculateQuote] (lines 4-160).  The two defaulted parameters
    ([hasLamination = false], [lightboxDepth = 4]) are passed by the one
    caller, App.tsx, and are taken here as given. *)
Definition calculateQuote (signType : string) (dimensions : Dimensions)
    (text : JS.jsstring) (variant : DesignVariant) (installConfig : InstallConfig)
    (isRush : bool) (hasLamination : bool) (lightboxDepth : Q)
    : JS.result QuoteResult :=
  let '(fabCost, fabAdders) :=
    rushOrder isRush
      (fabrication signType dimensions text variant hasLamination lightboxDepth) in
  let iRules := Pricing.INSTALLATION PRICING in
  let installAdders := [] in
  let installBase := Pricing.BASE_TRIP iRules in
  let installAdders := installAdders ++ [BaseTripFee (Pricing.BASE_TRIP iRules)] in
  tier <- JS.deref (selectTier installConfig) ;;
  let laborCost := Pricing.hours tier * Pricing.LABOR_RATE iRules in
  let installAdders :=
    installAdders ++ [Labor (Pricing.hours tier) (Pricing.LABOR_RATE iRules) laborCost] in
  let liftCost := 0 in
  let liftCost :=
    if (liftType installConfig =? "SCISSOR")%string
    then Pricing.SCISSOR (Pricing.LIFT iRules) else liftCost in
  let liftCost :=
    if (liftType installConfig =? "BOOM")%string
    then Pricing.BOOM (Pricing.LIFT iRules) else liftCost in
  let installAdders :=
    if JS.gtb liftCost 0
    then installAdders ++ [Lift (liftType installConfig) liftCost]
    else installAdders in
  let extras := 0 in
  let '(extras, installAdders) :=
    if electricalWork installConfig
    then (extras + Pricing.ELECTRICAL iRules,
          installAdders ++ [ElectricalHookup (Pricing.ELECTRICAL iRules)])
    else (extras, installAdders) in
  let '(extras, installAdders) :=
    if permit installConfig
    then (extras + Pricing.PERMIT iRules,
          installAdders ++ [PermitAllowance (Pricing.PERMIT iRules)])
    else (extras, installAdders) in
  let '(extras, installAdders) :=
    if hardAccess installConfig
    then (extras + Pricing.HARD_ACCESS iRules,
          installAdders ++ [HardAccessParking (Pricing.HARD_ACCESS iRules)])
    else (extras, installAdders) in
  let preContingencyInstall := installBase + laborCost + liftCost + extras in
  let contingency := preContingencyInstall * Pricing.CONTINGENCY_PERCENT iRules in
  let installAdders := installAdders ++ [Contingency contingency] in
  let installationCost := preContingencyInstall + contingency in
  let subtotal := fabCost + installationCost in
  let gst := subtotal * Pricing.GST (Pricing.TAX PRICING) in
  let total := subtotal + gst in
  JS.Ok {|
    fabricationCost := fabCost;
    installationCost := installationCost;
    subtotal := subtotal;
    gst := gst;
    total := total;
    breakdown := {|
      fabBase := fabCost;
      fabAdders := fabAdders;
      installLabor := laborCost;
      installLift := liftCost;
      installAdders := installAdders
    |}
  |}.

End Engine.

(** ** A pricing table to run the engine on

    [constants.ts] is not among the sources.  The percentages are the ones
    the labels of [pricing.ts] print (rush 12%, lamination 25%, contingency
    10%) and App.tsx prints (GST 5%), the lightbox lighting adder is the 160
    of the comment at line 70; the other rates are sample values. *)

Definition samplePricing : Pricing.Table := {|
  Pricing.FABRICATION := {|
    Pricing.CHANNEL_LETTERS := {|
      Pricing.BASE_PER_LETTER := 85;
      Pricing.PER_INCH_HEIGHT := 4;
      Pricing.LIGHTING_ADDER := {| Pricing.FRONT_LIT := 45; Pricing.BACK_LIT := 65 |};
      Pricing.BACKER_ADDER := 250;
      Pricing.CL_MIN_PRICE := 950
    |};
    Pricing.LIGHTBOX := {|
      Pricing.LB_PER_SQFT := 95;
      Pricing.DEPTH_BASE := 4;
      Pricing.DEPTH_ADDER_PER_INCH := 35;
      Pricing.LIGHTING_ADDER_FRONT_LIT := 160;
      Pricing.LB_MIN_PRICE := 1200
    |};
    Pricing.WINDOW_VINYL := {|
      Pricing.WV_PER_SQFT := 14;
      Pricing.LAMINATION_PERCENT := 25 # 100;
      Pricing.WV_MIN_PRICE := 250
    |};
    Pricing.RUSH_ORDER_PERCENT := 12 # 100
  |};
  Pricing.INSTALLATION := {|
    Pricing.BASE_TRIP := 180;
    Pricing.HEIGHT_TIERS :=
      [ {| Pricing.maxFt := 12; Pricing.hours := 3 |};
        {| Pricing.maxFt := 20; Pricing.hours := 5 |};
        {| Pricing.maxFt := 30; Pricing.hours := 8 |} ];
    Pricing.LABOR_RATE := 95;
    Pricing.LIFT := {| Pricing.SCISSOR := 350; Pricing.BOOM := 750 |};
    Pricing.ELECTRICAL := 350;
    Pricing.PERMIT := 400;
    Pricing.HARD_ACCESS := 200;
    Pricing.CONTINGENCY_PERCENT := 10 # 100
  |};
  Pricing.TAX := {| Pricing.GST := 5 # 100 |}
|}.

(** The variant and the installation the application starts from
    (App.tsx, [useState<InstallConfig>]). *)
Definition sampleVariant (lighting : string) (roundedBacker : bool) : DesignVariant := {|
  name := "Modern";
  fontFamily := "Montserrat";
  letterSpacing := "0.05em";
  lighting := lighting;
  roundedBacker := roundedBacker;
  stroke := false;
  strokeWidth := "0px";
  recommendedLetterHeightIn := 18;
  color := None;
  backgroundColor := None;
  description := None
|}.

Definition sampleInstall (heightFeet : Q) (liftType : string) : InstallConfig := {|
  heightFeet := heightFeet;
  liftType := liftType;
  electricalWork := true;
  permit := true;
  hardAccess := false;
  address := "";
  clientName := ""
|}.

Definition OPEN : JS.jsstring := JS.ofString "OPEN".


(** ** What the specification says, in its own words *)

(** "number of non-whitespace characters in text" *)
Fixpoint countNonWhiteSpace (text : JS.jsstring) : nat :=
  match text with
  | [] => 0%nat
  | c :: rest =>
      if JS.isWhiteSpace c then countNonWhiteSpace rest
      else S (countNonWhiteSpace rest)
  end.

(** "per-letter lighting rate, 0 for NonLit" *)
Definition specLightingRate (rules : Pricing.ChannelLetters) (lighting : string) : Q :=
  if (lighting =? LightingType.FRONT_LIT)%string
  then Pricing.FRONT_LIT (Pricing.LIGHTING_ADDER rules)
  else if (lighting =? LightingType.BACK_LIT)%string
  then Pricing.BACK_LIT (Pricing.LIGHTING_ADDER rules)
  else 0.

(** "Raw cost = letterCount * basePerLetter + letterCount * heightIn *
    perInchHeight + lighting adder + backer adder (flat, only if
    roundedBacker)" *)
Definition specChannelLettersRaw (PRICING : Pricing.Table) (dimensions : Dimensions)
    (text : JS.jsstring) (variant : DesignVariant) : Q :=
  let rules := Pricing.CHANNEL_LETTERS (Pricing.FABRICATION PRICING) in
  let n := JS.ofNat (countNonWhiteSpace text) in
  n * Pricing.BASE_PER_LETTER rules
  + n * heightIn dimensions * Pricing.PER_INCH_HEIGHT rules
  + n * specLightingRate rules (lighting variant)
  + (if roundedBacker variant then Pricing.BACKER_ADDER rules else 0).

(** The same variant with another lighting: [{ ...variant, lighting }]. *)
Definition withLighting (variant : DesignVariant) (l : string) : DesignVariant := {|
  name := name variant;
  fontFamily := fontFamily variant;
  letterSpacing := letterSpacing variant;
  lighting := l;
  roundedBacker := roundedBacker variant;
  stroke := stroke variant;
  strokeWidth := strokeWidth variant;
  recommendedLetterHeightIn := recommendedLetterHeightIn variant;
  color := color variant;
  backgroundColor := backgroundColor variant;
  description := description variant
|}.

(** The "minimum applied" line, whatever the price it prints. *)
Definition isMinimumApplied (a : FabAdder) : bool :=
  match a with
  | MinimumPricingApplied _ => true
  | _ => false
  end.

(** The tier table is strictly ascending by [maxFt]. *)
Inductive Ascending : list Pricing.Tier -> Prop :=
| Ascending_nil : Ascending []
| Ascending_cons t ts :
    Forall (fun u => Pricing.maxFt t < Pricing.maxFt u) ts ->
    Ascending ts ->
    Ascending (t :: ts).

(** ** Reading the lines of a quote *)

(** The number a fabrication line is built from, before it is formatted:
    the cost the line adds or, for the minimum line, the price it names. *)
Definition fabAmount (a : FabAdder) : Q :=
  match a with
  | LettersBase _ _ cost => cost
  | HeightAdder _ cost => cost
  | FrontLitUpgrade cost => cost
  | BackLitUpgrade cost => cost
  | RacewayBacker cost => cost
  | MinimumPricingApplied minPrice => minPrice
  | SizeSqft _ _ cost => cost
  | DepthAdder _ cost => cost
  | InternalIllumination cost => cost
  | Lamination cost => cost
  | RushOrder fee => fee
  end.

(** The number an installation line is built from, before it is formatted. *)
Definition installAmount (a : InstallAdder) : Q :=
  match a with
  | BaseTripFee fee => fee
  | Labor _ _ cost => cost
  | Lift _ cost => cost
  | ElectricalHookup cost => cost
  | PermitAllowance cost => cost
  | HardAccessParking cost => cost
  | Contingency amount => amount
  end.

(** [x.toFixed(fractionDigits)], read back as a number.  The sign is set
    aside; a magnitude of 10^21 or more is printed as it is; below that the
    digits are those of the integer n for which n / 10^fractionDigits is
    nearest the magnitude, the larger n of the two on a tie. *)
Definition toFixed (fractionDigits : nat) (x : Q) : Q :=
  let scale := inject_Z (10 ^ Z.of_nat fractionDigits) in
  let digits m :=
    if JS.leb (inject_Z (10 ^ 21)) m then m
    else inject_Z (Qfloor (m * scale + (1 # 2))) / scale in
  if JS.ltb x 0 then - digits (- x) else digits x.

(** The amount a fabrication line prints after its label (the last
    interpolation of its template, lines 25-100): through [toFixed(2)],
    except for the minimum price and the illumination of a lightbox, which
    are interpolated as they are. *)
Definition fabPrinted (a : FabAdder) : Q :=
  match a with
  | LettersBase _ _ cost => toFixed 2 cost
  | HeightAdder _ cost => toFixed 2 cost
  | FrontLitUpgrade cost => toFixed 2 cost
  | BackLitUpgrade cost => toFixed 2 cost
  | RacewayBacker cost => toFixed 2 cost
  | MinimumPricingApplied minPrice => minPrice
  | SizeSqft _ _ cost => toFixed 2 cost
  | DepthAdder _ cost => toFixed 2 cost
  | InternalIllumination cost => cost
  | Lamination cost => toFixed 2 cost
  | RushOrder fee => toFixed 2 fee
  end.

(** The amount an installation line prints after its label (lines
    109-137): labor and contingency through [toFixed(2)], the fees of the
    table as they are. *)
Definition installPrinted (a : InstallAdder) : Q :=
  match a with
  | BaseTripFee fee => fee
  | Labor _ _ cost => toFixed 2 cost
  | Lift _ cost => cost
  | ElectricalHookup cost => cost
  | PermitAllowance cost => cost
  | HardAccessParking cost => cost
  | Contingency amount => toFixed 2 amount
  end.

(** The sample table with tiers of half hours and a labor rate of half
    dollars, on which labor and contingency have fractions of a cent. *)
Definition halfHourPricing : Pricing.Table := {|
  Pricing.FABRICATION := Pricing.FABRICATION samplePricing;
  Pricing.INSTALLATION := {|
    Pricing.BASE_TRIP := 180;
    Pricing.HEIGHT_TIERS :=
      [ {| Pricing.maxFt := 12; Pricing.hours := 7 # 2 |};
        {| Pricing.maxFt := 20; Pricing.hours := 11 # 2 |} ];
    Pricing.LABOR_RATE := 185 # 2;
    Pricing.LIFT := {| Pricing.SCISSOR := 350; Pricing.BOOM := 750 |};
    Pricing.ELECTRICAL := 350;
    Pricing.PERMIT := 400;
    Pricing.HARD_ACCESS := 200;
    Pricing.CONTINGENCY_PERCENT := 10 # 100
  |};
  Pricing.TAX := Pricing.TAX samplePricing
|}.

Definition Qsum (xs : list Q) : Q := fold_right Qplus 0 xs.

(** The lighting lines of channel letters. *)
Definition isLightingUpgrade (a : FabAdder) : bool :=
  match a with
  | FrontLitUpgrade _ | BackLitUpgrade _ => true
  | _ => false
  end.

(** ** types.ts: the placement the design service detects *)

Record SignPlacement := {
  ymin : Q;
  xmin : Q;
  ymax : Q;
  xmax : Q
}.

(** ** More JavaScript: truthiness of strings, arrays with indices *)

Module JSArray.

(** [!s] is false: [s] is a string and not the empty one. *)
Definition truthy (s : option string) : bool :=
  match s with
  | Some s => negb (s =? "")%string
  | None => false
  end.

(** [a || b] with [a] a string or [undefined]. *)
Definition orElse (a : option string) (b : string) : string :=
  match a with
  | Some s => if (s =? "")%string then b else s
  | None => b
  end.

(** [xs.slice(0, n)] *)
Definition slice0 {A} (n : nat) (xs : list A) : list A := firstn n xs.

(** [xs.map((x, index) => f(x, index))], from the index [index] on. *)
Fixpoint mapFrom {A B} (f : A -> nat -> B) (index : nat) (xs : list A) : list B :=
  match xs with
  | [] => []
  | x :: rest => f x index :: mapFrom f (S index) rest
  end.

Definition map {A B} (f : A -> nat -> B) (xs : list A) : list B := mapFrom f 0 xs.

(** [xs.includes(x)] and [xs.filter(y => y !== x)] on strings. *)
Definition includes (xs : list string) (x : string) : bool :=
  existsb (fun y => (y =? x)%string) xs.

Definition without (xs : list string) (x : string) : list string :=
  List.filter (fun y => negb (y =? x)%string) xs.

End JSArray.

(** ** services/geminiService.ts *)

Module Gemini.

Record DesignResponse := {
  variants : list DesignVariant;
  placement : option SignPlacement
}.

Module OptionConfig.
Record t := {
  name : string;
  description : string
}.
End OptionConfig.

Definition optionA : OptionConfig.t := {|
  OptionConfig.name := "Option A – Standard Visibility";
  OptionConfig.description :=
    "Most common choice. Bright front-lit letters with excellent daytime and nighttime visibility."
|}.

Definition optionB : OptionConfig.t := {|
  OptionConfig.name := "Option B – Premium Halo (Recommended)";
  OptionConfig.description :=
    "Recommended for a premium look. Halo back-lit letters create an elegant, upscale appearance and higher perceived value."
|}.

Definition optionC : OptionConfig.t := {|
  OptionConfig.name := "Option C – Maximum Impact";
  OptionConfig.description :=
    "Best for maximum impact. Thicker, bolder letters improve readability for longer names or wider storefronts."
|}.

Definition OPTION_CONFIGS : list OptionConfig.t := [optionA; optionB; optionC].

(** The callback of [parsed.variants.slice(0, 3).map] (lines 128-137):
    [{ ...v, name, description, lighting }].  [OPTION_CONFIGS[0]] is
    [optionA]. *)
Definition postProcess (v : DesignVariant) (index : nat) : DesignVariant :=
  let config :=
    match nth_error OPTION_CONFIGS index with
    | Some c => c
    | None => optionA
    end in
  {|
    name := OptionConfig.name config;
    fontFamily := fontFamily v;
    letterSpacing := letterSpacing v;
    lighting := if (index =? 1)%nat then LightingType.BACK_LIT else LightingType.FRONT_LIT;
    roundedBacker := roundedBacker v;
    stroke := stroke v;
    strokeWidth := strokeWidth v;
    recommendedLetterHeightIn := recommendedLetterHeightIn v;
    color := color v;
    backgroundColor := backgroundColor v;
    description := Some (OptionConfig.description config)
  |}.

(** The response of the [catch] block (lines 144-190). *)
Definition fallbackResponse (allowedFonts : list string) : DesignResponse :=
  let fallbackFont := JSArray.orElse (nth_error allowedFonts 0) "Arial" in
  {|
    variants := [
      {| name := OptionConfig.name optionA;
         description := Some (OptionConfig.description optionA);
         fontFamily := fallbackFont;
         letterSpacing := "0em";
         lighting := LightingType.FRONT_LIT;
         roundedBacker := false;
         stroke := false;
         strokeWidth := "0px";
         recommendedLetterHeightIn := 18;
         color := Some "#ffffff"%string;
         backgroundColor := Some "#000000"%string |};
      {| name := OptionConfig.name optionB;
         description := Some (OptionConfig.description optionB);
         fontFamily := JSArray.orElse (nth_error allowedFonts 1) fallbackFont;
         letterSpacing := "0.2em";
         lighting := LightingType.BACK_LIT;
         roundedBacker := false;
         stroke := true;
         strokeWidth := "1px";
         recommendedLetterHeightIn := 14;
         color := Some "#333333"%string;
         backgroundColor := None |};
      {| name := OptionConfig.name optionC;
         description := Some (OptionConfig.description optionC);
         fontFamily := JSArray.orElse (nth_error allowedFonts 2) fallbackFont;
         letterSpacing := "0em";
         lighting := LightingType.FRONT_LIT;
         roundedBacker := true;
         stroke := true;
         strokeWidth := "2px";
         recommendedLetterHeightIn := 24;
         color := Some "#ff0000"%string;
         backgroundColor := None |}
    ];
    placement := Some {| ymin := 2 # 10; xmin := 3 # 10; ymax := 4 # 10; xmax := 7 # 10 |}
  |}.

(** What [ai.models.generateContent] comes back with: a rejection, or a
    response whose [text] is a string or [undefined]. *)
Inductive Reply :=
| Fails
| Response (text : option string).

(** What the [try] block reads of [JSON.parse(jsonText)]. *)
Record Parsed := {
  parsedVariants : list DesignVariant;
  parsedPlacement : option SignPlacement
}.

(** A settled promise. *)
Inductive Promise (A : Type) :=
| Resolved (a : A)
| Rejected (message : string).
Arguments Resolved {A} a.
Arguments Rejected {A} message.

Section Service.

(** [process.env.API_KEY]. *)
Variable API_KEY : option string.

(** [getAllFonts()] of constants.ts. *)
Variable getAllFonts : list string.

(** The model behind [generateContent].  The request (prompt, image part,
    system instruction) is built from these five values and from nothing
    else. *)
Variable generateContent :
  JS.jsstring -> string -> list string -> option string -> string -> Reply.

(** [JSON.parse] followed by the reads of [parsed.variants] and
    [parsed.placement]; [None] when one of them throws. *)
Variable JSON_parse : string -> option Parsed.

(** The [try] block (lines 97-143); [None] when it throws. *)
Definition tryGenerate (text : JS.jsstring) (signType : string)
    (allowedFonts : list string) (imageBase64 : option string) (userContext : string)
    : option DesignResponse :=
  match generateContent text signType allowedFonts imageBase64 userContext with
  | Fails => None
  | Response None => None
  | Response (Some jsonText) =>
      if negb (JSArray.truthy (Some jsonText)) then None
      else
        match JSON_parse jsonText with
        | None => None
        | Some parsed =>
            let mappedVariants :=
              JSArray.map postProcess (JSArray.slice0 3 (parsedVariants parsed)) in
            Some {| variants := mappedVariants; placement := parsedPlacement parsed |}
        end
  end.

(** [generateDesignVariants] (lines 84-191).  An argument left out is
    [None]: [allowedFonts] then is [getAllFonts()] and [userContext] is the
    empty string.  The [console.error] of the [catch] block is not kept. *)
Definition generateDesignVariants (text : JS.jsstring) (signType : string)
    (allowedFonts : option (list string)) (imageBase64 : option string)
    (userContext : option string) : Promise DesignResponse :=
  let allowedFonts :=
    match allowedFonts with Some fonts => fonts | None => getAllFonts end in
  let userContext :=
    match userContext with Some c => c | None => ""%string end in
  if negb (JSArray.truthy API_KEY) then Rejected "API Key is missing"
  else
    match tryGenerate text signType allowedFonts imageBase64 userContext with
    | Some response => Resolved response
    | None => Resolved (fallbackResponse allowedFonts)
    end.

End Service.

End Gemini.

(** An environment to run the service in: a key, a font list with a blank
    entry, a model that gives one fixed reply, and a parser that accepts
    the text "ok" as four variants, all of them non-lit. *)
Definition sampleFonts : list string := ["Montserrat"; ""; "Oswald"]%string.

Definition sampleModel (reply : Gemini.Reply)
    : JS.jsstring -> string -> list string -> option string -> string -> Gemini.Reply :=
  fun _ _ _ _ _ => reply.

Definition sampleParse (jsonText : string) : option Gemini.Parsed :=
  if (jsonText =? "ok")%string then
    Some {|
      Gemini.parsedVariants := [
        sampleVariant LightingType.NON_LIT false;
        sampleVariant LightingType.NON_LIT true;
        sampleVariant LightingType.NON_LIT false;
        sampleVariant LightingType.NON_LIT true ];
      Gemini.parsedPlacement := None
    |}
  else None.

(** ** App.tsx

    The component is the last file of [src/unnamed/part_000]; the line
    numbers are those of [part_000]. *)

Module App.

(** [toggleFontSelection] (lines 357-361), as the update it passes to
    [setSelectedFonts]. *)
Definition toggleFontSelection (font : string) (prev : list string) : list string :=
  if JSArray.includes prev font then JSArray.without prev font else prev ++ [font].

(** What [doc.text] is given: one constructor per template or literal. *)
Inductive PdfText :=
| Literal (s : string)
| ClientLine (clientName : string)
| AddressLine (address : string)
| DateLine
| TypeLine (signType : string)
| ContentLine (signText : JS.jsstring)
| HeightLine (heightIn : Q)
| SizeLine (widthIn heightIn : Q)
| OptionLine (name : string)
| DescriptionLines (description : string) (maxWidth : Q)
| FontLine (fontFamily : string)
| LightingLine (lighting : string)
| FabricationLine (line : FabAdder)
| InstallationLine (line : InstallAdder)
| SubtotalLine (subtotal : Q)
| GstLine (gst : Q)
| TotalLine (total : Q).

(** The calls on the jsPDF document, in the order they are made. *)
Inductive PdfOp :=
| setFontSize (size : Q)
| text (t : PdfText) (x y : Q)
| setLineWidth (width : Q)
| line (x1 y1 x2 y2 : Q)
| setFont (fontName fontStyle : string)
| save (filename : string).

(** [lines.forEach(line => { doc.text(`- ${line}`, 25, y); y += 5; })]:
    the calls and the [y] the loop ends with. *)
Fixpoint forEachLine {A} (print : A -> PdfText) (lines : list A) (y : Q)
    : list PdfOp * Q :=
  match lines with
  | [] => ([], y)
  | l :: rest =>
      let '(ops, y') := forEachLine print rest (y + 5) in
      (text (print l) 25 y :: ops, y')
  end.

(** [handleExportPDF] (lines 418-498): [None] when it returns at once, the
    calls on the document otherwise. *)
Definition handleExportPDF (quote : option QuoteResult)
    (selectedVariant : option DesignVariant) (installConfig : InstallConfig)
    (signType : string) (signText : JS.jsstring) (widthIn heightIn : Q)
    : option (list PdfOp) :=
  match quote, selectedVariant with
  | Some quote, Some selectedVariant =>
      let head :=
        [ setFontSize 20;
          text (Literal "Signage Quote") 20 20;
          setFontSize 12;
          text (ClientLine (clientName installConfig)) 20 35;
          text (AddressLine (address installConfig)) 20 42;
          text DateLine 20 49;
          setLineWidth (1 # 2);
          line 20 55 190 55;
          setFontSize 14;
          text (Literal "Sign Specifications") 20 65;
          setFontSize 10;
          text (TypeLine signType) 20 72;
          text (ContentLine signText) 20 77;
          text (if (signType =? SignType.CHANNEL_LETTERS)%string
                then HeightLine heightIn else SizeLine widthIn heightIn) 20 82;
          text (OptionLine (name selectedVariant)) 20 87;
          setFont "helvetica" "italic";
          setFontSize 9;
          text (DescriptionLines
                  (JSArray.orElse (description selectedVariant) "") 170) 20 92;
          setFont "helvetica" "normal";
          setFontSize 10;
          text (FontLine (fontFamily selectedVariant)) 20 105;
          text (LightingLine (lighting selectedVariant)) 20 110 ] in
      let y := 120 in
      let ops := head ++ [setFontSize 14; text (Literal "Pricing Breakdown") 20 y] in
      let y := y + 8 in
      let ops :=
        ops ++ [setFontSize 10; setFont "helvetica" "bold";
                text (Literal "Fabrication") 20 y] in
      let y := y + 5 in
      let ops := ops ++ [setFont "helvetica" "normal"] in
      let '(fabOps, y) := forEachLine FabricationLine (fabAdders (breakdown quote)) y in
      let ops := ops ++ fabOps in
      let y := y + 5 in
      let ops := ops ++ [setFont "helvetica" "bold"; text (Literal "Installation") 20 y] in
      let y := y + 5 in
      let ops := ops ++ [setFont "helvetica" "normal"] in
      let '(installOps, y) :=
        forEachLine InstallationLine (installAdders (breakdown quote)) y in
      let ops := ops ++ installOps in
      let y := y + 10 in
      let ops := ops ++ [line 20 y 190 y] in
      let y := y + 10 in
      let ops := ops ++ [setFontSize 12; text (SubtotalLine (subtotal quote)) 140 y] in
      let y := y + 7 in
      let ops := ops ++ [text (GstLine (gst quote)) 140 y] in
      let y := y + 10 in
      let ops :=
        ops ++ [setFontSize 16; setFont "helvetica" "bold";
                text (TotalLine (total quote)) 140 y] in
      let y := y + 30 in
      let ops :=
        ops ++ [setFontSize 8; setFont "helvetica" "italic";
                text (Literal "Valid for 30 days. 50% deposit required to begin production.")
                     20 y] in
      Some (ops ++ [save "sign_quote.pdf"])
  | _, _ => None
  end.

(** The [y] of every [doc.text] call, in order. *)
Definition textRows (ops : list PdfOp) : list Q :=
  flat_map (fun op => match op with text _ _ y => [y] | _ => [] end) ops.

(** The fabrication and the installation lines a document prints. *)
Definition printedFabrication (ops : list PdfOp) : list FabAdder :=
  flat_map (fun op => match op with text (FabricationLine l) _ _ => [l] | _ => [] end) ops.

Definition printedInstallation (ops : list PdfOp) : list InstallAdder :=
  flat_map (fun op => match op with text (InstallationLine l) _ _ => [l] | _ => [] end) ops.

(** *** The state of the component and its handlers *)

(** A file stands for itself; nothing but [fileToBase64] reads it. *)
Definition File := string.

(** The [useState] cells of [App] (lines 286-327). *)
Module State.
Record t := {
  step : nat;
  imageFile : option File;
  pxPerInch : option Q;
  signType : string;
  signText : JS.jsstring;
  widthIn : Q;
  heightIn : Q;
  isRush : bool;
  lightboxDepth : Q;
  hasLamination : bool;
  fontCategory : string;
  selectedFonts : list string;
  useSelectedFontsOnly : bool;
  installConfig : InstallConfig;
  isGenerating : bool;
  variants : list DesignVariant;
  selectedVariant : option DesignVariant;
  placement : option SignPlacement
}.
End State.

(** The state the component mounts with. *)
Definition initialState : State.t := {|
  State.step := 1;
  State.imageFile := None;
  State.pxPerInch := None;
  State.signType := SignType.CHANNEL_LETTERS;
  State.signText := JS.ofString "OPEN";
  State.widthIn := 0;
  State.heightIn := 18;
  State.isRush := false;
  State.lightboxDepth := 4;
  State.hasLamination := false;
  State.fontCategory := "General Commercial";
  State.selectedFonts := [];
  State.useSelectedFontsOnly := true;
  State.installConfig := {|
    heightFeet := 10;
    liftType := "NONE";
    electricalWork := true;
    permit := true;
    hardAccess := false;
    address := "";
    clientName := ""
  |};
  State.isGenerating := false;
  State.variants := [];
  State.selectedVariant := None;
  State.placement := None
|}.

(** What a handler calls: the setters of the cells it writes, and [alert]. *)
Inductive Call :=
| setImageFile (file : option File)
| setStep (step : nat)
| setPlacement (placement : option SignPlacement)
| setVariants (variants : list DesignVariant)
| setSelectedVariant (variant : option DesignVariant)
| setPxPerInch (value : option Q)
| setHeightIn (value : Q)
| setIsGenerating (value : bool)
| alert (message : string).

(** One call, on the state. *)
Definition apply (s : State.t) (c : Call) : State.t :=
  let with_ step imageFile pxPerInch heightIn isGenerating variants selectedVariant
           placement :=
    {| State.step := step;
       State.imageFile := imageFile;
       State.pxPerInch := pxPerInch;
       State.signType := State.signType s;
       State.signText := State.signText s;
       State.widthIn := State.widthIn s;
       State.heightIn := heightIn;
       State.isRush := State.isRush s;
       State.lightboxDepth := State.lightboxDepth s;
       State.hasLamination := State.hasLamination s;
       State.fontCategory := State.fontCategory s;
       State.selectedFonts := State.selectedFonts s;
       State.useSelectedFontsOnly := State.useSelectedFontsOnly s;
       State.installConfig := State.installConfig s;
       State.isGenerating := isGenerating;
       State.variants := variants;
       State.selectedVariant := selectedVariant;
       State.placement := placement |} in
  match c with
  | setImageFile file =>
      with_ (State.step s) file (State.pxPerInch s) (State.heightIn s)
        (State.isGenerating s) (State.variants s) (State.selectedVariant s)
        (State.placement s)
  | setStep step =>
      with_ step (State.imageFile s) (State.pxPerInch s) (State.heightIn s)
        (State.isGenerating s) (State.variants s) (State.selectedVariant s)
        (State.placement s)
  | setPlacement placement =>
      with_ (State.step s) (State.imageFile s) (State.pxPerInch s) (State.heightIn s)
        (State.isGenerating s) (State.variants s) (State.selectedVariant s) placement
  | setVariants variants =>
      with_ (State.step s) (State.imageFile s) (State.pxPerInch s) (State.heightIn s)
        (State.isGenerating s) variants (State.selectedVariant s) (State.placement s)
  | setSelectedVariant variant =>
      with_ (State.step s) (State.imageFile s) (State.pxPerInch s) (State.heightIn s)
        (State.isGenerating s) (State.variants s) variant (State.placement s)
  | setPxPerInch value =>
      with_ (State.step s) (State.imageFile s) value (State.heightIn s)
        (State.isGenerating s) (State.variants s) (State.selectedVariant s)
        (State.placement s)
  | setHeightIn value =>
      with_ (State.step s) (State.imageFile s) (State.pxPerInch s) value
        (State.isGenerating s) (State.variants s) (State.selectedVariant s)
        (State.placement s)
  | setIsGenerating value =>
      with_ (State.step s) (State.imageFile s) (State.pxPerInch s) (State.heightIn s)
        value (State.variants s) (State.selectedVariant s) (State.placement s)
  | alert _ => s
  end.

(** The state once the calls of a handler are through, no other event
    coming in between. *)
Definition run (calls : list Call) (s : State.t) : State.t := fold_left apply calls s.

(** [handleImageLoaded] (lines 344-350). *)
Definition handleImageLoaded (file : File) : list Call :=
  [setImageFile (Some file); setStep 1; setPlacement None; setVariants [];
   setSelectedVariant None].

(** [handleCalibrated] (lines 352-355). *)
Definition handleCalibrated (val : Q) : list Call :=
  [setPxPerInch (Some val)] ++ (if JS.gtb val 0 then [setStep 2] else []).

(** What [handleFileChange] of ImageCalibrator.tsx (lines 21-33) calls on
    the application once a file is chosen: [onImageLoaded], then
    [onCalibrated(0)]. *)
Definition handleFileChange (file : File) : list Call :=
  handleImageLoaded file ++ handleCalibrated 0.

(** The click on the card of a variant (lines 671-674). *)
Definition selectVariant (s : State.t) (v : DesignVariant) : list Call :=
  [setSelectedVariant (Some v)]
  ++ (if (State.signType s =? SignType.CHANNEL_LETTERS)%string
      then [setHeightIn (recommendedLetterHeightIn v)] else []).

(** [disabled={isGenerating || !pxPerInch}] of the generate button: a
    number is falsy when it is [null] or 0. *)
Definition generateDisabled (s : State.t) : bool :=
  State.isGenerating s
  || negb (match State.pxPerInch s with
           | Some v => negb (JS.eqb v 0)
           | None => false
           end).

(** [v.name.includes("Recommended")] (line 667). *)
Definition isRecommended (v : DesignVariant) : bool :=
  match String.index 0 "Recommended" (name v) with
  | Some _ => true
  | None => false
  end.

Section Handlers.

Variable PRICING : Pricing.Table.

(** [FONT_LIBRARY[category]] of constants.ts; [None] for [undefined]. *)
Variable FONT_LIBRARY : string -> option (list string).

(** [fileToBase64] (lines 363-375), settled: [None] when the reader fails,
    [Some None] when the data URL has no comma. *)
Variable fileToBase64 : File -> option (option string).

Variable API_KEY : option string.
Variable getAllFonts : list string.
Variable generateContent :
  JS.jsstring -> string -> list string -> option string -> string -> Gemini.Reply.
Variable JSON_parse : string -> option Gemini.Parsed.

(** The [quote] memo (lines 329-342): [None] for [null]. *)
Definition quote (s : State.t) : option (JS.result QuoteResult) :=
  match State.selectedVariant s with
  | None => None
  | Some selectedVariant =>
      Some (calculateQuote PRICING (State.signType s)
              {| widthIn := State.widthIn s; heightIn := State.heightIn s |}
              (State.signText s) selectedVariant (State.installConfig s)
              (State.isRush s) (State.hasLamination s) (State.lightboxDepth s))
  end.

(** The [try] block of [handleGenerateDesigns] (lines 380-409): [None]
    when one of its two awaits rejects, which is before any setter. *)
Definition tryGenerateDesigns (s : State.t) : option (list Call) :=
  match
    match State.imageFile s with
    | Some imageFile => fileToBase64 imageFile
    | None => Some None
    end
  with
  | None => None
  | Some imageBase64 =>
      let allowedFonts :=
        if State.useSelectedFontsOnly s
           && (0 <? List.length (State.selectedFonts s))%nat
        then Some (State.selectedFonts s)
        else FONT_LIBRARY (State.fontCategory s) in
      match Gemini.generateDesignVariants API_KEY getAllFonts generateContent JSON_parse
              (State.signText s) (State.signType s) allowedFonts imageBase64 None with
      | Gemini.Rejected _ => None
      | Gemini.Resolved response =>
          Some ([setVariants (Gemini.variants response);
                 setPlacement (Gemini.placement response)]
                ++ match Gemini.variants response with
                   | first :: _ =>
                       [setSelectedVariant (Some first)]
                       ++ (if (State.signType s =? SignType.CHANNEL_LETTERS)%string
                           then [setHeightIn (recommendedLetterHeightIn first)]
                           else [])
                   | [] => []
                   end
                ++ [setStep 3])
      end
  end.

(** [handleGenerateDesigns] (lines 377-416). *)
Definition handleGenerateDesigns (s : State.t) : list Call :=
  match State.signText s with
  | [] => []
  | _ :: _ =>
      [setIsGenerating true]
      ++ match tryGenerateDesigns s with
         | Some calls => calls
         | None => [alert "Failed to generate designs. Please try again."]
         end
      ++ [setIsGenerating false]
  end.

End Handlers.

End App.

(** Rows of text that go down the page, from [lo] at the least to [hi] at
    the most. *)
Definition Rows (lo hi : Q) (rows : list Q) : Prop :=
  StronglySorted Qlt rows /\ Forall (fun y => lo <= y /\ y <= hi) rows.

(** ** components/DraggableSign.tsx

    The component is the first file of [src/unnamed/part_000]. *)

Module DraggableSign.

Record Point := {
  x : Q;
  y : Q
}.


(** The size of the sign on the photo (lines 22-23). *)
Definition heightPx (dimensions : Dimensions) (pxPerInch : Q) : Q :=
  heightIn dimensions * pxPerInch.

Definition widthPx (dimensions : Dimensions) (pxPerInch : Q) : Q :=
  widthIn dimensions * pxPerInch.

(** The three [useState] cells and the [dragStart] ref. *)
Record State := {
  position : Point;
  isDragging : bool;
  hasInitialized : bool;
  dragStart : Point
}.

Definition initialState : State := {|
  position := {| x := 0; y := 0 |};
  isDragging := false;
  hasInitialized := false;
  dragStart := {| x := 0; y := 0 |}
|}.


(** The handlers (lines 50-69), on the pointer position [clientX],
    [clientY] of the event. *)
Definition handleMouseDown (clientX clientY : Q) (s : State) : State := {|
  position := position s;
  isDragging := true;
  hasInitialized := hasInitialized s;
  dragStart := {| x := clientX - x (position s); y := clientY - y (position s) |}
|}.

Definition handleMouseMove (clientX clientY : Q) (s : State) : State :=
  if negb (isDragging s) then s
  else {|
    position := {| x := clientX - x (dragStart s); y := clientY - y (dragStart s) |};
    isDragging := isDragging s;
    hasInitialized := hasInitialized s;
    dragStart := dragStart s
  |}.

Definition handleMouseUp (s : State) : State := {|
  position := position s;
  isDragging := false;
  hasInitialized := hasInitialized s;
  dragStart := dragStart s
|}.

(** The mouse events the component listens to, one render apart. *)
Inductive Event :=
| MouseDown (clientX clientY : Q)
| MouseMove (clientX clientY : Q)
| MouseUp.

Definition step (s : State) (e : Event) : State :=
  match e with
  | MouseDown clientX clientY => handleMouseDown clientX clientY s
  | MouseMove clientX clientY => handleMouseMove clientX clientY s
  | MouseUp => handleMouseUp s
  end.

Definition run (events : list Event) (s : State) : State := fold_left step events s.



(** One layer of [text-shadow]: offsets, blur radius (all in px), colour. *)
Record Shadow := {
  offsetX : Q;
  offsetY : Q;
  blur : Q;
  shadowColor : string
}.

(** [Math.round]: the nearest integer, a tie going up. *)
Definition Math_round (q : Q) : Z := Qfloor (q + (1 # 2)).

(** [Math.max(2, Math.round(heightPx * 0.04))] (line 125). *)
Definition depthPx (heightPx : Q) : Z := Z.max 2 (Math_round (heightPx * (4 # 100))).

(** The [shadows] array of channel letters (lines 125-161). *)
Definition channelLetterShadows (variant : DesignVariant) (heightPx : Q) : list Shadow :=
  let depthPx := depthPx heightPx in
  let shadows := [] in
  let shadows :=
    shadows ++ [{| offsetX := -1; offsetY := -1; blur := 1;
                   shadowColor := "rgba(255,255,255,0.5)" |}] in
  let returnColor := "#1a1a1a"%string in
  let shadows :=
    shadows
    ++ List.map (fun i => {| offsetX := JS.ofNat i; offsetY := JS.ofNat i; blur := 0;
                             shadowColor := returnColor |})
                (seq 1 (Z.to_nat depthPx)) in
  let castDistance := inject_Z depthPx + 3 in
  if (lighting variant =? LightingType.BACK_LIT)%string then
    let glowColor := JSArray.orElse (color variant) "#ffffff" in
    shadows
    ++ [{| offsetX := castDistance; offsetY := castDistance;
           blur := heightPx * (1 # 10); shadowColor := glowColor |}]
    ++ [{| offsetX := castDistance; offsetY := castDistance;
           blur := heightPx * (3 # 10); shadowColor := glowColor |}]
  else if (lighting variant =? LightingType.FRONT_LIT)%string then
    shadows
    ++ [{| offsetX := castDistance; offsetY := castDistance;
           blur := heightPx * (15 # 100); shadowColor := "rgba(0,0,0,0.6)" |}]
  else
    shadows
    ++ [{| offsetX := castDistance; offsetY := castDistance;
           blur := heightPx * (8 # 100); shadowColor := "rgba(0,0,0,0.5)" |}].

End DraggableSign.

(** The pointer passing over [points], a move event at each. *)
Definition moves (points : list DraggableSign.Point) : list DraggableSign.Event :=
  List.map (fun p => DraggableSign.MouseMove (DraggableSign.x p) (DraggableSign.y p))
           points.


(** ** components/ImageCalibrator.tsx *)

Module ImageCalibrator.

Record Point := {
  x : Q;
  y : Q
}.

(** [imageRef.current.getBoundingClientRect()], as far as it is read. *)
Record Rect := {
  left : Q;
  top : Q
}.

(** The [useState] cells of the component (lines 12-17). *)
Record State := {
  imageUrl : option string;
  isDrawing : bool;
  startPoint : option Point;
  endPoint : option Point;
  showInput : bool;
  realDistance : string
}.

Definition initialState : State := {|
  imageUrl := None;
  isDrawing := false;
  startPoint := None;
  endPoint := None;
  showInput := false;
  realDistance := ""
|}.

(** The two callbacks the component is given. *)
Inductive Callback :=
| onImageLoaded (file : App.File) (imageUrl : string)
| onCalibrated (pxPerInch : Q).

(** A number is truthy unless it is [null] or 0. *)
Definition truthyNumber (n : option Q) : bool :=
  match n with
  | Some v => negb (JS.eqb v 0)
  | None => false
  end.

(** [getCoords] (lines 35-42); [rect] is [None] without [imageRef.current]. *)
Definition getCoords (rect : option Rect) (clientX clientY : Q) : Point :=
  match rect with
  | None => {| x := 0; y := 0 |}
  | Some rect => {| x := clientX - left rect; y := clientY - top rect |}
  end.

(** [handleMouseDown] (lines 44-52); [pxPerInch] is the prop. *)
Definition handleMouseDown (pxPerInch : option Q) (rect : option Rect)
    (clientX clientY : Q) (s : State) : State :=
  if negb (JSArray.truthy (imageUrl s)) || truthyNumber pxPerInch then s
  else if showInput s then s
  else
    let coords := getCoords rect clientX clientY in
    {| imageUrl := imageUrl s;
       isDrawing := true;
       startPoint := Some coords;
       endPoint := Some coords;
       showInput := showInput s;
       realDistance := realDistance s |}.

(** [handleMouseMove] (lines 54-57). *)
Definition handleMouseMove (rect : option Rect) (clientX clientY : Q) (s : State)
    : State :=
  if negb (isDrawing s) then s
  else
    {| imageUrl := imageUrl s;
       isDrawing := isDrawing s;
       startPoint := startPoint s;
       endPoint := Some (getCoords rect clientX clientY);
       showInput := showInput s;
       realDistance := realDistance s |}.

(** [handleMouseUp] (lines 59-63). *)
Definition handleMouseUp (s : State) : State :=
  if negb (isDrawing s) then s
  else
    {| imageUrl := imageUrl s;
       isDrawing := false;
       startPoint := startPoint s;
       endPoint := endPoint s;
       showInput := true;
       realDistance := realDistance s |}.

(** The [onChange] of the distance input (line 149). *)
Definition handleDistanceChange (value : string) (s : State) : State :=
  {| imageUrl := imageUrl s;
     isDrawing := isDrawing s;
     startPoint := startPoint s;
     endPoint := endPoint s;
     showInput := showInput s;
     realDistance := value |}.

(** [resetCalibration] (lines 78-84). *)
Definition resetCalibration (s : State) : State * list Callback :=
  ({| imageUrl := imageUrl s;
      isDrawing := isDrawing s;
      startPoint := None;
      endPoint := None;
      showInput := false;
      realDistance := "" |},
   [onCalibrated 0]).

Section Handlers.

(** [URL.createObjectURL]. *)
Variable createObjectURL : App.File -> string.

(** [Math.sqrt], on the exact numbers of this model. *)
Variable Math_sqrt : Q -> Q.

(** [parseFloat]; [None] for [NaN]. *)
Variable parseFloat : string -> option Q.

(** [handleFileChange] (lines 21-33); [file] is [e.target.files[0]]. *)
Definition handleFileChange (file : option App.File) (s : State)
    : State * list Callback :=
  match file with
  | Some file =>
      let url := createObjectURL file in
      ({| imageUrl := Some url;
          isDrawing := isDrawing s;
          startPoint := None;
          endPoint := None;
          showInput := false;
          realDistance := realDistance s |},
       [onImageLoaded file url; onCalibrated 0])
  | None => (s, [])
  end.

(** [submitCalibration] (lines 65-76). *)
Definition submitCalibration (s : State) : State * list Callback :=
  match startPoint s, endPoint s with
  | Some startPoint, Some endPoint =>
      let dx := x endPoint - x startPoint in
      let dy := y endPoint - y startPoint in
      let distPx := Math_sqrt (dx * dx + dy * dy) in
      match parseFloat (realDistance s) with
      | Some inches =>
          if JS.gtb inches 0 then
            ({| imageUrl := imageUrl s;
                isDrawing := isDrawing s;
                startPoint := Some startPoint;
                endPoint := Some endPoint;
                showInput := false;
                realDistance := realDistance s |},
             [onCalibrated (distPx / inches)])
          else (s, [])
      | None => (s, [])
      end
  | _, _ => (s, [])
  end.

End Handlers.

(** The callbacks, as the calls they make on the application
    ([handleImageLoaded] and [handleCalibrated] of App.tsx). *)
Definition callApp (c : Callback) : list App.Call :=
  match c with
  | onImageLoaded file _ => App.handleImageLoaded file
  | onCalibrated pxPerInch => App.handleCalibrated pxPerInch
  end.

End ImageCalibrator.

(** An integer square root, to run [submitCalibration] on squares. *)
Definition sampleSqrt (q : Q) : Q := inject_Z (Z.sqrt (Qfloor q)).

(** A [parseFloat] for the strings the examples type. *)
Definition sampleParseFloat (s : string) : option Q :=
  if (s =? "36")%string then Some 36
  else if (s =? "0")%string then Some 0
  else None.
(** * Properties *)

(** ** Numbers *)

Lemma ltb_spec (x y : Q) : JS.ltb x y = true <-> x < y.
Proof.
  unfold JS.ltb. rewrite negb_true_iff.
  destruct (Qle_bool y x) eqn:E.
  - apply Qle_bool_iff in E. split; [discriminate | intro H; exfalso; lra].
  - split; [intros _ | reflexivity].
    destruct (Qlt_le_dec x y) as [L | L]; [exact L |].
    apply Qle_bool_iff in L. congruence.
Qed.

Lemma ltb_false (x y : Q) : JS.ltb x y = false <-> y <= x.
Proof.
  unfold JS.ltb. rewrite negb_false_iff. apply Qle_bool_iff.
Qed.

Lemma leb_spec (x y : Q) : JS.leb x y = true <-> x <= y.
Proof. apply Qle_bool_iff. Qed.

Lemma leb_false (x y : Q) : JS.leb x y = false <-> y < x.
Proof.
  rewrite <- ltb_spec. unfold JS.leb, JS.ltb.
  destruct (Qle_bool x y); simpl; intuition congruence.
Qed.

Lemma Math_max_floor (x m : Q) : x < m -> JS.Math_max x m = m.
Proof.
  intro H. unfold JS.Math_max, Qmax, GenericMinMax.gmax.
  assert (E : (x ?= m) = Lt) by (apply -> Qlt_alt; exact H).
  now rewrite E.
Qed.

Lemma Math_max_raw (x m : Q) : m <= x -> JS.Math_max x m = x.
Proof.
  intro H. unfold JS.Math_max, Qmax, GenericMinMax.gmax.
  destruct (x ?= m) eqn:E; try reflexivity.
  apply <- Qlt_alt in E. exfalso; lra.
Qed.

(** The guard of the "minimum applied" line: its first conjunct follows
    from its second one. *)
Lemma minimum_guard (rawCost m : Q) :
  JS.eqb (JS.Math_max rawCost m) m && JS.ltb rawCost m = JS.ltb rawCost m.
Proof.
  destruct (JS.ltb rawCost m) eqn:E; [| apply andb_false_r].
  apply ltb_spec in E. rewrite (Math_max_floor _ _ E).
  unfold JS.eqb. now rewrite Qeq_bool_refl.
Qed.

(** ** The shape of a quote *)

Section Shape.

Variable PRICING : Pricing.Table.

Let iRules := Pricing.INSTALLATION PRICING.

Lemma lastElement_some {A} (xs : list A) : xs <> [] -> exists x, JS.lastElement xs = Some x.
Proof.
  intro H. unfold JS.lastElement.
  destruct (nth_error xs (List.length xs - 1)) eqn:E; [now eexists |].
  apply nth_error_None in E. destruct xs; [congruence | simpl in E; lia].
Qed.

Lemma lastElement_snoc {A} (xs : list A) (x : A) : JS.lastElement (xs ++ [x]) = Some x.
Proof.
  unfold JS.lastElement. rewrite length_app. simpl.
  replace (List.length xs + 1 - 1)%nat with (List.length xs) by lia.
  rewrite nth_error_app2 by lia. now rewrite Nat.sub_diag.
Qed.

Lemma lastElement_is_last {A} (xs : list A) (x : A) :
  JS.lastElement xs = Some x -> exists pre, xs = pre ++ [x].
Proof.
  destruct xs as [| a xs'] using rev_ind; [discriminate |].
  rewrite lastElement_snoc. intros [= ->]. now eexists.
Qed.

Lemma selectTier_some (installConfig : InstallConfig) :
  Pricing.HEIGHT_TIERS iRules <> [] ->
  exists tier, selectTier PRICING installConfig = Some tier.
Proof.
  intro H. unfold selectTier. fold iRules.
  destruct (JS.find _ _); [now eexists |].
  now apply lastElement_some.
Qed.

Lemma selectTier_none (installConfig : InstallConfig) :
  Pricing.HEIGHT_TIERS iRules = [] ->
  selectTier PRICING installConfig = None.
Proof.
  intro H. unfold selectTier. fold iRules. now rewrite H.
Qed.

(** The lift cost of lines 116-118. *)
Lemma calculateQuote_inv signType dimensions text variant installConfig
    isRush hasLamination lightboxDepth r :
  calculateQuote PRICING signType dimensions text variant installConfig
    isRush hasLamination lightboxDepth = JS.Ok r ->
  let fab := rushOrder PRICING isRush
    (fabrication PRICING signType dimensions text variant hasLamination lightboxDepth) in
  exists tier,
    selectTier PRICING installConfig = Some tier
    /\ fabricationCost r = fst fab
    /\ fabAdders (breakdown r) = snd fab
    /\ fabBase (breakdown r) = fabricationCost r
    /\ installLabor (breakdown r) = Pricing.hours tier * Pricing.LABOR_RATE iRules
    /\ In (Labor (Pricing.hours tier) (Pricing.LABOR_RATE iRules)
             (Pricing.hours tier * Pricing.LABOR_RATE iRules))
          (installAdders (breakdown r))
    /\ installLift (breakdown r) =
         (if (liftType installConfig =? "BOOM")%string
          then Pricing.BOOM (Pricing.LIFT iRules)
          else if (liftType installConfig =? "SCISSOR")%string
          then Pricing.SCISSOR (Pricing.LIFT iRules) else 0)
    /\ ((exists l c, In (Lift l c) (installAdders (breakdown r))) ->
        0 < installLift (breakdown r))
    /\ subtotal r = fabricationCost r + installationCost r
    /\ gst r = subtotal r * Pricing.GST (Pricing.TAX PRICING)
    /\ total r = subtotal r + gst r.
Proof.
  unfold calculateQuote. fold iRules.
  destruct (rushOrder _ _ _) as [fabCost fabAdders0].
  destruct (selectTier PRICING installConfig) as [tier |]; [| discriminate].
  intros H. exists tier. simpl in H.
  set (liftCost := if (liftType installConfig =? "BOOM")%string then _ else _) in H.
  destruct (JS.gtb liftCost 0) eqn:G;
    destruct (electricalWork installConfig), (permit installConfig),
      (hardAccess installConfig);
    injection H as <-; simpl;
    (repeat split; try reflexivity;
     [ repeat (rewrite in_app_iff; simpl); tauto
     | intros (l & c & HIn); repeat (rewrite in_app_iff in HIn; simpl in HIn);
       try (apply ltb_spec; exact G);
       repeat destruct HIn as [HIn | HIn]; try discriminate; try contradiction ]).
Qed.

Lemma calculateQuote_returns signType dimensions text variant installConfig
    isRush hasLamination lightboxDepth :
  Pricing.HEIGHT_TIERS iRules <> [] ->
  exists r, calculateQuote PRICING signType dimensions text variant installConfig
              isRush hasLamination lightboxDepth = JS.Ok r.
Proof.
  intro H. destruct (selectTier_some installConfig H) as [tier E].
  unfold calculateQuote.
  destruct (rushOrder _ _ _) as [fabCost fabAdders0].
  rewrite E. simpl.
  destruct (JS.gtb _ 0), (electricalWork installConfig), (permit installConfig),
    (hardAccess installConfig); now eexists.
Qed.

Lemma calculateQuote_throws signType dimensions text variant installConfig
    isRush hasLamination lightboxDepth :
  Pricing.HEIGHT_TIERS iRules = [] ->
  calculateQuote PRICING signType dimensions text variant installConfig
    isRush hasLamination lightboxDepth = JS.Throw JS.TypeError.
Proof.
  intro H. unfold calculateQuote.
  destruct (rushOrder _ _ _) as [fabCost fabAdders0].
  now rewrite (selectTier_none installConfig H).
Qed.

End Shape.

(** [returned call Hne r Hr]: the quote [r] that [call] returns, given that
    the tier table is not empty ([Hne]). *)
Ltac returned call Hne r Hr :=
  lazymatch call with
  | calculateQuote ?P ?st ?d ?t ?v ?ic ?rush ?lam ?depth =>
      destruct (calculateQuote_returns P st d t v ic rush lam depth Hne) as [r Hr]
  | ?f _ _ =>
      let c := eval cbv beta delta [f] in call in returned c Hne r Hr
  end.

(** ** The fabrication block *)

Section Fabrication.

Variable PRICING : Pricing.Table.

Let fRules := Pricing.FABRICATION PRICING.

Lemma removeWhiteSpace_length (text : JS.jsstring) :
  List.length (JS.removeWhiteSpace text) = countNonWhiteSpace text.
Proof.
  induction text as [| c rest IH]; simpl; [reflexivity |].
  destruct (JS.isWhiteSpace c); simpl; now rewrite <- IH.
Qed.

Lemma letterCount_counts (text : JS.jsstring) :
  letterCount text = JS.ofNat (countNonWhiteSpace text).
Proof. unfold letterCount. now rewrite removeWhiteSpace_length. Qed.

Lemma countNonWhiteSpace_blank (text : JS.jsstring) :
  Forall (fun c => JS.isWhiteSpace c = true) text -> countNonWhiteSpace text = 0%nat.
Proof.
  induction 1 as [| c rest Hc _ IH]; simpl; [reflexivity |].
  now rewrite Hc.
Qed.

(** The raw cost of channel letters is the sum the specification writes. *)
Lemma channelLettersRaw_cost dimensions text variant acc :
  fst (channelLettersRaw PRICING dimensions text variant acc)
  == specChannelLettersRaw PRICING dimensions text variant.
Proof.
  unfold channelLettersRaw, specChannelLettersRaw, specLightingRate.
  rewrite letterCount_counts.
  destruct (lighting variant =? LightingType.FRONT_LIT)%string;
    [| destruct (lighting variant =? LightingType.BACK_LIT)%string];
    destruct (roundedBacker variant); simpl; ring.
Qed.

(** None of the three raw-cost blocks pushes a "minimum applied" line. *)
Lemma channelLettersRaw_lines dimensions text variant :
  existsb isMinimumApplied
    (snd (channelLettersRaw PRICING dimensions text variant [])) = false.
Proof.
  unfold channelLettersRaw.
  destruct (lighting variant =? LightingType.FRONT_LIT)%string;
    [| destruct (lighting variant =? LightingType.BACK_LIT)%string];
    destruct (roundedBacker variant); reflexivity.
Qed.

Lemma lightboxRaw_lines dimensions variant lightboxDepth :
  existsb isMinimumApplied
    (snd (lightboxRaw PRICING dimensions variant lightboxDepth [])) = false.
Proof.
  unfold lightboxRaw.
  destruct (JS.gtb lightboxDepth _);
    destruct (lighting variant =? LightingType.FRONT_LIT)%string; reflexivity.
Qed.

Lemma windowVinylRaw_lines dimensions hasLamination :
  existsb isMinimumApplied
    (snd (windowVinylRaw PRICING dimensions hasLamination [])) = false.
Proof.
  unfold windowVinylRaw. destruct hasLamination; reflexivity.
Qed.

(** [fabrication], one branch of the chain at a time. *)
Lemma fabrication_channelLetters dimensions text variant hasLamination lightboxDepth :
  let raw := channelLettersRaw PRICING dimensions text variant [] in
  let m := Pricing.CL_MIN_PRICE (Pricing.CHANNEL_LETTERS fRules) in
  fabrication PRICING SignType.CHANNEL_LETTERS dimensions text variant
    hasLamination lightboxDepth
  = (JS.Math_max (fst raw) m,
     if JS.ltb (fst raw) m then snd raw ++ [MinimumPricingApplied m] else snd raw).
Proof.
  intros raw m. unfold fabrication. simpl String.eqb. cbv iota.
  fold fRules. fold raw. fold m. destruct raw as [rawCost lines]. simpl fst; simpl snd.
  rewrite minimum_guard. now destruct (JS.ltb rawCost m).
Qed.

Lemma fabrication_lightbox dimensions text variant hasLamination lightboxDepth :
  let raw := lightboxRaw PRICING dimensions variant lightboxDepth [] in
  let m := Pricing.LB_MIN_PRICE (Pricing.LIGHTBOX fRules) in
  fabrication PRICING SignType.LIGHTBOX dimensions text variant
    hasLamination lightboxDepth
  = (JS.Math_max (fst raw) m,
     if JS.ltb (fst raw) m then snd raw ++ [MinimumPricingApplied m] else snd raw).
Proof.
  intros raw m. unfold fabrication. simpl String.eqb. cbv iota.
  fold fRules. fold raw. fold m. destruct raw as [rawCost lines]. simpl fst; simpl snd.
  rewrite minimum_guard. now destruct (JS.ltb rawCost m).
Qed.

Lemma fabrication_windowVinyl dimensions text variant hasLamination lightboxDepth :
  let raw := windowVinylRaw PRICING dimensions hasLamination [] in
  let m := Pricing.WV_MIN_PRICE (Pricing.WINDOW_VINYL fRules) in
  fabrication PRICING SignType.WINDOW_VINYL dimensions text variant
    hasLamination lightboxDepth
  = (JS.Math_max (fst raw) m, snd raw).
Proof.
  intros raw m. unfold fabrication. simpl String.eqb. cbv iota.
  fold fRules. fold raw. fold m. now destruct raw as [rawCost lines].
Qed.

Lemma fabrication_unrecognized signType dimensions text variant hasLamination lightboxDepth :
  signType <> SignType.CHANNEL_LETTERS ->
  signType <> SignType.LIGHTBOX ->
  signType <> SignType.WINDOW_VINYL ->
  fabrication PRICING signType dimensions text variant hasLamination lightboxDepth
  = (0, []).
Proof.
  intros H1 H2 H3. unfold fabrication.
  apply String.eqb_neq in H1, H2, H3. now rewrite H1, H2, H3.
Qed.

(** The rush block, as an equation on the cost and on the lines. *)
Lemma rushOrder_cost isRush fab :
  fst (rushOrder PRICING isRush fab)
  == if isRush then fst fab * (1 + Pricing.RUSH_ORDER_PERCENT fRules) else fst fab.
Proof.
  destruct fab as [fabCost lines]. unfold rushOrder. fold fRules.
  destruct isRush; simpl; ring.
Qed.

Lemma rushOrder_lines isRush fab :
  snd (rushOrder PRICING isRush fab)
  = snd fab ++ (if isRush
                then [RushOrder (fst fab * Pricing.RUSH_ORDER_PERCENT fRules)]
                else []).
Proof.
  destruct fab as [fabCost lines]. unfold rushOrder. fold fRules.
  destruct isRush; simpl; [reflexivity | now rewrite app_nil_r].
Qed.

Lemma rushOrder_minimum isRush fab :
  existsb isMinimumApplied (snd (rushOrder PRICING isRush fab))
  = existsb isMinimumApplied (snd fab).
Proof.
  rewrite rushOrder_lines, existsb_app.
  destruct isRush; simpl; now rewrite ?orb_false_r.
Qed.

(** The raw cost of a lightbox and of window vinyl, as sums of the inputs. *)
Lemma lightboxRaw_cost dimensions variant lightboxDepth acc :
  let rules := Pricing.LIGHTBOX fRules in
  fst (lightboxRaw PRICING dimensions variant lightboxDepth acc)
  == widthIn dimensions * heightIn dimensions / 144 * Pricing.LB_PER_SQFT rules
     + (if JS.gtb lightboxDepth (Pricing.DEPTH_BASE rules)
        then (lightboxDepth - Pricing.DEPTH_BASE rules)
             * Pricing.DEPTH_ADDER_PER_INCH rules
        else 0)
     + (if (lighting variant =? LightingType.FRONT_LIT)%string
        then Pricing.LIGHTING_ADDER_FRONT_LIT rules else 0).
Proof.
  unfold lightboxRaw. fold fRules.
  destruct (JS.gtb lightboxDepth _);
    destruct (lighting variant =? LightingType.FRONT_LIT)%string; simpl; ring.
Qed.

Lemma windowVinylRaw_cost dimensions hasLamination acc :
  let rules := Pricing.WINDOW_VINYL fRules in
  fst (windowVinylRaw PRICING dimensions hasLamination acc)
  == widthIn dimensions * heightIn dimensions / 144 * Pricing.WV_PER_SQFT rules
     * (if hasLamination then 1 + Pricing.LAMINATION_PERCENT rules else 1).
Proof.
  unfold windowVinylRaw. fold fRules. destruct hasLamination; simpl; ring.
Qed.

End Fabrication.

(** ** The engine on the sign the application starts from

    The four letters of OPEN at 18 in, front lit, no backer, no rush;
    installed at 10 ft without lift, with electrical work and a permit. *)
Example open_sign_quote :
  exists r,
    calculateQuote samplePricing SignType.CHANNEL_LETTERS
      {| widthIn := 0; heightIn := 18 |} OPEN
      (sampleVariant LightingType.FRONT_LIT false) (sampleInstall 10 "NONE")
      false false 4 = JS.Ok r
    /\ fabricationCost r == Qmax (4 * 85 + 4 * 18 * 4 + 4 * 45) 950
    /\ installationCost r == (180 + 3 * 95 + 350 + 400) * (1 + (10 # 100))
    /\ total r == (fabricationCost r + installationCost r) * (1 + (5 # 100))
    /\ fabAdders (breakdown r)
       = [LettersBase 4 85 340; HeightAdder 18 288; FrontLitUpgrade 180;
          MinimumPricingApplied 950]
    /\ installAdders (breakdown r)
       = [BaseTripFee 180; Labor 3 95 285; ElectricalHookup 350;
          PermitAllowance 400; Contingency (1215 * (10 # 100))].
Proof.
  eexists. repeat split; reflexivity.
Qed.

(** ** The tier of the installation height *)

(** [find] returns the first element that passes the test. *)
Lemma find_first {A} (p : A -> bool) (xs : list A) (x : A) :
  JS.find p xs = Some x ->
  exists pre post,
    xs = pre ++ x :: post /\ p x = true /\ Forall (fun u => p u = false) pre.
Proof.
  unfold JS.find. induction xs as [| a xs IH]; simpl; [discriminate |].
  destruct (p a) eqn:E.
  - intros [= ->]. exists [], xs. now repeat split.
  - intro H. destruct (IH H) as (pre & post & -> & Hp & Hpre).
    exists (a :: pre), post. repeat split; auto.
Qed.

Lemma find_nothing {A} (p : A -> bool) (xs : list A) :
  JS.find p xs = None -> Forall (fun u => p u = false) xs.
Proof.
  unfold JS.find. induction xs as [| a xs IH]; simpl; [constructor |].
  destruct (p a) eqn:E; [discriminate |]. intro H. constructor; auto.
Qed.

(** What [selectTier] returns, in terms of the table. *)
Lemma selectTier_spec (PRICING : Pricing.Table) (installConfig : InstallConfig)
    (tier : Pricing.Tier) :
  selectTier PRICING installConfig = Some tier ->
  let tiers := Pricing.HEIGHT_TIERS (Pricing.INSTALLATION PRICING) in
  let h := heightFeet installConfig in
  (exists pre post,
      tiers = pre ++ tier :: post
      /\ Forall (fun u => Pricing.maxFt u < h) pre
      /\ h <= Pricing.maxFt tier)
  \/ (Forall (fun u => Pricing.maxFt u < h) tiers
      /\ exists pre, tiers = pre ++ [tier]).
Proof.
  intros H tiers h. unfold selectTier in H. fold tiers h in H.
  destruct (JS.find _ tiers) as [t |] eqn:E.
  - injection H as ->. left.
    destruct (find_first _ _ _ E) as (pre & post & Heq & Hp & Hpre).
    exists pre, post. repeat split; [exact Heq | | now apply leb_spec].
    eapply Forall_impl; [| exact Hpre]. intros u Hu. now apply leb_false.
  - right. split.
    + eapply Forall_impl; [| exact (find_nothing _ _ E)].
      intros u Hu. now apply leb_false.
    + now apply lastElement_is_last.
Qed.

(** ** The claims about the engine *)

(** C1 (as amended).  [calculateQuote] validates none of [widthIn],
    [heightIn], [heightFeet] and [lightboxDepth]: whatever their values,
    negative ones included, it returns a QuoteResult as soon as the tier
    table has a tier, and no validation error exists.  The quote is
    computed from the four fields as they are given, nothing is clamped
    and nothing is replaced by a default: the labor tier is the first one
    with heightFeet <= maxFt, else the last one; the height adder of
    channel letters is letterCount * heightIn * PER_INCH_HEIGHT and the
    area of a lightbox or of window vinyl is widthIn * heightIn / 144,
    whatever their signs; the depth adder is (lightboxDepth - DEPTH_BASE)
    * DEPTH_ADDER_PER_INCH exactly when lightboxDepth > DEPTH_BASE.  The
    one floor is [Math.max] with the minimum price of the category. *)
Theorem numeric_inputs_are_not_validated
    (PRICING : Pricing.Table) (signType : string) (dimensions : Dimensions)
    (text : JS.jsstring) (variant : DesignVariant) (installConfig : InstallConfig)
    (isRush hasLamination : bool) (lightboxDepth : Q) :
  Pricing.HEIGHT_TIERS (Pricing.INSTALLATION PRICING) <> [] ->
  let fRules := Pricing.FABRICATION PRICING in
  let iRules := Pricing.INSTALLATION PRICING in
  let tiers := Pricing.HEIGHT_TIERS iRules in
  let n := letterCount text in
  let rushed c := if isRush then c + c * Pricing.RUSH_ORDER_PERCENT fRules else c in
  exists r tier,
    calculateQuote PRICING signType dimensions text variant installConfig
      isRush hasLamination lightboxDepth = JS.Ok r
    /\ ((exists pre post,
            tiers = pre ++ tier :: post
            /\ Forall (fun u => Pricing.maxFt u < heightFeet installConfig) pre
            /\ heightFeet installConfig <= Pricing.maxFt tier)
        \/ (Forall (fun u => Pricing.maxFt u < heightFeet installConfig) tiers
            /\ exists pre, tiers = pre ++ [tier]))
    /\ installLabor (breakdown r) = Pricing.hours tier * Pricing.LABOR_RATE iRules
    /\ (signType = SignType.CHANNEL_LETTERS ->
        let rules := Pricing.CHANNEL_LETTERS fRules in
        fabricationCost r
        == rushed
             (Qmax (n * Pricing.BASE_PER_LETTER rules
                    + n * heightIn dimensions * Pricing.PER_INCH_HEIGHT rules
                    + n * specLightingRate rules (lighting variant)
                    + (if roundedBacker variant then Pricing.BACKER_ADDER rules else 0))
                   (Pricing.CL_MIN_PRICE rules)))
    /\ (signType = SignType.LIGHTBOX ->
        let rules := Pricing.LIGHTBOX fRules in
        fabricationCost r
        == rushed
             (Qmax (widthIn dimensions * heightIn dimensions / 144
                    * Pricing.LB_PER_SQFT rules
                    + (if JS.gtb lightboxDepth (Pricing.DEPTH_BASE rules)
                       then (lightboxDepth - Pricing.DEPTH_BASE rules)
                            * Pricing.DEPTH_ADDER_PER_INCH rules
                       else 0)
                    + (if (lighting variant =? LightingType.FRONT_LIT)%string
                       then Pricing.LIGHTING_ADDER_FRONT_LIT rules else 0))
                   (Pricing.LB_MIN_PRICE rules)))
    /\ (signType = SignType.WINDOW_VINYL ->
        let rules := Pricing.WINDOW_VINYL fRules in
        fabricationCost r
        == rushed
             (Qmax (widthIn dimensions * heightIn dimensions / 144
                    * Pricing.WV_PER_SQFT rules
                    * (if hasLamination
                       then 1 + Pricing.LAMINATION_PERCENT rules else 1))
                   (Pricing.WV_MIN_PRICE rules))).
Proof.
  intros Hne fRules iRules tiers n rushed.
  destruct (calculateQuote_returns PRICING signType dimensions text variant
              installConfig isRush hasLamination lightboxDepth Hne) as [r Hr].
  pose proof (calculateQuote_inv _ _ _ _ _ _ _ _ _ _ Hr)
    as (tier & Ht & Hc & _ & _ & Hlab & _).
  exists r, tier. split; [exact Hr |].
  split; [exact (selectTier_spec _ _ _ Ht) |]. split; [exact Hlab |].
  assert (Hrush : forall raw formula m lines,
             raw == formula ->
             fst (rushOrder PRICING isRush (JS.Math_max raw m, lines))
             == rushed (Qmax formula m)).
  { intros raw formula m lines E. rewrite rushOrder_cost. unfold rushed.
    cbn [fst]. unfold JS.Math_max. fold fRules.
    assert (Em : Qmax raw m == Qmax formula m) by (now rewrite E).
    destruct isRush; rewrite Em; ring. }
  rewrite Hc. split; [| split]; intros -> rules.
  - rewrite fabrication_channelLetters. apply Hrush.
    rewrite channelLettersRaw_cost. unfold specChannelLettersRaw.
    rewrite <- letterCount_counts. reflexivity.
  - rewrite fabrication_lightbox. apply Hrush. apply lightboxRaw_cost.
  - rewrite fabrication_windowVinyl. apply Hrush. apply windowVinylRaw_cost.
Qed.

Lemma numeric_inputs_are_not_validated_witness :
  exists r,
    calculateQuote samplePricing SignType.LIGHTBOX
      {| widthIn := -100; heightIn := -36 |} OPEN
      (sampleVariant LightingType.FRONT_LIT false) (sampleInstall (-3) "NONE")
      false false (-1) = JS.Ok r
    /\ fabricationCost r == (-100) * (-36) / 144 * 95 + 160
    /\ installLabor (breakdown r) = 3 * 95.
Proof.
  destruct (numeric_inputs_are_not_validated samplePricing SignType.LIGHTBOX
              {| widthIn := -100; heightIn := -36 |} OPEN
              (sampleVariant LightingType.FRONT_LIT false)
              (sampleInstall (-3) "NONE") false false (-1))
    as (r & tier & Hr & Htier & Hlab & _ & Hfab & _).
  - simpl. discriminate.
  - exists r. split; [exact Hr |]. split.
    + rewrite (Hfab eq_refl). vm_compute. reflexivity.
    + rewrite Hlab. destruct Htier as [(pre & post & Hpre & Hbelow & _) | [Habove _]].
      * destruct pre as [| t pre]; [now injection Hpre as <- |].
        exfalso. inversion Hbelow as [| ? ? Hlt _]; subst.
        injection Hpre as <- _. revert Hlt. vm_compute. discriminate.
      * exfalso. inversion Habove as [| ? ? Hlt _]; subst.
        revert Hlt. vm_compute. discriminate.
Defined.

(** C1, as stated, fails: a lightbox of width -10 in, mounted at -3 ft, of
    depth -1 in is quoted at the minimum price, with the labor of the first
    tier, and no error is raised. *)
Lemma negative_inputs_are_quoted :
  exists r,
    calculateQuote samplePricing SignType.LIGHTBOX
      {| widthIn := -10; heightIn := 18 |} OPEN
      (sampleVariant LightingType.NON_LIT false) (sampleInstall (-3) "NONE")
      false false (-1) = JS.Ok r
    /\ fabricationCost r = 1200
    /\ installLabor (breakdown r) = 285.
Proof.
  eexists. split; [reflexivity | split; reflexivity].
Qed.

(** C2.  On every input on which [calculateQuote] returns a QuoteResult,
    subtotal = fabricationCost + installationCost, gst = subtotal * GST and
    total = subtotal + gst. *)
Theorem totals_identity
    (PRICING : Pricing.Table) (signType : string) (dimensions : Dimensions)
    (text : JS.jsstring) (variant : DesignVariant) (installConfig : InstallConfig)
    (isRush hasLamination : bool) (lightboxDepth : Q) (r : QuoteResult) :
  calculateQuote PRICING signType dimensions text variant installConfig
    isRush hasLamination lightboxDepth = JS.Ok r ->
  subtotal r = fabricationCost r + installationCost r
  /\ gst r = subtotal r * Pricing.GST (Pricing.TAX PRICING)
  /\ total r = subtotal r + gst r.
Proof.
  intro H. apply calculateQuote_inv in H.
  destruct H as (tier & _ & _ & _ & _ & _ & _ & _ & _ & Hs & Hg & Ht).
  now repeat split.
Qed.

Lemma totals_identity_witness :
  exists r,
    calculateQuote samplePricing SignType.CHANNEL_LETTERS
      {| widthIn := 0; heightIn := 18 |} OPEN
      (sampleVariant LightingType.FRONT_LIT false) (sampleInstall 10 "NONE")
      false false 4 = JS.Ok r
    /\ subtotal r = fabricationCost r + installationCost r
    /\ gst r = subtotal r * (5 # 100)
    /\ total r = subtotal r + gst r.
Proof.
  eexists. split; [reflexivity |].
  exact (totals_identity samplePricing SignType.CHANNEL_LETTERS
           {| widthIn := 0; heightIn := 18 |} OPEN
           (sampleVariant LightingType.FRONT_LIT false) (sampleInstall 10 "NONE")
           false false 4 _ eq_refl).
Defined.

(** C3.  For channel letters, [letterCount] is the number of non-whitespace
    code units of [text] (0 when [text] is empty or blank, and a quote is
    still returned), the raw cost is letterCount * BASE_PER_LETTER +
    letterCount * heightIn * PER_INCH_HEIGHT + letterCount * (lighting rate,
    0 for NonLit) + (BACKER_ADDER when roundedBacker), and the fabrication
    cost ahead of the rush block is max(rawCost, MIN_PRICE). *)
Theorem channelLetters_fabrication
    (PRICING : Pricing.Table) (dimensions : Dimensions)
    (text : JS.jsstring) (variant : DesignVariant) (installConfig : InstallConfig)
    (isRush hasLamination : bool) (lightboxDepth : Q) :
  Pricing.HEIGHT_TIERS (Pricing.INSTALLATION PRICING) <> [] ->
  let rules := Pricing.CHANNEL_LETTERS (Pricing.FABRICATION PRICING) in
  let rawCost := fst (channelLettersRaw PRICING dimensions text variant []) in
  let fabCost :=
    fst (fabrication PRICING SignType.CHANNEL_LETTERS dimensions text variant
           hasLamination lightboxDepth) in
  exists r,
    calculateQuote PRICING SignType.CHANNEL_LETTERS dimensions text variant
      installConfig isRush hasLamination lightboxDepth = JS.Ok r
    /\ letterCount text = JS.ofNat (countNonWhiteSpace text)
    /\ (Forall (fun c => JS.isWhiteSpace c = true) text -> letterCount text = 0)
    /\ rawCost == specChannelLettersRaw PRICING dimensions text variant
    /\ fabCost = Qmax rawCost (Pricing.CL_MIN_PRICE rules)
    /\ fabricationCost r
       == if isRush
          then fabCost * (1 + Pricing.RUSH_ORDER_PERCENT (Pricing.FABRICATION PRICING))
          else fabCost.
Proof.
  intros H rules rawCost fabCost.
  returned (calculateQuote PRICING SignType.CHANNEL_LETTERS dimensions text variant
              installConfig isRush hasLamination lightboxDepth) H r Hr.
  exists r. split; [exact Hr |].
  apply calculateQuote_inv in Hr.
  destruct Hr as (tier & _ & Hfab & _).
  repeat split.
  - apply letterCount_counts.
  - intro Hb. rewrite letterCount_counts, (countNonWhiteSpace_blank _ Hb).
    reflexivity.
  - apply channelLettersRaw_cost.
  - unfold fabCost. now rewrite fabrication_channelLetters.
  - rewrite Hfab. apply rushOrder_cost.
Qed.

Lemma channelLetters_fabrication_witness :
  exists r,
    calculateQuote samplePricing SignType.CHANNEL_LETTERS
      {| widthIn := 0; heightIn := 18 |} OPEN
      (sampleVariant LightingType.FRONT_LIT false) (sampleInstall 10 "NONE")
      false false 4 = JS.Ok r
    /\ letterCount OPEN = 4
    /\ (Forall (fun c => JS.isWhiteSpace c = true) OPEN -> letterCount OPEN = 0)
    /\ fst (channelLettersRaw samplePricing {| widthIn := 0; heightIn := 18 |} OPEN
              (sampleVariant LightingType.FRONT_LIT false) [])
       == 4 * 85 + 4 * 18 * 4 + 4 * 45 + 0
    /\ fst (fabrication samplePricing SignType.CHANNEL_LETTERS
              {| widthIn := 0; heightIn := 18 |} OPEN
              (sampleVariant LightingType.FRONT_LIT false) false 4)
       = Qmax (fst (channelLettersRaw samplePricing {| widthIn := 0; heightIn := 18 |}
                      OPEN (sampleVariant LightingType.FRONT_LIT false) [])) 950
    /\ fabricationCost r
       == fst (fabrication samplePricing SignType.CHANNEL_LETTERS
                 {| widthIn := 0; heightIn := 18 |} OPEN
                 (sampleVariant LightingType.FRONT_LIT false) false 4).
Proof.
  apply (channelLetters_fabrication samplePricing
           {| widthIn := 0; heightIn := 18 |} OPEN
           (sampleVariant LightingType.FRONT_LIT false) (sampleInstall 10 "NONE")
           false false 4).
  simpl. discriminate.
Defined.

(** C4.  For channel letters and for a lightbox the "minimum applied" line
    is among the fabrication lines exactly when rawCost < MIN_PRICE (so not
    when they are equal), and it comes right after the lines of the raw
    cost; for window vinyl the line is never there. *)
Theorem minimum_applied_line
    (PRICING : Pricing.Table) (signType : string) (dimensions : Dimensions)
    (text : JS.jsstring) (variant : DesignVariant) (installConfig : InstallConfig)
    (isRush hasLamination : bool) (lightboxDepth : Q) (r : QuoteResult) :
  calculateQuote PRICING signType dimensions text variant installConfig
    isRush hasLamination lightboxDepth = JS.Ok r ->
  let fRules := Pricing.FABRICATION PRICING in
  let lines := fabAdders (breakdown r) in
  (signType = SignType.CHANNEL_LETTERS ->
   let raw := channelLettersRaw PRICING dimensions text variant [] in
   let m := Pricing.CL_MIN_PRICE (Pricing.CHANNEL_LETTERS fRules) in
   (existsb isMinimumApplied lines = true <-> fst raw < m)
   /\ (fst raw == m -> existsb isMinimumApplied lines = false)
   /\ (fst raw < m ->
       exists rush, lines = snd raw ++ [MinimumPricingApplied m] ++ rush))
  /\ (signType = SignType.LIGHTBOX ->
      let raw := lightboxRaw PRICING dimensions variant lightboxDepth [] in
      let m := Pricing.LB_MIN_PRICE (Pricing.LIGHTBOX fRules) in
      (existsb isMinimumApplied lines = true <-> fst raw < m)
      /\ (fst raw == m -> existsb isMinimumApplied lines = false)
      /\ (fst raw < m ->
          exists rush, lines = snd raw ++ [MinimumPricingApplied m] ++ rush))
  /\ (signType = SignType.WINDOW_VINYL ->
      existsb isMinimumApplied lines = false).
Proof.
  intros H fRules lines. apply calculateQuote_inv in H.
  destruct H as (tier & _ & _ & Hlines & _). unfold lines. rewrite Hlines.
  rewrite rushOrder_minimum.
  split; [| split]; intros ->.
  - rewrite rushOrder_lines, fabrication_channelLetters. simpl fst; simpl snd.
    pose proof (channelLettersRaw_lines PRICING dimensions text variant) as Hraw.
    fold fRules.
    set (raw := channelLettersRaw PRICING dimensions text variant []) in *.
    set (m := Pricing.CL_MIN_PRICE (Pricing.CHANNEL_LETTERS fRules)).
    destruct (JS.ltb (fst raw) m) eqn:E.
    + apply ltb_spec in E. rewrite existsb_app, Hraw. simpl.
      repeat split; auto.
      * intro Heq. exfalso. lra.
      * intros _. eexists. now rewrite <- app_assoc.
    + apply ltb_false in E. rewrite Hraw.
      repeat split; try discriminate; intro; exfalso; lra.
  - rewrite rushOrder_lines, fabrication_lightbox. simpl fst; simpl snd.
    pose proof (lightboxRaw_lines PRICING dimensions variant lightboxDepth) as Hraw.
    fold fRules.
    set (raw := lightboxRaw PRICING dimensions variant lightboxDepth []) in *.
    set (m := Pricing.LB_MIN_PRICE (Pricing.LIGHTBOX fRules)).
    destruct (JS.ltb (fst raw) m) eqn:E.
    + apply ltb_spec in E. rewrite existsb_app, Hraw. simpl.
      repeat split; auto.
      * intro Heq. exfalso. lra.
      * intros _. eexists. now rewrite <- app_assoc.
    + apply ltb_false in E. rewrite Hraw.
      repeat split; try discriminate; intro; exfalso; lra.
  - rewrite fabrication_windowVinyl. simpl snd.
    apply windowVinylRaw_lines.
Qed.

Lemma minimum_applied_line_witness :
  exists r,
    calculateQuote samplePricing SignType.CHANNEL_LETTERS
      {| widthIn := 0; heightIn := 18 |} OPEN
      (sampleVariant LightingType.FRONT_LIT false) (sampleInstall 10 "NONE")
      true false 4 = JS.Ok r
    /\ fabAdders (breakdown r)
       = [LettersBase 4 85 340; HeightAdder 18 288; FrontLitUpgrade 180;
          MinimumPricingApplied 950; RushOrder (950 * (12 # 100))]
    /\ (existsb isMinimumApplied (fabAdders (breakdown r)) = true
        <-> fst (channelLettersRaw samplePricing {| widthIn := 0; heightIn := 18 |}
                   OPEN (sampleVariant LightingType.FRONT_LIT false) []) < 950).
Proof.
  eexists. split; [reflexivity |]. split; [reflexivity |].
  exact (proj1 (proj1 (minimum_applied_line samplePricing SignType.CHANNEL_LETTERS
           {| widthIn := 0; heightIn := 18 |} OPEN
           (sampleVariant LightingType.FRONT_LIT false) (sampleInstall 10 "NONE")
           true false 4 _ eq_refl) eq_refl)).
Defined.

(** C5.  A rush quote returns whenever the same quote without rush does;
    its fabrication cost is the cost without rush, floor included, times
    (1 + RUSH_ORDER_PERCENT), and its fabrication lines are those without
    rush followed by the rush line, whatever the category. *)
Theorem rush_surcharge
    (PRICING : Pricing.Table) (signType : string) (dimensions : Dimensions)
    (text : JS.jsstring) (variant : DesignVariant) (installConfig : InstallConfig)
    (hasLamination : bool) (lightboxDepth : Q) (r0 : QuoteResult) :
  calculateQuote PRICING signType dimensions text variant installConfig
    false hasLamination lightboxDepth = JS.Ok r0 ->
  let rushPercent := Pricing.RUSH_ORDER_PERCENT (Pricing.FABRICATION PRICING) in
  exists r1,
    calculateQuote PRICING signType dimensions text variant installConfig
      true hasLamination lightboxDepth = JS.Ok r1
    /\ fabricationCost r0
       = fst (fabrication PRICING signType dimensions text variant
                hasLamination lightboxDepth)
    /\ fabricationCost r1 == fabricationCost r0 * (1 + rushPercent)
    /\ fabAdders (breakdown r1)
       = fabAdders (breakdown r0) ++ [RushOrder (fabricationCost r0 * rushPercent)].
Proof.
  intros H0 rushPercent.
  pose proof (calculateQuote_inv _ _ _ _ _ _ _ _ _ _ H0) as (tier & Ht & Hc0 & Hl0 & _).
  assert (Hne : Pricing.HEIGHT_TIERS (Pricing.INSTALLATION PRICING) <> []).
  { intro Hnil. rewrite (selectTier_none _ _ Hnil) in Ht. discriminate. }
  returned (calculateQuote PRICING signType dimensions text variant
              installConfig true hasLamination lightboxDepth) Hne r1 H1.
  exists r1. split; [exact H1 |].
  pose proof (calculateQuote_inv _ _ _ _ _ _ _ _ _ _ H1) as (tier1 & _ & Hc1 & Hl1 & _).
  destruct (fabrication PRICING signType dimensions text variant hasLamination
              lightboxDepth) as [fabCost lines].
  simpl in Hc0, Hl0, Hc1, Hl1.
  rewrite Hc0, Hl0, Hc1, Hl1. simpl.
  repeat split; try reflexivity. unfold rushPercent. ring.
Qed.

Lemma rush_surcharge_witness :
  exists r1,
    calculateQuote samplePricing SignType.WINDOW_VINYL
      {| widthIn := 48; heightIn := 36 |} OPEN
      (sampleVariant LightingType.NON_LIT false) (sampleInstall 10 "NONE")
      true true 4 = JS.Ok r1
    /\ 250 = fst (fabrication samplePricing SignType.WINDOW_VINYL
                    {| widthIn := 48; heightIn := 36 |} OPEN
                    (sampleVariant LightingType.NON_LIT false) true 4)
    /\ fabricationCost r1 == 250 * (1 + (12 # 100))
    /\ fabAdders (breakdown r1)
       = [SizeSqft (1728 # 144) 14 ((1728 # 144) * 14);
          Lamination ((1728 # 144) * 14 * (25 # 100))]
         ++ [RushOrder (250 * (12 # 100))].
Proof.
  exact (rush_surcharge samplePricing SignType.WINDOW_VINYL
           {| widthIn := 48; heightIn := 36 |} OPEN
           (sampleVariant LightingType.NON_LIT false) (sampleInstall 10 "NONE")
           true 4 _ eq_refl).
Defined.

Lemma Ascending_suffix (pre ts : list Pricing.Tier) :
  Ascending (pre ++ ts) -> Ascending ts.
Proof.
  induction pre as [| a pre IH]; simpl; [trivial |].
  intro H. inversion H; subst. auto.
Qed.

(** C6.  With a tier table that has a tier, the labor tier is the first one
    whose maxFt >= heightFeet (so a height equal to a tier's maxFt selects
    that tier of an ascending table), or the last tier of the table when
    heightFeet exceeds every maxFt; the quote is returned, its labor is
    tier.hours * LABOR_RATE and the labor line is among the installation
    lines. *)
Theorem labor_tier
    (PRICING : Pricing.Table) (signType : string) (dimensions : Dimensions)
    (text : JS.jsstring) (variant : DesignVariant) (installConfig : InstallConfig)
    (isRush hasLamination : bool) (lightboxDepth : Q) :
  let iRules := Pricing.INSTALLATION PRICING in
  let tiers := Pricing.HEIGHT_TIERS iRules in
  let h := heightFeet installConfig in
  tiers <> [] ->
  exists r tier,
    calculateQuote PRICING signType dimensions text variant installConfig
      isRush hasLamination lightboxDepth = JS.Ok r
    /\ ((exists pre post,
            tiers = pre ++ tier :: post
            /\ Forall (fun u => Pricing.maxFt u < h) pre
            /\ h <= Pricing.maxFt tier)
        \/ (Forall (fun u => Pricing.maxFt u < h) tiers
            /\ exists pre, tiers = pre ++ [tier]))
    /\ (Ascending tiers ->
        forall t, In t tiers -> h == Pricing.maxFt t -> tier = t)
    /\ installLabor (breakdown r) = Pricing.hours tier * Pricing.LABOR_RATE iRules
    /\ In (Labor (Pricing.hours tier) (Pricing.LABOR_RATE iRules)
             (Pricing.hours tier * Pricing.LABOR_RATE iRules))
          (installAdders (breakdown r)).
Proof.
  intros iRules tiers h Hne.
  returned (calculateQuote PRICING signType dimensions text variant
              installConfig isRush hasLamination lightboxDepth) Hne r Hr.
  pose proof (calculateQuote_inv _ _ _ _ _ _ _ _ _ _ Hr)
    as (tier & Ht & _ & _ & _ & Hlabor & Hline & _).
  pose proof (selectTier_spec _ _ _ Ht) as Hsel. fold iRules tiers h in Hsel.
  exists r, tier. repeat split; auto.
  intros Hasc t Hin Heq.
  destruct Hsel as [(pre & post & Htiers & Hpre & Hle) | (Hall & _)].
  - rewrite Htiers in Hin, Hasc. apply in_app_or in Hin.
    destruct Hin as [Hin | [<- | Hin]]; [| reflexivity |].
    + rewrite Forall_forall in Hpre. specialize (Hpre t Hin).
      simpl in Hpre. exfalso. lra.
    + apply Ascending_suffix in Hasc. inversion Hasc as [| ? ? Hlt _]; subst.
      rewrite Forall_forall in Hlt. specialize (Hlt t Hin).
      simpl in Hlt. exfalso. lra.
  - rewrite Forall_forall in Hall. specialize (Hall t Hin).
    simpl in Hall. exfalso. lra.
Qed.

Lemma labor_tier_witness :
  let iRules := Pricing.INSTALLATION samplePricing in
  let tiers := Pricing.HEIGHT_TIERS iRules in
  exists r tier,
    calculateQuote samplePricing SignType.CHANNEL_LETTERS
      {| widthIn := 0; heightIn := 18 |} OPEN
      (sampleVariant LightingType.FRONT_LIT false) (sampleInstall 20 "NONE")
      false false 4 = JS.Ok r
    /\ ((exists pre post,
            tiers = pre ++ tier :: post
            /\ Forall (fun u => Pricing.maxFt u < 20) pre
            /\ 20 <= Pricing.maxFt tier)
        \/ (Forall (fun u => Pricing.maxFt u < 20) tiers
            /\ exists pre, tiers = pre ++ [tier]))
    /\ (Ascending tiers ->
        forall t, In t tiers -> 20 == Pricing.maxFt t -> tier = t)
    /\ installLabor (breakdown r) = Pricing.hours tier * 95
    /\ In (Labor (Pricing.hours tier) 95 (Pricing.hours tier * 95))
          (installAdders (breakdown r)).
Proof.
  apply (labor_tier samplePricing SignType.CHANNEL_LETTERS
           {| widthIn := 0; heightIn := 18 |} OPEN
           (sampleVariant LightingType.FRONT_LIT false) (sampleInstall 20 "NONE")
           false false 4).
  simpl. discriminate.
Defined.

(** The boundary and the fallback on the sample table: 20 ft is the second
    tier, 45 ft is the last one. *)
Example selectTier_boundary :
  selectTier samplePricing (sampleInstall 20 "NONE")
  = Some {| Pricing.maxFt := 20; Pricing.hours := 5 |}.
Proof. reflexivity. Qed.

Example selectTier_fallback :
  selectTier samplePricing (sampleInstall 45 "NONE")
  = Some {| Pricing.maxFt := 30; Pricing.hours := 8 |}.
Proof. reflexivity. Qed.

(** C7.  For window vinyl with lamination, the lamination line carries
    LAMINATION_PERCENT of the raw cost sqft * PER_SQFT as it is ahead of the
    floor, and the floor is applied to the raw cost plus that amount. *)
Theorem lamination_base
    (PRICING : Pricing.Table) (dimensions : Dimensions)
    (text : JS.jsstring) (variant : DesignVariant) (installConfig : InstallConfig)
    (isRush : bool) (lightboxDepth : Q) (r : QuoteResult) :
  calculateQuote PRICING SignType.WINDOW_VINYL dimensions text variant installConfig
    isRush true lightboxDepth = JS.Ok r ->
  let rules := Pricing.WINDOW_VINYL (Pricing.FABRICATION PRICING) in
  let rushPercent := Pricing.RUSH_ORDER_PERCENT (Pricing.FABRICATION PRICING) in
  let sqft := (widthIn dimensions * heightIn dimensions) / 144 in
  let rawCost := sqft * Pricing.WV_PER_SQFT rules in
  let lamCost := rawCost * Pricing.LAMINATION_PERCENT rules in
  let fabCost := Qmax (rawCost + lamCost) (Pricing.WV_MIN_PRICE rules) in
  lamCost == Pricing.LAMINATION_PERCENT rules * rawCost
  /\ fabAdders (breakdown r)
     = [SizeSqft sqft (Pricing.WV_PER_SQFT rules) rawCost; Lamination lamCost]
       ++ (if isRush then [RushOrder (fabCost * rushPercent)] else [])
  /\ fst (fabrication PRICING SignType.WINDOW_VINYL dimensions text variant
            true lightboxDepth) = fabCost
  /\ fabricationCost r == if isRush then fabCost * (1 + rushPercent) else fabCost.
Proof.
  intros H rules rushPercent sqft rawCost lamCost fabCost.
  apply calculateQuote_inv in H. destruct H as (tier & _ & Hc & Hl & _).
  split; [unfold lamCost; ring |].
  rewrite Hl, Hc, rushOrder_lines, rushOrder_cost, fabrication_windowVinyl.
  repeat split; reflexivity.
Qed.

Lemma lamination_base_witness :
  let sqft := ((48 * 36) / 144)%Q in
  exists r,
    calculateQuote samplePricing SignType.WINDOW_VINYL
      {| widthIn := 48; heightIn := 36 |} OPEN
      (sampleVariant LightingType.NON_LIT false) (sampleInstall 10 "NONE")
      false true 4 = JS.Ok r
    /\ sqft * 14 * (25 # 100) == (25 # 100) * (sqft * 14)
    /\ fabAdders (breakdown r)
       = [SizeSqft sqft 14 (sqft * 14); Lamination (sqft * 14 * (25 # 100))] ++ []
    /\ fst (fabrication samplePricing SignType.WINDOW_VINYL
              {| widthIn := 48; heightIn := 36 |} OPEN
              (sampleVariant LightingType.NON_LIT false) true 4)
       = Qmax (sqft * 14 + sqft * 14 * (25 # 100)) 250
    /\ fabricationCost r == Qmax (sqft * 14 + sqft * 14 * (25 # 100)) 250.
Proof.
  intro sqft. eexists. split; [reflexivity |].
  exact (lamination_base samplePricing {| widthIn := 48; heightIn := 36 |} OPEN
           (sampleVariant LightingType.NON_LIT false) (sampleInstall 10 "NONE")
           false 4 _ eq_refl).
Defined.

(** The fabrication cost of a quote, from the raw cost of its category. *)
Lemma fabricationCost_channelLetters (PRICING : Pricing.Table) dimensions text
    variant installConfig isRush hasLamination lightboxDepth r :
  calculateQuote PRICING SignType.CHANNEL_LETTERS dimensions text variant
    installConfig isRush hasLamination lightboxDepth = JS.Ok r ->
  let fRules := Pricing.FABRICATION PRICING in
  let fabCost :=
    Qmax (fst (channelLettersRaw PRICING dimensions text variant []))
         (Pricing.CL_MIN_PRICE (Pricing.CHANNEL_LETTERS fRules)) in
  fabricationCost r
  == if isRush then fabCost * (1 + Pricing.RUSH_ORDER_PERCENT fRules) else fabCost.
Proof.
  intros H fRules fabCost. apply calculateQuote_inv in H.
  destruct H as (tier & _ & Hc & _).
  rewrite Hc, rushOrder_cost, fabrication_channelLetters. reflexivity.
Qed.

Lemma fabricationCost_lightbox (PRICING : Pricing.Table) dimensions text
    variant installConfig isRush hasLamination lightboxDepth r :
  calculateQuote PRICING SignType.LIGHTBOX dimensions text variant
    installConfig isRush hasLamination lightboxDepth = JS.Ok r ->
  let fRules := Pricing.FABRICATION PRICING in
  let fabCost :=
    Qmax (fst (lightboxRaw PRICING dimensions variant lightboxDepth []))
         (Pricing.LB_MIN_PRICE (Pricing.LIGHTBOX fRules)) in
  fabricationCost r
  == if isRush then fabCost * (1 + Pricing.RUSH_ORDER_PERCENT fRules) else fabCost.
Proof.
  intros H fRules fabCost. apply calculateQuote_inv in H.
  destruct H as (tier & _ & Hc & _).
  rewrite Hc, rushOrder_cost, fabrication_lightbox. reflexivity.
Qed.

Lemma channelLettersRaw_lighting (PRICING : Pricing.Table) dimensions text variant l :
  let rules := Pricing.CHANNEL_LETTERS (Pricing.FABRICATION PRICING) in
  fst (channelLettersRaw PRICING dimensions text (withLighting variant l) [])
  == fst (channelLettersRaw PRICING dimensions text
            (withLighting variant LightingType.NON_LIT) [])
     + letterCount text * specLightingRate rules l.
Proof.
  intro rules. rewrite !channelLettersRaw_cost, letterCount_counts.
  unfold specChannelLettersRaw. fold rules. simpl lighting. simpl roundedBacker.
  change (specLightingRate rules LightingType.NON_LIT) with 0. ring.
Qed.

Lemma lightboxRaw_frontLit (PRICING : Pricing.Table) dimensions variant lightboxDepth :
  let rules := Pricing.LIGHTBOX (Pricing.FABRICATION PRICING) in
  fst (lightboxRaw PRICING dimensions (withLighting variant LightingType.FRONT_LIT)
         lightboxDepth [])
  = fst (lightboxRaw PRICING dimensions (withLighting variant LightingType.NON_LIT)
           lightboxDepth [])
    + Pricing.LIGHTING_ADDER_FRONT_LIT rules.
Proof.
  intro rules. unfold lightboxRaw. fold rules. simpl lighting. simpl String.eqb.
  cbv iota. now destruct (JS.gtb lightboxDepth _).
Qed.

Lemma Qmax_floor_both (a b m : Q) : a <= m -> b <= m -> Qmax a m == Qmax b m.
Proof.
  intros Ha Hb.
  destruct (Q.max_spec a m) as [[_ ->] | [Ha' ->]];
    destruct (Q.max_spec b m) as [[_ ->] | [Hb' ->]]; lra.
Qed.

Lemma Qmax_same (a b m : Q) : a == b -> Qmax a m == Qmax b m.
Proof.
  intro Hab.
  destruct (Q.max_spec a m) as [[? ->] | [? ->]];
    destruct (Q.max_spec b m) as [[? ->] | [? ->]]; lra.
Qed.

Lemma Qmax_above (a b m : Q) : a < b -> m < b -> Qmax a m < Qmax b m.
Proof.
  intros Ha Hb.
  destruct (Q.max_spec a m) as [[_ ->] | [_ ->]];
    destruct (Q.max_spec b m) as [[? ->] | [_ ->]]; lra.
Qed.

Lemma Qmax_unfloored (a d m : Q) : m <= a -> 0 <= d -> Qmax (a + d) m == Qmax a m + d.
Proof.
  intros Ha Hd.
  destruct (Q.max_spec a m) as [[? ->] | [_ ->]];
    destruct (Q.max_spec (a + d) m) as [[? ->] | [_ ->]]; lra.
Qed.

(** C8 (as amended).  For channel letters the raw cost of the FrontLit and
    of the BackLit variant is the NonLit raw cost plus letterCount times the
    lighting rate; the fabrication cost is strictly higher than NonLit's when
    the text has a letter, the rate is positive and the lit raw cost is above
    MIN_PRICE, and it is the same when the text has no letter or the floor
    binds on both.  For a
    lightbox BackLit costs what NonLit costs, the FrontLit raw cost is theirs
    plus LIGHTING_ADDER_FRONT_LIT, and the fabrication cost exceeds theirs by
    exactly that adder (times 1 + RUSH_ORDER_PERCENT on a rush order) when
    the NonLit raw cost is at least MIN_PRICE. *)
Theorem lighting_adder
    (PRICING : Pricing.Table) (dimensions : Dimensions)
    (text : JS.jsstring) (variant : DesignVariant) (installConfig : InstallConfig)
    (isRush hasLamination : bool) (lightboxDepth : Q) :
  Pricing.HEIGHT_TIERS (Pricing.INSTALLATION PRICING) <> [] ->
  let fRules := Pricing.FABRICATION PRICING in
  let quote signType l :=
    calculateQuote PRICING signType dimensions text (withLighting variant l)
      installConfig isRush hasLamination lightboxDepth in
  let factor := if isRush then 1 + Pricing.RUSH_ORDER_PERCENT fRules else 1 in
  (forall l, l = LightingType.FRONT_LIT \/ l = LightingType.BACK_LIT ->
   let rules := Pricing.CHANNEL_LETTERS fRules in
   let raw l := fst (channelLettersRaw PRICING dimensions text (withLighting variant l) []) in
   exists rN rL,
     quote SignType.CHANNEL_LETTERS LightingType.NON_LIT = JS.Ok rN
     /\ quote SignType.CHANNEL_LETTERS l = JS.Ok rL
     /\ raw l == raw LightingType.NON_LIT + letterCount text * specLightingRate rules l
     /\ (0 < letterCount text -> 0 < specLightingRate rules l ->
         Pricing.CL_MIN_PRICE rules < raw l -> 0 < factor ->
         fabricationCost rN < fabricationCost rL)
     /\ (raw LightingType.NON_LIT <= Pricing.CL_MIN_PRICE rules ->
         raw l <= Pricing.CL_MIN_PRICE rules ->
         fabricationCost rL == fabricationCost rN)
     /\ (letterCount text == 0 -> fabricationCost rL == fabricationCost rN))
  /\ (let rules := Pricing.LIGHTBOX fRules in
      let raw l :=
        fst (lightboxRaw PRICING dimensions (withLighting variant l) lightboxDepth []) in
      exists rN rB rF,
        quote SignType.LIGHTBOX LightingType.NON_LIT = JS.Ok rN
        /\ quote SignType.LIGHTBOX LightingType.BACK_LIT = JS.Ok rB
        /\ quote SignType.LIGHTBOX LightingType.FRONT_LIT = JS.Ok rF
        /\ fabricationCost rB = fabricationCost rN
        /\ raw LightingType.FRONT_LIT
           = raw LightingType.NON_LIT + Pricing.LIGHTING_ADDER_FRONT_LIT rules
        /\ (Pricing.LB_MIN_PRICE rules <= raw LightingType.NON_LIT ->
            0 <= Pricing.LIGHTING_ADDER_FRONT_LIT rules ->
            fabricationCost rF
            == fabricationCost rN + Pricing.LIGHTING_ADDER_FRONT_LIT rules * factor)).
Proof.
  intros Hne fRules quote factor. split.
  - intros l Hl rules raw.
    returned (quote SignType.CHANNEL_LETTERS LightingType.NON_LIT) Hne rN HN.
    returned (quote SignType.CHANNEL_LETTERS l) Hne rL HL.
    exists rN, rL. split; [exact HN |]. split; [exact HL |].
    apply fabricationCost_channelLetters in HN, HL.
    fold fRules rules in HN, HL. fold (raw LightingType.NON_LIT) in HN.
    fold (raw l) in HL.
    pose proof (channelLettersRaw_lighting PRICING dimensions text variant l) as Hraw.
    fold fRules rules in Hraw. fold (raw LightingType.NON_LIT) (raw l) in Hraw.
    cbv zeta in Hraw. split; [exact Hraw |]. split; [| split].
    + intros Hn Hrate Hm Hf. rewrite HN, HL.
      pose proof (Qmult_lt_0_compat _ _ Hn Hrate) as Hpos.
      assert (Hlt : raw LightingType.NON_LIT < raw l) by lra.
      pose proof (Qmax_above _ _ _ Hlt Hm) as Hmax.
      unfold factor in Hf.
      destruct isRush; [apply Qmult_lt_compat_r; assumption | exact Hmax].
    + intros HmN HmL. rewrite HN, HL.
      pose proof (Qmax_floor_both _ _ _ HmL HmN) as Hmax.
      destruct isRush; rewrite Hmax; reflexivity.
    + intro Hz. rewrite HN, HL.
      assert (Hsame : raw l == raw LightingType.NON_LIT)
        by (rewrite Hraw, Hz; ring).
      pose proof (Qmax_same _ _ (Pricing.CL_MIN_PRICE rules) Hsame) as Hmax.
      destruct isRush; rewrite Hmax; reflexivity.
  - intros rules raw.
    returned (quote SignType.LIGHTBOX LightingType.NON_LIT) Hne rN HN.
    returned (quote SignType.LIGHTBOX LightingType.BACK_LIT) Hne rB HB.
    returned (quote SignType.LIGHTBOX LightingType.FRONT_LIT) Hne rF HF.
    exists rN, rB, rF. split; [exact HN |]. split; [exact HB |]. split; [exact HF |].
    split; [| split].
    + apply calculateQuote_inv in HN, HB.
      destruct HN as (? & _ & -> & _). destruct HB as (? & _ & -> & _).
      reflexivity.
    + apply lightboxRaw_frontLit.
    + intros Hm Hadd.
      apply fabricationCost_lightbox in HN, HF.
      fold fRules rules in HN, HF. fold (raw LightingType.NON_LIT) in HN.
      fold (raw LightingType.FRONT_LIT) in HF.
      rewrite HN, HF.
      assert (Hmax : Qmax (raw LightingType.FRONT_LIT) (Pricing.LB_MIN_PRICE rules)
                     == Qmax (raw LightingType.NON_LIT) (Pricing.LB_MIN_PRICE rules)
                        + Pricing.LIGHTING_ADDER_FRONT_LIT rules).
      { unfold raw. rewrite lightboxRaw_frontLit. now apply Qmax_unfloored. }
      unfold factor. destruct isRush; rewrite Hmax; ring.
Qed.

Lemma lighting_adder_witness :
  exists rN rL,
    calculateQuote samplePricing SignType.CHANNEL_LETTERS
      {| widthIn := 0; heightIn := 36 |} OPEN
      (withLighting (sampleVariant LightingType.NON_LIT false) LightingType.NON_LIT)
      (sampleInstall 10 "NONE") false false 4 = JS.Ok rN
    /\ calculateQuote samplePricing SignType.CHANNEL_LETTERS
         {| widthIn := 0; heightIn := 36 |} OPEN
         (withLighting (sampleVariant LightingType.NON_LIT false) LightingType.FRONT_LIT)
         (sampleInstall 10 "NONE") false false 4 = JS.Ok rL
    /\ fabricationCost rN < fabricationCost rL.
Proof.
  assert (Hne : Pricing.HEIGHT_TIERS (Pricing.INSTALLATION samplePricing) <> [])
    by (simpl; discriminate).
  destruct (proj1 (lighting_adder samplePricing {| widthIn := 0; heightIn := 36 |}
                     OPEN (sampleVariant LightingType.NON_LIT false)
                     (sampleInstall 10 "NONE") false false 4 Hne)
                  LightingType.FRONT_LIT (or_introl eq_refl))
    as (rN & rL & HN & HL & _ & Hstrict & _).
  exists rN, rL. split; [exact HN |]. split; [exact HL |].
  apply Hstrict; reflexivity.
Defined.

(** C8, as stated, fails: with no letter in the text the FrontLit channel
    letters cost what the NonLit ones cost, and so do the four letters of
    OPEN at 18 in, both quoted at the minimum price; a FrontLit lightbox of
    width 0 (the width App.tsx starts from) costs what the NonLit one costs,
    not 160 more. *)
Lemma lit_letters_cost_the_minimum :
  exists rN rF rN' rF' bN bF,
    calculateQuote samplePricing SignType.CHANNEL_LETTERS
      {| widthIn := 0; heightIn := 18 |} []
      (sampleVariant LightingType.NON_LIT false) (sampleInstall 10 "NONE")
      false false 4 = JS.Ok rN
    /\ calculateQuote samplePricing SignType.CHANNEL_LETTERS
         {| widthIn := 0; heightIn := 18 |} []
         (sampleVariant LightingType.FRONT_LIT false) (sampleInstall 10 "NONE")
         false false 4 = JS.Ok rF
    /\ calculateQuote samplePricing SignType.CHANNEL_LETTERS
         {| widthIn := 0; heightIn := 18 |} OPEN
         (sampleVariant LightingType.NON_LIT false) (sampleInstall 10 "NONE")
         false false 4 = JS.Ok rN'
    /\ calculateQuote samplePricing SignType.CHANNEL_LETTERS
         {| widthIn := 0; heightIn := 18 |} OPEN
         (sampleVariant LightingType.FRONT_LIT false) (sampleInstall 10 "NONE")
         false false 4 = JS.Ok rF'
    /\ calculateQuote samplePricing SignType.LIGHTBOX
         {| widthIn := 0; heightIn := 18 |} OPEN
         (sampleVariant LightingType.NON_LIT false) (sampleInstall 10 "NONE")
         false false 4 = JS.Ok bN
    /\ calculateQuote samplePricing SignType.LIGHTBOX
         {| widthIn := 0; heightIn := 18 |} OPEN
         (sampleVariant LightingType.FRONT_LIT false) (sampleInstall 10 "NONE")
         false false 4 = JS.Ok bF
    /\ fabricationCost rF = fabricationCost rN
    /\ fabricationCost rF' = fabricationCost rN'
    /\ fabricationCost bF = fabricationCost bN.
Proof.
  do 6 eexists. repeat split; reflexivity.
Qed.

(** C9 (as amended).  No value of [signType] or of [liftType] makes
    [calculateQuote] fail.  A category outside the three is quoted with a
    fabrication cost of 0 and no fabrication line but the rush line; a lift
    type other than SCISSOR and BOOM is quoted with a lift cost of 0 and no
    lift line. *)
Theorem unrecognized_values_are_defaulted
    (PRICING : Pricing.Table) (signType : string) (dimensions : Dimensions)
    (text : JS.jsstring) (variant : DesignVariant) (installConfig : InstallConfig)
    (isRush hasLamination : bool) (lightboxDepth : Q) :
  Pricing.HEIGHT_TIERS (Pricing.INSTALLATION PRICING) <> [] ->
  exists r,
    calculateQuote PRICING signType dimensions text variant installConfig
      isRush hasLamination lightboxDepth = JS.Ok r
    /\ (signType <> SignType.CHANNEL_LETTERS ->
        signType <> SignType.LIGHTBOX ->
        signType <> SignType.WINDOW_VINYL ->
        fabricationCost r == 0
        /\ fabAdders (breakdown r)
           = if isRush
             then [RushOrder (0 * Pricing.RUSH_ORDER_PERCENT (Pricing.FABRICATION PRICING))]
             else [])
    /\ (liftType installConfig <> "SCISSOR"%string ->
        liftType installConfig <> "BOOM"%string ->
        installLift (breakdown r) = 0
        /\ forall l c, ~ In (Lift l c) (installAdders (breakdown r))).
Proof.
  intro Hne.
  returned (calculateQuote PRICING signType dimensions text variant
              installConfig isRush hasLamination lightboxDepth) Hne r Hr.
  exists r. split; [exact Hr |].
  apply calculateQuote_inv in Hr.
  destruct Hr as (tier & _ & Hc & Hl & _ & _ & _ & Hlift & Hline & _).
  split.
  - intros H1 H2 H3. rewrite Hc, Hl, rushOrder_cost, rushOrder_lines.
    rewrite (fabrication_unrecognized _ _ _ _ _ _ _ H1 H2 H3). simpl.
    split; destruct isRush; try reflexivity; ring.
  - intros H1 H2. apply String.eqb_neq in H1, H2. rewrite H1, H2 in Hlift.
    split; [exact Hlift |].
    intros l c Hin. rewrite Hlift in Hline.
    assert (H0 : 0 < 0) by (apply Hline; now exists l, c).
    lra.
Qed.

Lemma unrecognized_values_are_defaulted_witness :
  exists r,
    calculateQuote samplePricing "Banner" {| widthIn := 48; heightIn := 36 |} OPEN
      (sampleVariant LightingType.FRONT_LIT false) (sampleInstall 10 "CRANE")
      true false 4 = JS.Ok r
    /\ fabricationCost r == 0
    /\ fabAdders (breakdown r) = [RushOrder (0 * (12 # 100))]
    /\ installLift (breakdown r) = 0
    /\ forall l c, ~ In (Lift l c) (installAdders (breakdown r)).
Proof.
  assert (Hne : Pricing.HEIGHT_TIERS (Pricing.INSTALLATION samplePricing) <> [])
    by (simpl; discriminate).
  destruct (unrecognized_values_are_defaulted samplePricing "Banner"
              {| widthIn := 48; heightIn := 36 |} OPEN
              (sampleVariant LightingType.FRONT_LIT false) (sampleInstall 10 "CRANE")
              true false 4 Hne) as (r & Hr & Hsign & Hlift).
  exists r. split; [exact Hr |].
  destruct Hsign as [Hc Hl]; try (simpl; discriminate).
  destruct Hlift as [Hz Hno]; try (simpl; discriminate).
  repeat split; assumption.
Defined.

(** C9, as stated, fails: a "Banner" to be mounted with a "CRANE" is quoted,
    with a fabrication cost of 0 and a lift cost of 0, and nothing is
    raised. *)
Lemma unrecognized_values_are_quoted :
  exists r,
    calculateQuote samplePricing "Banner" {| widthIn := 48; heightIn := 36 |} OPEN
      (sampleVariant LightingType.FRONT_LIT false) (sampleInstall 10 "CRANE")
      false false 4 = JS.Ok r
    /\ fabricationCost r = 0
    /\ fabAdders (breakdown r) = []
    /\ installLift (breakdown r) = 0
    /\ total r == 14033250 # 10000.
Proof.
  eexists. repeat split; reflexivity.
Qed.

(** C10.  On every input on which [calculateQuote] returns, [fabBase] is
    [fabricationCost], the fabrication cost as it leaves the rush block,
    whatever the category and with or without rush. *)
Theorem fabBase_is_fabricationCost
    (PRICING : Pricing.Table) (signType : string) (dimensions : Dimensions)
    (text : JS.jsstring) (variant : DesignVariant) (installConfig : InstallConfig)
    (isRush hasLamination : bool) (lightboxDepth : Q) (r : QuoteResult) :
  calculateQuote PRICING signType dimensions text variant installConfig
    isRush hasLamination lightboxDepth = JS.Ok r ->
  fabBase (breakdown r) = fabricationCost r
  /\ fabricationCost r
     = fst (rushOrder PRICING isRush
              (fabrication PRICING signType dimensions text variant
                 hasLamination lightboxDepth)).
Proof.
  intro H. apply calculateQuote_inv in H.
  destruct H as (tier & _ & Hc & _ & Hb & _). now split.
Qed.

Lemma fabBase_is_fabricationCost_witness :
  exists r,
    calculateQuote samplePricing SignType.LIGHTBOX
      {| widthIn := 48; heightIn := 36 |} OPEN
      (sampleVariant LightingType.FRONT_LIT false) (sampleInstall 25 "BOOM")
      true false 6 = JS.Ok r
    /\ fabBase (breakdown r) = fabricationCost r
    /\ fabricationCost r
       = fst (rushOrder samplePricing true
                (fabrication samplePricing SignType.LIGHTBOX
                   {| widthIn := 48; heightIn := 36 |} OPEN
                   (sampleVariant LightingType.FRONT_LIT false) false 6)).
Proof.
  eexists. split; [reflexivity |].
  exact (fabBase_is_fabricationCost samplePricing SignType.LIGHTBOX
           {| widthIn := 48; heightIn := 36 |} OPEN
           (sampleVariant LightingType.FRONT_LIT false) (sampleInstall 25 "BOOM")
           true false 6 _ eq_refl).
Defined.

(** * Further properties of [calculateQuote] *)

Lemma Qsum_app (xs ys : list Q) : Qsum (xs ++ ys) == Qsum xs + Qsum ys.
Proof.
  induction xs as [| x xs IH]; simpl; [ring |]. rewrite IH. ring.
Qed.

Lemma ofNat_S (n : nat) : JS.ofNat (S n) == JS.ofNat n + 1.
Proof.
  unfold JS.ofNat. rewrite Nat2Z.inj_succ. unfold Z.succ.
  now rewrite inject_Z_plus.
Qed.

(** Two sums whose terms differ by at most [d] differ by at most [d] a term. *)
Lemma Qsum_near {A} (f g : A -> Q) (d : Q) (l : list A) :
  (forall a, f a - d <= g a <= f a + d) ->
  Qsum (List.map f l) - JS.ofNat (List.length l) * d
  <= Qsum (List.map g l)
  <= Qsum (List.map f l) + JS.ofNat (List.length l) * d.
Proof.
  intro H. induction l as [| a l IH].
  - simpl. change (JS.ofNat 0) with 0. lra.
  - cbn [List.map List.length Qsum fold_right]. fold (Qsum (List.map f l)).
    fold (Qsum (List.map g l)). rewrite ofNat_S. specialize (H a). lra.
Qed.

(** [toFixed(2)] moves a number by half a cent at most. *)
Lemma toFixed2_near (x : Q) : x - (1 # 200) <= toFixed 2 x <= x + (1 # 200).
Proof.
  assert (Hround : forall m,
             m - (1 # 200)
             <= inject_Z (Qfloor (m * inject_Z 100 + (1 # 2))) / inject_Z 100
             <= m + (1 # 200)).
  { intro m. set (y := m * inject_Z 100 + (1 # 2)).
    pose proof (Qfloor_le y) as Hlo. pose proof (Qlt_floor y) as Hhi.
    rewrite inject_Z_plus in Hhi.
    set (z := inject_Z (Qfloor y)) in *. clearbody z. unfold y in Hlo, Hhi.
    change (inject_Z 100) with 100 in *. change (inject_Z 1) with 1 in Hhi.
    assert (E : z / 100 == z * (1 # 100)) by (unfold Qdiv; reflexivity).
    rewrite E. lra. }
  unfold toFixed. change (inject_Z (10 ^ Z.of_nat 2)) with (inject_Z 100).
  destruct (JS.ltb x 0).
  - destruct (JS.leb _ (- x)); [lra |]. specialize (Hround (- x)). lra.
  - destruct (JS.leb _ x); [lra |]. specialize (Hround x). lra.
Qed.

Lemma fabPrinted_near (a : FabAdder) :
  fabAmount a - (1 # 200) <= fabPrinted a <= fabAmount a + (1 # 200).
Proof.
  destruct a; simpl; try apply toFixed2_near; lra.
Qed.

(** The installation block (lines 105-139), line by line. *)
Lemma calculateQuote_installation (PRICING : Pricing.Table) signType dimensions text
    variant installConfig isRush hasLamination lightboxDepth r :
  calculateQuote PRICING signType dimensions text variant installConfig
    isRush hasLamination lightboxDepth = JS.Ok r ->
  let iRules := Pricing.INSTALLATION PRICING in
  exists tier contingency,
    selectTier PRICING installConfig = Some tier
    /\ installAdders (breakdown r)
       = [BaseTripFee (Pricing.BASE_TRIP iRules);
          Labor (Pricing.hours tier) (Pricing.LABOR_RATE iRules)
            (Pricing.hours tier * Pricing.LABOR_RATE iRules)]
         ++ (if JS.gtb (installLift (breakdown r)) 0
             then [Lift (liftType installConfig) (installLift (breakdown r))] else [])
         ++ (if electricalWork installConfig
             then [ElectricalHookup (Pricing.ELECTRICAL iRules)] else [])
         ++ (if permit installConfig
             then [PermitAllowance (Pricing.PERMIT iRules)] else [])
         ++ (if hardAccess installConfig
             then [HardAccessParking (Pricing.HARD_ACCESS iRules)] else [])
         ++ [Contingency contingency]
    /\ contingency
       == (Pricing.BASE_TRIP iRules + Pricing.hours tier * Pricing.LABOR_RATE iRules
           + installLift (breakdown r)
           + ((if electricalWork installConfig then Pricing.ELECTRICAL iRules else 0)
              + (if permit installConfig then Pricing.PERMIT iRules else 0)
              + (if hardAccess installConfig then Pricing.HARD_ACCESS iRules else 0)))
          * Pricing.CONTINGENCY_PERCENT iRules
    /\ installationCost r
       == (Pricing.BASE_TRIP iRules + Pricing.hours tier * Pricing.LABOR_RATE iRules
           + installLift (breakdown r)
           + ((if electricalWork installConfig then Pricing.ELECTRICAL iRules else 0)
              + (if permit installConfig then Pricing.PERMIT iRules else 0)
              + (if hardAccess installConfig then Pricing.HARD_ACCESS iRules else 0)))
          * (1 + Pricing.CONTINGENCY_PERCENT iRules).
Proof.
  unfold calculateQuote.
  destruct (rushOrder _ _ _) as [fabCost fabAdders0].
  destruct (selectTier PRICING installConfig) as [tier |]; [| discriminate].
  intros H. simpl in H. exists tier.
  set (liftCost := if (liftType installConfig =? "BOOM")%string then _ else _) in H.
  destruct (JS.gtb liftCost 0) eqn:G;
    destruct (electricalWork installConfig), (permit installConfig),
      (hardAccess installConfig);
    injection H as <-; simpl; fold liftCost; rewrite G;
    eexists; (split; [reflexivity |]); (split; [reflexivity |]); split; ring.
Qed.

(** X1.  The installation lines of a quote, provided the lift cost is
    not negative (a lift cost is only printed when it is positive).  The
    numbers the lines are built from add up to the installation cost, and
    the contingency, the last line, is CONTINGENCY_PERCENT of the numbers
    ahead of it.  The amounts the lines print need not add up to the cost:
    labor and contingency are printed through [toFixed(2)], so the printed
    amounts add up to within one cent of it. *)
Theorem installation_lines_add_up
    (PRICING : Pricing.Table) (signType : string) (dimensions : Dimensions)
    (text : JS.jsstring) (variant : DesignVariant) (installConfig : InstallConfig)
    (isRush hasLamination : bool) (lightboxDepth : Q) (r : QuoteResult) :
  calculateQuote PRICING signType dimensions text variant installConfig
    isRush hasLamination lightboxDepth = JS.Ok r ->
  0 <= installLift (breakdown r) ->
  let lines := installAdders (breakdown r) in
  Qsum (List.map installAmount lines) == installationCost r
  /\ (installationCost r - (1 # 100)
      <= Qsum (List.map installPrinted lines)
      <= installationCost r + (1 # 100))
  /\ exists ahead contingency,
       lines = ahead ++ [Contingency contingency]
       /\ contingency
          == Qsum (List.map installAmount ahead)
             * Pricing.CONTINGENCY_PERCENT (Pricing.INSTALLATION PRICING).
Proof.
  intros H Hlift lines. unfold lines. apply calculateQuote_installation in H.
  destruct H as (tier & c & _ & Hlines & Hc & Hcost).
  set (lift := installLift (breakdown r)) in *.
  assert (Hzero : JS.gtb lift 0 = false -> lift == 0).
  { intro G. apply ltb_false in G. lra. }
  rewrite Hlines. split; [| split].
  - rewrite Hcost.
    destruct (JS.gtb lift 0); [| rewrite (Hzero eq_refl)];
      destruct (electricalWork installConfig), (permit installConfig),
        (hardAccess installConfig); simpl; rewrite Hc;
      rewrite ?(Hzero eq_refl); simpl; ring.
  - pose proof (toFixed2_near c) as Hcont.
    pose proof (toFixed2_near
                  (Pricing.hours tier
                   * Pricing.LABOR_RATE (Pricing.INSTALLATION PRICING))) as Hlabor.
    set (labor := Pricing.hours tier
                  * Pricing.LABOR_RATE (Pricing.INSTALLATION PRICING)) in *.
    assert (Hsum : installationCost r
                   == Pricing.BASE_TRIP (Pricing.INSTALLATION PRICING) + labor + lift
                      + ((if electricalWork installConfig
                          then Pricing.ELECTRICAL (Pricing.INSTALLATION PRICING)
                          else 0)
                         + (if permit installConfig
                            then Pricing.PERMIT (Pricing.INSTALLATION PRICING)
                            else 0)
                         + (if hardAccess installConfig
                            then Pricing.HARD_ACCESS (Pricing.INSTALLATION PRICING)
                            else 0))
                      + c).
    { rewrite Hcost, Hc. ring. }
    destruct (JS.gtb lift 0) eqn:G; [| pose proof (Hzero eq_refl) as Hlift0];
      destruct (electricalWork installConfig), (permit installConfig),
        (hardAccess installConfig); simpl in *; lra.
  - eexists. exists c. split; [rewrite !app_assoc; reflexivity |].
    rewrite Hc.
    destruct (JS.gtb lift 0); [| rewrite (Hzero eq_refl)];
      destruct (electricalWork installConfig), (permit installConfig),
        (hardAccess installConfig); simpl; ring.
Qed.

Lemma installation_lines_add_up_witness :
  exists r,
    calculateQuote halfHourPricing SignType.LIGHTBOX
      {| widthIn := 48; heightIn := 36 |} OPEN
      (sampleVariant LightingType.FRONT_LIT false) (sampleInstall 10 "NONE")
      true false 6 = JS.Ok r
    /\ List.map installAmount (installAdders (breakdown r))
       = [180; (7 # 2) * (185 # 2); 350; 400;
          (180 + (7 # 2) * (185 # 2) + 0 + (0 + 350 + 400)) * (10 # 100)]
    /\ List.map installPrinted (installAdders (breakdown r))
       = [180; 32375 # 100; 350; 400; 12538 # 100]
    /\ installationCost r == 1379125 # 1000
    /\ Qsum (List.map installAmount (installAdders (breakdown r)))
       == installationCost r
    /\ (installationCost r - (1 # 100)
        <= Qsum (List.map installPrinted (installAdders (breakdown r)))
        <= installationCost r + (1 # 100)).
Proof.
  eexists. split; [reflexivity |]. split; [reflexivity |].
  split; [reflexivity |]. split; [reflexivity |].
  refine (let H := installation_lines_add_up halfHourPricing SignType.LIGHTBOX
                     {| widthIn := 48; heightIn := 36 |} OPEN
                     (sampleVariant LightingType.FRONT_LIT false)
                     (sampleInstall 10 "NONE") true false 6 _ eq_refl _ in
          conj (proj1 H) (proj1 (proj2 H))).
  simpl. discriminate.
Defined.

(** X2.  The two halves of a quote do not see each other's inputs: the
    installation cost, labor, lift and lines depend on the installation
    config alone, and the fabrication cost and lines do not depend on it. *)
Theorem fabrication_and_installation_are_independent
    (PRICING : Pricing.Table) (signType signType' : string)
    (dimensions dimensions' : Dimensions) (text text' : JS.jsstring)
    (variant variant' : DesignVariant) (installConfig installConfig' : InstallConfig)
    (isRush isRush' hasLamination hasLamination' : bool)
    (lightboxDepth lightboxDepth' : Q) (r r1 r2 : QuoteResult) :
  calculateQuote PRICING signType dimensions text variant installConfig
    isRush hasLamination lightboxDepth = JS.Ok r ->
  calculateQuote PRICING signType' dimensions' text' variant' installConfig
    isRush' hasLamination' lightboxDepth' = JS.Ok r1 ->
  calculateQuote PRICING signType dimensions text variant installConfig'
    isRush hasLamination lightboxDepth = JS.Ok r2 ->
  (installationCost r1 = installationCost r
   /\ installLabor (breakdown r1) = installLabor (breakdown r)
   /\ installLift (breakdown r1) = installLift (breakdown r)
   /\ installAdders (breakdown r1) = installAdders (breakdown r))
  /\ (fabricationCost r2 = fabricationCost r
      /\ fabBase (breakdown r2) = fabBase (breakdown r)
      /\ fabAdders (breakdown r2) = fabAdders (breakdown r)).
Proof.
  intros H H1 H2. split.
  - unfold calculateQuote in H, H1.
    destruct (rushOrder _ _ _) as [c l] in H.
    destruct (rushOrder _ _ _) as [c1 l1] in H1.
    destruct (selectTier PRICING installConfig) as [tier |]; [| discriminate].
    simpl in H, H1.
    destruct (JS.gtb _ 0), (electricalWork installConfig), (permit installConfig),
      (hardAccess installConfig);
      injection H as <-; injection H1 as <-; repeat split.
  - pose proof (calculateQuote_inv _ _ _ _ _ _ _ _ _ _ H) as (? & _ & Hc & Hl & Hb & _).
    pose proof (calculateQuote_inv _ _ _ _ _ _ _ _ _ _ H2) as (? & _ & Hc2 & Hl2 & Hb2 & _).
    rewrite Hb, Hb2, Hc, Hc2, Hl, Hl2. repeat split.
Qed.

Lemma fabrication_and_installation_are_independent_witness :
  exists r r1 r2,
    calculateQuote samplePricing SignType.CHANNEL_LETTERS
      {| widthIn := 0; heightIn := 18 |} OPEN
      (sampleVariant LightingType.FRONT_LIT false) (sampleInstall 10 "NONE")
      false false 4 = JS.Ok r
    /\ calculateQuote samplePricing SignType.WINDOW_VINYL
         {| widthIn := 48; heightIn := 36 |} []
         (sampleVariant LightingType.NON_LIT true) (sampleInstall 10 "NONE")
         true true 6 = JS.Ok r1
    /\ calculateQuote samplePricing SignType.CHANNEL_LETTERS
         {| widthIn := 0; heightIn := 18 |} OPEN
         (sampleVariant LightingType.FRONT_LIT false) (sampleInstall 25 "BOOM")
         false false 4 = JS.Ok r2
    /\ (installationCost r1 = installationCost r
        /\ installLabor (breakdown r1) = installLabor (breakdown r)
        /\ installLift (breakdown r1) = installLift (breakdown r)
        /\ installAdders (breakdown r1) = installAdders (breakdown r))
    /\ (fabricationCost r2 = fabricationCost r
        /\ fabBase (breakdown r2) = fabBase (breakdown r)
        /\ fabAdders (breakdown r2) = fabAdders (breakdown r)).
Proof.
  do 3 eexists. split; [reflexivity |]. split; [reflexivity |]. split; [reflexivity |].
  exact (fabrication_and_installation_are_independent samplePricing
           SignType.CHANNEL_LETTERS SignType.WINDOW_VINYL
           {| widthIn := 0; heightIn := 18 |} {| widthIn := 48; heightIn := 36 |}
           OPEN [] (sampleVariant LightingType.FRONT_LIT false)
           (sampleVariant LightingType.NON_LIT true)
           (sampleInstall 10 "NONE") (sampleInstall 25 "BOOM")
           false true false true 4 6 _ _ _ eq_refl eq_refl eq_refl).
Defined.

(** X3.  [calculateQuote] throws, a TypeError, exactly when the tier table
    is empty; nothing else in its inputs can make it fail. *)
Theorem throws_only_on_empty_tier_table
    (PRICING : Pricing.Table) (signType : string) (dimensions : Dimensions)
    (text : JS.jsstring) (variant : DesignVariant) (installConfig : InstallConfig)
    (isRush hasLamination : bool) (lightboxDepth : Q) :
  calculateQuote PRICING signType dimensions text variant installConfig
    isRush hasLamination lightboxDepth = JS.Throw JS.TypeError
  <-> Pricing.HEIGHT_TIERS (Pricing.INSTALLATION PRICING) = [].
Proof.
  split.
  - intro H.
    destruct (Pricing.HEIGHT_TIERS (Pricing.INSTALLATION PRICING)) as [| t ts] eqn:E;
      [reflexivity |].
    assert (Hne : Pricing.HEIGHT_TIERS (Pricing.INSTALLATION PRICING) <> [])
      by (rewrite E; discriminate).
    returned (calculateQuote PRICING signType dimensions text variant
                installConfig isRush hasLamination lightboxDepth) Hne r Hr.
    congruence.
  - intro H. now apply calculateQuote_throws.
Qed.

(** The lines of a raw-cost block add up to the raw cost. *)
Lemma channelLettersRaw_adds_up (PRICING : Pricing.Table) dimensions text variant :
  Qsum (List.map fabAmount (snd (channelLettersRaw PRICING dimensions text variant [])))
  == fst (channelLettersRaw PRICING dimensions text variant []).
Proof.
  unfold channelLettersRaw.
  destruct (lighting variant =? LightingType.FRONT_LIT)%string;
    [| destruct (lighting variant =? LightingType.BACK_LIT)%string];
    destruct (roundedBacker variant); simpl; ring.
Qed.

Lemma lightboxRaw_adds_up (PRICING : Pricing.Table) dimensions variant lightboxDepth :
  Qsum (List.map fabAmount (snd (lightboxRaw PRICING dimensions variant lightboxDepth [])))
  == fst (lightboxRaw PRICING dimensions variant lightboxDepth []).
Proof.
  unfold lightboxRaw.
  destruct (JS.gtb lightboxDepth _);
    destruct (lighting variant =? LightingType.FRONT_LIT)%string; simpl; ring.
Qed.

Lemma windowVinylRaw_adds_up (PRICING : Pricing.Table) dimensions hasLamination :
  Qsum (List.map fabAmount (snd (windowVinylRaw PRICING dimensions hasLamination [])))
  == fst (windowVinylRaw PRICING dimensions hasLamination []).
Proof.
  unfold windowVinylRaw. destruct hasLamination; simpl; ring.
Qed.

Lemma rushOrder_adds_up (PRICING : Pricing.Table) isRush fab :
  Qsum (List.map fabAmount (snd fab)) == fst fab ->
  Qsum (List.map fabAmount (snd (rushOrder PRICING isRush fab)))
  == fst (rushOrder PRICING isRush fab).
Proof.
  destruct fab as [c l]. simpl. intro H. unfold rushOrder.
  destruct isRush; simpl; [| exact H].
  rewrite map_app, Qsum_app, H. simpl. ring.
Qed.

(** X4.  The fabrication lines of a quote, rush line included, when the
    minimum price does not bind, in each of the three categories.  The
    numbers the lines are built from add up to the fabrication cost.  The
    amounts the lines print need not: most are printed through
    [toFixed(2)], so the printed amounts add up to the cost to within half
    a cent a line. *)
Theorem fabrication_lines_add_up
    (PRICING : Pricing.Table) (signType : string) (dimensions : Dimensions)
    (text : JS.jsstring) (variant : DesignVariant) (installConfig : InstallConfig)
    (isRush hasLamination : bool) (lightboxDepth : Q) (r : QuoteResult) :
  calculateQuote PRICING signType dimensions text variant installConfig
    isRush hasLamination lightboxDepth = JS.Ok r ->
  let fRules := Pricing.FABRICATION PRICING in
  let lines := fabAdders (breakdown r) in
  let slack := JS.ofNat (List.length lines) * (1 # 200) in
  let adds_up :=
    Qsum (List.map fabAmount lines) == fabricationCost r
    /\ (fabricationCost r - slack
        <= Qsum (List.map fabPrinted lines)
        <= fabricationCost r + slack) in
  (signType = SignType.CHANNEL_LETTERS ->
   Pricing.CL_MIN_PRICE (Pricing.CHANNEL_LETTERS fRules)
   <= fst (channelLettersRaw PRICING dimensions text variant []) ->
   adds_up)
  /\ (signType = SignType.LIGHTBOX ->
      Pricing.LB_MIN_PRICE (Pricing.LIGHTBOX fRules)
      <= fst (lightboxRaw PRICING dimensions variant lightboxDepth []) ->
      adds_up)
  /\ (signType = SignType.WINDOW_VINYL ->
      Pricing.WV_MIN_PRICE (Pricing.WINDOW_VINYL fRules)
      <= fst (windowVinylRaw PRICING dimensions hasLamination []) ->
      adds_up).
Proof.
  intros H fRules lines slack adds_up. apply calculateQuote_inv in H.
  destruct H as (tier & _ & Hc & Hl & _).
  assert (Hnear : Qsum (List.map fabAmount lines) == fabricationCost r -> adds_up).
  { intro E. split; [exact E |].
    pose proof (Qsum_near fabAmount fabPrinted (1 # 200) lines fabPrinted_near) as Hn.
    fold slack in Hn. lra. }
  unfold lines in Hnear. rewrite Hc, Hl in Hnear.
  split; [| split]; intros -> Hm; apply Hnear; apply rushOrder_adds_up.
  - rewrite fabrication_channelLetters. simpl fst; simpl snd.
    apply ltb_false in Hm as Hb. fold fRules. rewrite Hb, (Math_max_raw _ _ Hm).
    apply channelLettersRaw_adds_up.
  - rewrite fabrication_lightbox. simpl fst; simpl snd.
    apply ltb_false in Hm as Hb. fold fRules. rewrite Hb, (Math_max_raw _ _ Hm).
    apply lightboxRaw_adds_up.
  - rewrite fabrication_windowVinyl. simpl fst; simpl snd.
    fold fRules. rewrite (Math_max_raw _ _ Hm).
    apply windowVinylRaw_adds_up.
Qed.

Lemma fabrication_lines_add_up_witness :
  exists r,
    calculateQuote samplePricing SignType.WINDOW_VINYL
      {| widthIn := 24; heightIn := 88 |} OPEN
      (sampleVariant LightingType.NON_LIT false) (sampleInstall 10 "NONE")
      true true 4 = JS.Ok r
    /\ List.map fabPrinted (fabAdders (breakdown r))
       = [20533 # 100; 5133 # 100; 3080 # 100]
    /\ fabricationCost r == 4312 # 15
    /\ Qsum (List.map fabAmount (fabAdders (breakdown r))) == fabricationCost r
    /\ (fabricationCost r - 3 * (1 # 200)
        <= Qsum (List.map fabPrinted (fabAdders (breakdown r)))
        <= fabricationCost r + 3 * (1 # 200)).
Proof.
  eexists. split; [reflexivity |]. split; [reflexivity |]. split; [reflexivity |].
  refine (proj2 (proj2 (fabrication_lines_add_up samplePricing SignType.WINDOW_VINYL
                          {| widthIn := 24; heightIn := 88 |} OPEN
                          (sampleVariant LightingType.NON_LIT false)
                          (sampleInstall 10 "NONE") true true 4 _ eq_refl))
            eq_refl _).
  simpl. discriminate.
Defined.

(** X5.  In each of the three categories the fabrication cost is never
    below the minimum price of the category, unless a rush percentage or a
    minimum price of the table is negative; it is exactly the minimum
    price, times 1 + RUSH_ORDER_PERCENT on a rush order, when the raw cost
    is below it. *)
Theorem fabrication_cost_is_floored
    (PRICING : Pricing.Table) (signType : string) (dimensions : Dimensions)
    (text : JS.jsstring) (variant : DesignVariant) (installConfig : InstallConfig)
    (isRush hasLamination : bool) (lightboxDepth : Q) (r : QuoteResult) :
  calculateQuote PRICING signType dimensions text variant installConfig
    isRush hasLamination lightboxDepth = JS.Ok r ->
  let fRules := Pricing.FABRICATION PRICING in
  let factor := if isRush then 1 + Pricing.RUSH_ORDER_PERCENT fRules else 1 in
  let floored raw m :=
    (raw < m -> fabricationCost r == m * factor)
    /\ (1 <= factor -> 0 <= m -> m <= fabricationCost r) in
  (signType = SignType.CHANNEL_LETTERS ->
   floored (fst (channelLettersRaw PRICING dimensions text variant []))
           (Pricing.CL_MIN_PRICE (Pricing.CHANNEL_LETTERS fRules)))
  /\ (signType = SignType.LIGHTBOX ->
      floored (fst (lightboxRaw PRICING dimensions variant lightboxDepth []))
              (Pricing.LB_MIN_PRICE (Pricing.LIGHTBOX fRules)))
  /\ (signType = SignType.WINDOW_VINYL ->
      floored (fst (windowVinylRaw PRICING dimensions hasLamination []))
              (Pricing.WV_MIN_PRICE (Pricing.WINDOW_VINYL fRules))).
Proof.
  intros H fRules factor floored. apply calculateQuote_inv in H.
  destruct H as (tier & _ & Hc & _).
  assert (Hgen : forall raw m,
             fabricationCost r == Qmax raw m * factor -> floored raw m).
  { intros raw m Hr. split.
    - intro Hlt. rewrite Hr. change (Qmax raw m) with (JS.Math_max raw m).
      rewrite (Math_max_floor _ _ Hlt). reflexivity.
    - intros Hf Hm. rewrite Hr.
      pose proof (Q.le_max_r raw m) as Hmax. nra. }
  assert (Hfac : forall fab,
             fst (rushOrder PRICING isRush fab) == fst fab * factor).
  { intro fab. rewrite rushOrder_cost. unfold factor, fRules.
    destruct isRush; ring. }
  split; [| split]; intros ->; apply Hgen; rewrite Hc, Hfac.
  - rewrite fabrication_channelLetters. reflexivity.
  - rewrite fabrication_lightbox. reflexivity.
  - rewrite fabrication_windowVinyl. reflexivity.
Qed.

Lemma fabrication_cost_is_floored_witness :
  exists r,
    calculateQuote samplePricing SignType.WINDOW_VINYL
      {| widthIn := 24; heightIn := 12 |} OPEN
      (sampleVariant LightingType.NON_LIT false) (sampleInstall 10 "NONE")
      true true 4 = JS.Ok r
    /\ fabricationCost r == 250 * (1 + (12 # 100))
    /\ 250 < fabricationCost r.
Proof.
  eexists. split; [reflexivity |].
  destruct (proj2 (proj2 (fabrication_cost_is_floored samplePricing
                            SignType.WINDOW_VINYL {| widthIn := 24; heightIn := 12 |}
                            OPEN (sampleVariant LightingType.NON_LIT false)
                            (sampleInstall 10 "NONE") true true 4 _ eq_refl))
                  eq_refl) as [Hexact _].
  split; [apply Hexact; reflexivity | reflexivity].
Defined.

Lemma letterCount_nonneg (text : JS.jsstring) : 0 <= letterCount text.
Proof.
  unfold letterCount, JS.ofNat. change 0 with (inject_Z 0).
  rewrite <- Zle_Qle. lia.
Qed.

Lemma Qmax_monotone (a b m : Q) : a <= b -> Qmax a m <= Qmax b m.
Proof.
  intro H.
  destruct (Q.max_spec a m) as [[? ->] | [? ->]];
    destruct (Q.max_spec b m) as [[? ->] | [? ->]]; lra.
Qed.

(** X6.  With rates that are not negative, the fabrication cost never
    decreases when channel letters get taller, nor when a lightbox or a
    window vinyl gets a larger area, everything else being the same. *)
Theorem fabrication_cost_is_monotone
    (PRICING : Pricing.Table) (signType : string) (d1 d2 : Dimensions)
    (text : JS.jsstring) (variant : DesignVariant) (installConfig : InstallConfig)
    (isRush hasLamination : bool) (lightboxDepth : Q) (r1 r2 : QuoteResult) :
  calculateQuote PRICING signType d1 text variant installConfig
    isRush hasLamination lightboxDepth = JS.Ok r1 ->
  calculateQuote PRICING signType d2 text variant installConfig
    isRush hasLamination lightboxDepth = JS.Ok r2 ->
  let fRules := Pricing.FABRICATION PRICING in
  0 <= Pricing.RUSH_ORDER_PERCENT fRules ->
  (signType = SignType.CHANNEL_LETTERS ->
   0 <= Pricing.PER_INCH_HEIGHT (Pricing.CHANNEL_LETTERS fRules) ->
   heightIn d1 <= heightIn d2 ->
   fabricationCost r1 <= fabricationCost r2)
  /\ (signType = SignType.LIGHTBOX ->
      0 <= Pricing.LB_PER_SQFT (Pricing.LIGHTBOX fRules) ->
      widthIn d1 * heightIn d1 <= widthIn d2 * heightIn d2 ->
      fabricationCost r1 <= fabricationCost r2)
  /\ (signType = SignType.WINDOW_VINYL ->
      0 <= Pricing.WV_PER_SQFT (Pricing.WINDOW_VINYL fRules) ->
      0 <= Pricing.LAMINATION_PERCENT (Pricing.WINDOW_VINYL fRules) ->
      widthIn d1 * heightIn d1 <= widthIn d2 * heightIn d2 ->
      fabricationCost r1 <= fabricationCost r2).
Proof.
  intros H1 H2 fRules Hrush.
  pose proof (calculateQuote_inv _ _ _ _ _ _ _ _ _ _ H1) as (? & _ & Hc1 & _).
  pose proof (calculateQuote_inv _ _ _ _ _ _ _ _ _ _ H2) as (? & _ & Hc2 & _).
  rewrite Hc1, Hc2, !rushOrder_cost. fold fRules.
  assert (Hgen : forall a b m : Q,
             a <= b ->
             (if isRush then Qmax a m * (1 + Pricing.RUSH_ORDER_PERCENT fRules)
              else Qmax a m)
             <= (if isRush then Qmax b m * (1 + Pricing.RUSH_ORDER_PERCENT fRules)
                 else Qmax b m)).
  { intros a b m Hab. pose proof (Qmax_monotone a b m Hab).
    destruct isRush; [nra | assumption]. }
  split; [| split]; intros ->.
  - intros Hrate Hh. rewrite !fabrication_channelLetters. simpl fst.
    apply Hgen. rewrite !channelLettersRaw_cost.
    unfold specChannelLettersRaw. fold fRules.
    pose proof (letterCount_nonneg text) as Hn. rewrite letterCount_counts in Hn.
    set (n := JS.ofNat (countNonWhiteSpace text)) in *.
    assert (n * heightIn d1 <= n * heightIn d2) by nra.
    assert (n * heightIn d1 * Pricing.PER_INCH_HEIGHT (Pricing.CHANNEL_LETTERS fRules)
            <= n * heightIn d2 * Pricing.PER_INCH_HEIGHT (Pricing.CHANNEL_LETTERS fRules))
      by nra.
    lra.
  - intros Hrate Ha. rewrite !fabrication_lightbox. simpl fst.
    apply Hgen. unfold lightboxRaw. fold fRules.
    assert (widthIn d1 * heightIn d1 / 144 * Pricing.LB_PER_SQFT (Pricing.LIGHTBOX fRules)
            <= widthIn d2 * heightIn d2 / 144
               * Pricing.LB_PER_SQFT (Pricing.LIGHTBOX fRules)).
    { apply Qmult_le_compat_r; [| assumption].
      apply Qmult_le_compat_r; [assumption | discriminate]. }
    destruct (JS.gtb lightboxDepth _);
      destruct (lighting variant =? LightingType.FRONT_LIT)%string; simpl; lra.
  - intros Hrate Hlam Ha. rewrite !fabrication_windowVinyl. simpl fst.
    apply Hgen. unfold windowVinylRaw. fold fRules.
    assert (widthIn d1 * heightIn d1 / 144 * Pricing.WV_PER_SQFT (Pricing.WINDOW_VINYL fRules)
            <= widthIn d2 * heightIn d2 / 144
               * Pricing.WV_PER_SQFT (Pricing.WINDOW_VINYL fRules)).
    { apply Qmult_le_compat_r; [| assumption].
      apply Qmult_le_compat_r; [assumption | discriminate]. }
    destruct hasLamination; simpl; [nra | assumption].
Qed.

Lemma fabrication_cost_is_monotone_witness :
  exists r1 r2,
    calculateQuote samplePricing SignType.CHANNEL_LETTERS
      {| widthIn := 0; heightIn := 18 |} OPEN
      (sampleVariant LightingType.FRONT_LIT false) (sampleInstall 10 "NONE")
      true false 4 = JS.Ok r1
    /\ calculateQuote samplePricing SignType.CHANNEL_LETTERS
         {| widthIn := 0; heightIn := 36 |} OPEN
         (sampleVariant LightingType.FRONT_LIT false) (sampleInstall 10 "NONE")
         true false 4 = JS.Ok r2
    /\ fabricationCost r1 <= fabricationCost r2.
Proof.
  do 2 eexists. split; [reflexivity |]. split; [reflexivity |].
  refine (proj1 (fabrication_cost_is_monotone samplePricing SignType.CHANNEL_LETTERS
                   {| widthIn := 0; heightIn := 18 |} {| widthIn := 0; heightIn := 36 |}
                   OPEN (sampleVariant LightingType.FRONT_LIT false)
                   (sampleInstall 10 "NONE") true false 4 _ _ eq_refl eq_refl _)
                eq_refl _ _); simpl; discriminate.
Defined.

Lemma removeWhiteSpace_app (a b : JS.jsstring) :
  JS.removeWhiteSpace (a ++ b) = JS.removeWhiteSpace a ++ JS.removeWhiteSpace b.
Proof. apply filter_app. Qed.

Lemma removeWhiteSpace_blank (ws : JS.jsstring) :
  Forall (fun c => JS.isWhiteSpace c = true) ws -> JS.removeWhiteSpace ws = [].
Proof.
  induction 1 as [| c ws Hc _ IH]; simpl; [reflexivity |]. now rewrite Hc.
Qed.

Lemma removeWhiteSpace_idempotent (text : JS.jsstring) :
  JS.removeWhiteSpace (JS.removeWhiteSpace text) = JS.removeWhiteSpace text.
Proof.
  induction text as [| c rest IH]; simpl; [reflexivity |].
  destruct (JS.isWhiteSpace c) eqn:E; simpl; [exact IH |].
  now rewrite E, IH.
Qed.

(** The text reaches the quote through [letterCount] alone. *)
Lemma calculateQuote_letterCount (PRICING : Pricing.Table) signType dimensions
    text text' variant installConfig isRush hasLamination lightboxDepth :
  letterCount text = letterCount text' ->
  calculateQuote PRICING signType dimensions text variant installConfig
    isRush hasLamination lightboxDepth
  = calculateQuote PRICING signType dimensions text' variant installConfig
      isRush hasLamination lightboxDepth.
Proof.
  intro H. unfold calculateQuote, fabrication, channelLettersRaw. now rewrite H.
Qed.

(** X7.  White space is free: inserting a run of white space anywhere in
    the text, or removing all of it, leaves the whole quote unchanged. *)
Theorem whitespace_is_free
    (PRICING : Pricing.Table) (signType : string) (dimensions : Dimensions)
    (before blank after : JS.jsstring) (variant : DesignVariant)
    (installConfig : InstallConfig) (isRush hasLamination : bool) (lightboxDepth : Q) :
  Forall (fun c => JS.isWhiteSpace c = true) blank ->
  calculateQuote PRICING signType dimensions (before ++ blank ++ after) variant
    installConfig isRush hasLamination lightboxDepth
  = calculateQuote PRICING signType dimensions (before ++ after) variant
      installConfig isRush hasLamination lightboxDepth
  /\ calculateQuote PRICING signType dimensions
       (JS.removeWhiteSpace (before ++ blank ++ after)) variant
       installConfig isRush hasLamination lightboxDepth
     = calculateQuote PRICING signType dimensions (before ++ after) variant
         installConfig isRush hasLamination lightboxDepth.
Proof.
  intro H. split; apply calculateQuote_letterCount; unfold letterCount.
  - now rewrite !removeWhiteSpace_app, (removeWhiteSpace_blank _ H).
  - rewrite removeWhiteSpace_idempotent.
    now rewrite !removeWhiteSpace_app, (removeWhiteSpace_blank _ H).
Qed.

Lemma whitespace_is_free_witness :
  calculateQuote samplePricing SignType.CHANNEL_LETTERS
    {| widthIn := 0; heightIn := 18 |}
    (JS.ofString "OP" ++ [32; 9; 160; 8239; 65279]%N ++ JS.ofString "EN")
    (sampleVariant LightingType.FRONT_LIT false) (sampleInstall 10 "NONE")
    false false 4
  = calculateQuote samplePricing SignType.CHANNEL_LETTERS
      {| widthIn := 0; heightIn := 18 |} (JS.ofString "OP" ++ JS.ofString "EN")
      (sampleVariant LightingType.FRONT_LIT false) (sampleInstall 10 "NONE")
      false false 4
  /\ calculateQuote samplePricing SignType.CHANNEL_LETTERS
       {| widthIn := 0; heightIn := 18 |}
       (JS.removeWhiteSpace
          (JS.ofString "OP" ++ [32; 9; 160; 8239; 65279]%N ++ JS.ofString "EN"))
       (sampleVariant LightingType.FRONT_LIT false) (sampleInstall 10 "NONE")
       false false 4
     = calculateQuote samplePricing SignType.CHANNEL_LETTERS
         {| widthIn := 0; heightIn := 18 |} (JS.ofString "OP" ++ JS.ofString "EN")
         (sampleVariant LightingType.FRONT_LIT false) (sampleInstall 10 "NONE")
         false false 4.
Proof.
  apply (whitespace_is_free samplePricing SignType.CHANNEL_LETTERS
           {| widthIn := 0; heightIn := 18 |} (JS.ofString "OP")
           [32; 9; 160; 8239; 65279]%N (JS.ofString "EN")).
  repeat constructor.
Defined.

(** X8.  What each category does not read: a channel letters quote is the
    same for every width, lamination flag and lightbox depth; a lightbox
    quote for every text and lamination flag; a window vinyl quote for every
    text, variant and lightbox depth. *)
Theorem inputs_a_category_ignores
    (PRICING : Pricing.Table) (dimensions : Dimensions)
    (text text' : JS.jsstring) (variant variant' : DesignVariant)
    (installConfig : InstallConfig) (isRush hasLamination hasLamination' : bool)
    (lightboxDepth lightboxDepth' widthIn' : Q) :
  calculateQuote PRICING SignType.CHANNEL_LETTERS
    {| widthIn := widthIn'; heightIn := heightIn dimensions |} text variant
    installConfig isRush hasLamination' lightboxDepth'
  = calculateQuote PRICING SignType.CHANNEL_LETTERS dimensions text variant
      installConfig isRush hasLamination lightboxDepth
  /\ calculateQuote PRICING SignType.LIGHTBOX dimensions text' variant
       installConfig isRush hasLamination' lightboxDepth
     = calculateQuote PRICING SignType.LIGHTBOX dimensions text variant
         installConfig isRush hasLamination lightboxDepth
  /\ calculateQuote PRICING SignType.WINDOW_VINYL dimensions text' variant'
       installConfig isRush hasLamination lightboxDepth'
     = calculateQuote PRICING SignType.WINDOW_VINYL dimensions text variant
         installConfig isRush hasLamination lightboxDepth.
Proof.
  repeat split; reflexivity.
Qed.

(** X9.  The depth of a lightbox is free up to DEPTH_BASE: two depths at or
    below it give the same quote; above it the raw cost grows by
    DEPTH_ADDER_PER_INCH per inch of excess, and the depth line is there
    exactly then. *)
Theorem lightbox_depth_adder
    (PRICING : Pricing.Table) (dimensions : Dimensions)
    (text : JS.jsstring) (variant : DesignVariant) (installConfig : InstallConfig)
    (isRush hasLamination : bool) (depth depth' : Q) :
  let rules := Pricing.LIGHTBOX (Pricing.FABRICATION PRICING) in
  let raw d := lightboxRaw PRICING dimensions variant d [] in
  let hasDepthLine d :=
    existsb (fun a => match a with DepthAdder _ _ => true | _ => false end)
            (snd (raw d)) in
  (depth <= Pricing.DEPTH_BASE rules -> depth' <= Pricing.DEPTH_BASE rules ->
   calculateQuote PRICING SignType.LIGHTBOX dimensions text variant installConfig
     isRush hasLamination depth
   = calculateQuote PRICING SignType.LIGHTBOX dimensions text variant installConfig
       isRush hasLamination depth')
  /\ (Pricing.DEPTH_BASE rules < depth ->
      fst (raw depth)
      == fst (raw (Pricing.DEPTH_BASE rules))
         + (depth - Pricing.DEPTH_BASE rules) * Pricing.DEPTH_ADDER_PER_INCH rules)
  /\ (hasDepthLine depth = true <-> Pricing.DEPTH_BASE rules < depth).
Proof.
  intros rules raw hasDepthLine. split; [| split].
  - intros H H'. apply ltb_false in H, H'.
    unfold calculateQuote, fabrication. simpl String.eqb. cbv iota.
    unfold lightboxRaw, JS.gtb. fold rules. now rewrite H, H'.
  - intro H. apply ltb_spec in H as Hb.
    assert (Hbase : JS.ltb (Pricing.DEPTH_BASE rules) (Pricing.DEPTH_BASE rules) = false)
      by (apply ltb_false; lra).
    unfold raw, lightboxRaw, JS.gtb. fold rules. rewrite Hb, Hbase.
    destruct (lighting variant =? LightingType.FRONT_LIT)%string; simpl; ring.
  - unfold hasDepthLine, raw, lightboxRaw, JS.gtb. fold rules.
    rewrite <- ltb_spec.
    destruct (JS.ltb (Pricing.DEPTH_BASE rules) depth);
      destruct (lighting variant =? LightingType.FRONT_LIT)%string; simpl;
      intuition congruence.
Qed.

Lemma lightbox_depth_adder_witness :
  calculateQuote samplePricing SignType.LIGHTBOX {| widthIn := 48; heightIn := 36 |}
    OPEN (sampleVariant LightingType.FRONT_LIT false) (sampleInstall 10 "NONE")
    false false 2
  = calculateQuote samplePricing SignType.LIGHTBOX {| widthIn := 48; heightIn := 36 |}
      OPEN (sampleVariant LightingType.FRONT_LIT false) (sampleInstall 10 "NONE")
      false false (-1)
  /\ fst (lightboxRaw samplePricing {| widthIn := 48; heightIn := 36 |}
            (sampleVariant LightingType.FRONT_LIT false) 6 [])
     == fst (lightboxRaw samplePricing {| widthIn := 48; heightIn := 36 |}
               (sampleVariant LightingType.FRONT_LIT false) 4 [])
        + (6 - 4) * 35.
Proof.
  pose proof (lightbox_depth_adder samplePricing {| widthIn := 48; heightIn := 36 |}
                OPEN (sampleVariant LightingType.FRONT_LIT false)
                (sampleInstall 10 "NONE") false false 2 (-1)) as [Hfree _].
  pose proof (lightbox_depth_adder samplePricing {| widthIn := 48; heightIn := 36 |}
                OPEN (sampleVariant LightingType.FRONT_LIT false)
                (sampleInstall 10 "NONE") false false 6 6) as [_ [Hadder _]].
  split; [apply Hfree; simpl; discriminate | apply Hadder; reflexivity].
Defined.

(** The number of lines of a quote. *)
Lemma quote_line_counts (PRICING : Pricing.Table) signType dimensions text variant
    installConfig isRush hasLamination lightboxDepth r :
  calculateQuote PRICING signType dimensions text variant installConfig
    isRush hasLamination lightboxDepth = JS.Ok r ->
  (List.length (fabAdders (breakdown r)) <= 6)%nat
  /\ (3 <= List.length (installAdders (breakdown r)) <= 7)%nat.
Proof.
  intro H. split.
  - apply calculateQuote_inv in H. destruct H as (tier & _ & _ & Hl & _).
    rewrite Hl, rushOrder_lines, length_app.
    assert (Hfab : (List.length (snd (fabrication PRICING signType dimensions text
                                        variant hasLamination lightboxDepth)) <= 5)%nat).
    { unfold fabrication, channelLettersRaw, lightboxRaw, windowVinylRaw.
      repeat match goal with
             | |- context [if ?b then _ else _] => destruct b
             end; simpl; lia. }
    destruct isRush; simpl; lia.
  - apply calculateQuote_installation in H.
    destruct H as (tier & c & _ & Hlines & _). rewrite Hlines.
    rewrite !length_app.
    destruct (JS.gtb _ 0), (electricalWork installConfig), (permit installConfig),
      (hardAccess installConfig); simpl; lia.
Qed.

(** X10.  A quote never has more than six fabrication lines, and it has
    between three and seven installation lines. *)
Theorem line_counts
    (PRICING : Pricing.Table) (signType : string) (dimensions : Dimensions)
    (text : JS.jsstring) (variant : DesignVariant) (installConfig : InstallConfig)
    (isRush hasLamination : bool) (lightboxDepth : Q) (r : QuoteResult) :
  calculateQuote PRICING signType dimensions text variant installConfig
    isRush hasLamination lightboxDepth = JS.Ok r ->
  (List.length (fabAdders (breakdown r)) <= 6)%nat
  /\ (3 <= List.length (installAdders (breakdown r)) <= 7)%nat.
Proof.
  apply quote_line_counts.
Qed.

Lemma line_counts_witness :
  exists r,
    calculateQuote samplePricing SignType.CHANNEL_LETTERS
      {| widthIn := 0; heightIn := 4 |} OPEN
      (sampleVariant LightingType.BACK_LIT true)
      {| heightFeet := 25; liftType := "BOOM"; electricalWork := true;
         permit := true; hardAccess := true; address := ""; clientName := "" |}
      true false 4 = JS.Ok r
    /\ List.length (fabAdders (breakdown r)) = 6%nat
    /\ List.length (installAdders (breakdown r)) = 7%nat
    /\ (List.length (fabAdders (breakdown r)) <= 6)%nat
    /\ (3 <= List.length (installAdders (breakdown r)) <= 7)%nat.
Proof.
  eexists. split; [reflexivity |]. split; [reflexivity |]. split; [reflexivity |].
  exact (line_counts samplePricing SignType.CHANNEL_LETTERS
           {| widthIn := 0; heightIn := 4 |} OPEN
           (sampleVariant LightingType.BACK_LIT true)
           {| heightFeet := 25; liftType := "BOOM"; electricalWork := true;
              permit := true; hardAccess := true; address := ""; clientName := "" |}
           true false 4 _ eq_refl).
Defined.

(** * The design service ([services/geminiService.ts]) *)

Lemma mapFrom_length {A B} (f : A -> nat -> B) (k : nat) (xs : list A) :
  List.length (JSArray.mapFrom f k xs) = List.length xs.
Proof.
  revert k. induction xs as [| x xs IH]; intro k; simpl; [reflexivity |].
  now rewrite IH.
Qed.

Lemma mapFrom_nth {A B} (f : A -> nat -> B) (k i : nat) (xs : list A) :
  nth_error (JSArray.mapFrom f k xs) i
  = option_map (fun x => f x (k + i)%nat) (nth_error xs i).
Proof.
  revert k i. induction xs as [| x xs IH]; intros k i.
  - now destruct i.
  - destruct i as [| i]; simpl.
    + now rewrite Nat.add_0_r.
    + rewrite IH. now replace (S k + i)%nat with (k + S i)%nat by lia.
Qed.

(** The variants of the [try] block, entry by entry. *)
Lemma mapped_variant (vs : list DesignVariant) (i : nat) (v' : DesignVariant) :
  nth_error (JSArray.map Gemini.postProcess (JSArray.slice0 3 vs)) i = Some v' ->
  (i < 3)%nat /\ exists v, nth_error vs i = Some v /\ v' = Gemini.postProcess v i.
Proof.
  unfold JSArray.map, JSArray.slice0. rewrite mapFrom_nth, nth_error_firstn.
  destruct (Nat.ltb_spec i 3) as [Hlt | Hge]; [| discriminate].
  destruct (nth_error vs i) as [v |]; [| discriminate].
  simpl. intros [= <-]. split; [exact Hlt |]. now exists v.
Qed.

Section ServiceProperties.

Variable API_KEY : option string.
Variable getAllFonts : list string.
Variable generateContent :
  JS.jsstring -> string -> list string -> option string -> string -> Gemini.Reply.
Variable JSON_parse : string -> option Gemini.Parsed.

Let service := Gemini.generateDesignVariants API_KEY getAllFonts generateContent JSON_parse.

(** With a key the service resolves, with the parsed variants or with the
    fallback ones. *)
Lemma service_resolves text signType allowedFonts imageBase64 userContext :
  JSArray.truthy API_KEY = true ->
  exists response,
    service text signType allowedFonts imageBase64 userContext
    = Gemini.Resolved response
    /\ ((exists parsed,
           Gemini.variants response
           = JSArray.map Gemini.postProcess
               (JSArray.slice0 3 (Gemini.parsedVariants parsed))
           /\ Gemini.placement response = Gemini.parsedPlacement parsed)
        \/ exists fonts, response = Gemini.fallbackResponse fonts).
Proof.
  intro Hkey. unfold service, Gemini.generateDesignVariants. rewrite Hkey. simpl.
  destruct (Gemini.tryGenerate _ _ _ _ _ _ _) as [response |] eqn:E.
  - exists response. split; [reflexivity |]. left.
    unfold Gemini.tryGenerate in E.
    destruct (generateContent _ _ _ _ _) as [| [jsonText |]]; try discriminate.
    destruct (negb _); [discriminate |].
    destruct (JSON_parse jsonText) as [parsed |]; [| discriminate].
    injection E as <-. now exists parsed.
  - eexists. split; [reflexivity |]. right. now eexists.
Qed.

End ServiceProperties.

(** The lighting of the variant at index [i] of a resolved response. *)
Lemma service_lighting_by_index
    (API_KEY : option string) (getAllFonts : list string)
    (generateContent :
       JS.jsstring -> string -> list string -> option string -> string -> Gemini.Reply)
    (JSON_parse : string -> option Gemini.Parsed)
    (text : JS.jsstring) (signType : string) (allowedFonts : option (list string))
    (imageBase64 userContext : option string) :
  JSArray.truthy API_KEY = true ->
  exists response,
    Gemini.generateDesignVariants API_KEY getAllFonts generateContent JSON_parse
      text signType allowedFonts imageBase64 userContext = Gemini.Resolved response
    /\ forall i v,
         nth_error (Gemini.variants response) i = Some v ->
         lighting v
         = if (i =? 1)%nat then LightingType.BACK_LIT else LightingType.FRONT_LIT.
Proof.
  intro Hkey.
  destruct (service_resolves API_KEY getAllFonts generateContent JSON_parse
              text signType allowedFonts imageBase64 userContext Hkey)
    as (response & Hr & [(parsed & Hv & _) | (fonts & Hfb)]);
    exists response; (split; [exact Hr |]); [rewrite Hv | rewrite Hfb].
  - intros i v Hi. apply mapped_variant in Hi.
    destruct Hi as (_ & v0 & _ & ->). reflexivity.
  - intros i v Hi.
    destruct i as [| [| [| i]]]; simpl in Hi;
      [injection Hi as <- .. | destruct i; discriminate]; reflexivity.
Qed.


(** The option, the description and the lighting of each variant. *)
Lemma service_options_by_index
    (API_KEY : option string) (getAllFonts : list string)
    (generateContent :
       JS.jsstring -> string -> list string -> option string -> string -> Gemini.Reply)
    (JSON_parse : string -> option Gemini.Parsed)
    (text : JS.jsstring) (signType : string) (allowedFonts : option (list string))
    (imageBase64 userContext : option string) :
  JSArray.truthy API_KEY = true ->
  exists response,
    Gemini.generateDesignVariants API_KEY getAllFonts generateContent JSON_parse
      text signType allowedFonts imageBase64 userContext = Gemini.Resolved response
    /\ (List.length (Gemini.variants response) <= 3)%nat
    /\ forall i v,
         nth_error (Gemini.variants response) i = Some v ->
         exists config,
           nth_error Gemini.OPTION_CONFIGS i = Some config
           /\ name v = Gemini.OptionConfig.name config
           /\ description v = Some (Gemini.OptionConfig.description config)
           /\ lighting v
              = if (i =? 1)%nat then LightingType.BACK_LIT else LightingType.FRONT_LIT.
Proof.
  intro Hkey.
  destruct (service_resolves API_KEY getAllFonts generateContent JSON_parse
              text signType allowedFonts imageBase64 userContext Hkey)
    as (response & Hr & [(parsed & Hv & _) | (fonts & Hfb)]);
    exists response; (split; [exact Hr |]); [rewrite Hv | rewrite Hfb].
  - split.
    + unfold JSArray.map, JSArray.slice0. rewrite mapFrom_length. apply firstn_le_length.
    + intros i v Hi. apply mapped_variant in Hi.
      destruct Hi as (Hlt & v0 & _ & ->).
      destruct i as [| [| [| i]]]; try lia; eexists; repeat split; reflexivity.
  - split; [simpl; lia |].
    intros i v Hi.
    destruct i as [| [| [| i]]]; simpl in Hi;
      [injection Hi as <- .. | destruct i; discriminate];
      eexists; repeat split; reflexivity.
Qed.

(** X11.  With an API key the service always resolves, whatever the model
    answers, with at most three variants; the variant at index i carries the
    name and the description of option A, B or C in that order, the one at
    index 1 is BACK_LIT and the others are FRONT_LIT. *)
Theorem service_variants_are_the_three_options
    (API_KEY : option string) (getAllFonts : list string)
    (generateContent :
       JS.jsstring -> string -> list string -> option string -> string -> Gemini.Reply)
    (JSON_parse : string -> option Gemini.Parsed)
    (text : JS.jsstring) (signType : string) (allowedFonts : option (list string))
    (imageBase64 userContext : option string) :
  JSArray.truthy API_KEY = true ->
  exists response,
    Gemini.generateDesignVariants API_KEY getAllFonts generateContent JSON_parse
      text signType allowedFonts imageBase64 userContext = Gemini.Resolved response
    /\ (List.length (Gemini.variants response) <= 3)%nat
    /\ forall i v,
         nth_error (Gemini.variants response) i = Some v ->
         exists config,
           nth_error Gemini.OPTION_CONFIGS i = Some config
           /\ name v = Gemini.OptionConfig.name config
           /\ description v = Some (Gemini.OptionConfig.description config)
           /\ lighting v
              = if (i =? 1)%nat then LightingType.BACK_LIT else LightingType.FRONT_LIT.
Proof.
  apply service_options_by_index.
Qed.

Lemma service_variants_are_the_three_options_witness :
  exists response,
    Gemini.generateDesignVariants (Some "key"%string) sampleFonts
      (sampleModel (Gemini.Response (Some "ok"%string))) sampleParse
      OPEN SignType.CHANNEL_LETTERS None None None = Gemini.Resolved response
    /\ (List.length (Gemini.variants response) <= 3)%nat
    /\ forall i v,
         nth_error (Gemini.variants response) i = Some v ->
         exists config,
           nth_error Gemini.OPTION_CONFIGS i = Some config
           /\ name v = Gemini.OptionConfig.name config
           /\ description v = Some (Gemini.OptionConfig.description config)
           /\ lighting v
              = if (i =? 1)%nat then LightingType.BACK_LIT else LightingType.FRONT_LIT.
Proof.
  apply (service_variants_are_the_three_options (Some "key"%string) sampleFonts
           (sampleModel (Gemini.Response (Some "ok"%string))) sampleParse
           OPEN SignType.CHANNEL_LETTERS None None None).
  reflexivity.
Defined.

(** X12.  The service rejects exactly when the API key is missing or
    empty, and then with the message "API Key is missing"; no failure of
    the model or of the parsing can make it reject. *)
Theorem service_rejects_only_without_key
    (API_KEY : option string) (getAllFonts : list string)
    (generateContent :
       JS.jsstring -> string -> list string -> option string -> string -> Gemini.Reply)
    (JSON_parse : string -> option Gemini.Parsed)
    (text : JS.jsstring) (signType : string) (allowedFonts : option (list string))
    (imageBase64 userContext : option string) (message : string) :
  Gemini.generateDesignVariants API_KEY getAllFonts generateContent JSON_parse
    text signType allowedFonts imageBase64 userContext = Gemini.Rejected message
  <-> (API_KEY = None \/ API_KEY = Some ""%string)
      /\ message = "API Key is missing"%string.
Proof.
  unfold Gemini.generateDesignVariants. split.
  - destruct API_KEY as [key |]; simpl.
    + destruct (key =? "")%string eqn:E; simpl.
      * apply String.eqb_eq in E. subst. intros [= <-]. split; auto.
      * destruct (Gemini.tryGenerate _ _ _ _ _ _ _); discriminate.
    + intros [= <-]. split; auto.
  - intros [[-> | ->] ->]; reflexivity.
Qed.

Lemma orElse_nonempty (a : option string) (b : string) :
  b <> ""%string -> JSArray.orElse a b <> ""%string.
Proof.
  intro Hb. unfold JSArray.orElse.
  destruct a as [s |]; [| exact Hb].
  destruct (s =? "")%string eqn:E; [exact Hb |]. now apply String.eqb_neq.
Qed.

Lemma orElse_source (fonts : list string) (i : nat) (b : string) :
  In (JSArray.orElse (nth_error fonts i) b) fonts
  \/ JSArray.orElse (nth_error fonts i) b = b.
Proof.
  unfold JSArray.orElse.
  destruct (nth_error fonts i) as [s |] eqn:E; [| now right].
  destruct (s =? "")%string; [now right |].
  left. eapply nth_error_In. exact E.
Qed.

(** X13.  When the request fails, or the response has no text, or the text
    does not parse, the service with a key resolves with the fallback: three
    variants and the fixed placement box.  Every font of the fallback is a
    non-empty name, taken from the allowed fonts or else "Arial"; an empty
    or missing entry among the first three falls back to the first font. *)
Theorem service_falls_back
    (API_KEY : option string) (getAllFonts : list string)
    (generateContent :
       JS.jsstring -> string -> list string -> option string -> string -> Gemini.Reply)
    (JSON_parse : string -> option Gemini.Parsed)
    (text : JS.jsstring) (signType : string) (allowedFonts : list string)
    (imageBase64 : option string) (userContext : string) :
  JSArray.truthy API_KEY = true ->
  (generateContent text signType allowedFonts imageBase64 userContext = Gemini.Fails
   \/ (exists jsonText,
         generateContent text signType allowedFonts imageBase64 userContext
         = Gemini.Response jsonText
         /\ JSArray.truthy jsonText = false)
   \/ (exists jsonText,
         generateContent text signType allowedFonts imageBase64 userContext
         = Gemini.Response (Some jsonText)
         /\ JSON_parse jsonText = None)) ->
  exists v0 v1 v2,
    Gemini.generateDesignVariants API_KEY getAllFonts generateContent JSON_parse
      text signType (Some allowedFonts) imageBase64 (Some userContext)
    = Gemini.Resolved {|
        Gemini.variants := [v0; v1; v2];
        Gemini.placement :=
          Some {| ymin := 2 # 10; xmin := 3 # 10; ymax := 4 # 10; xmax := 7 # 10 |}
      |}
    /\ Forall (fun v =>
                 fontFamily v <> ""%string
                 /\ (In (fontFamily v) allowedFonts \/ fontFamily v = "Arial"%string))
              [v0; v1; v2]
    /\ fontFamily v0 = JSArray.orElse (nth_error allowedFonts 0) "Arial"
    /\ fontFamily v1 = JSArray.orElse (nth_error allowedFonts 1) (fontFamily v0)
    /\ fontFamily v2 = JSArray.orElse (nth_error allowedFonts 2) (fontFamily v0).
Proof.
  intros Hkey Hfail.
  assert (Htry : Gemini.tryGenerate generateContent JSON_parse text signType
                   allowedFonts imageBase64 userContext = None).
  { unfold Gemini.tryGenerate.
    destruct Hfail as [-> | [(jsonText & -> & Ht) | (jsonText & -> & Hp)]].
    - reflexivity.
    - destruct jsonText as [s |]; [| reflexivity]. now rewrite Ht.
    - rewrite Hp. now destruct (negb _). }
  unfold Gemini.generateDesignVariants. rewrite Hkey, Htry. simpl negb. cbv iota.
  unfold Gemini.fallbackResponse.
  do 3 eexists. split; [reflexivity |]. cbn [fontFamily].
  set (f0 := JSArray.orElse (nth_error allowedFonts 0) "Arial").
  assert (H0 : f0 <> ""%string) by (apply orElse_nonempty; discriminate).
  assert (S0 : In f0 allowedFonts \/ f0 = "Arial"%string) by apply orElse_source.
  assert (Hnext : forall i,
             JSArray.orElse (nth_error allowedFonts i) f0 <> ""%string
             /\ (In (JSArray.orElse (nth_error allowedFonts i) f0) allowedFonts
                 \/ JSArray.orElse (nth_error allowedFonts i) f0 = "Arial"%string)).
  { intro i. split; [now apply orElse_nonempty |].
    destruct (orElse_source allowedFonts i f0) as [? | ->]; auto. }
  split; [| now repeat split].
  repeat apply Forall_cons; try apply Forall_nil; cbn [fontFamily]; auto.
Qed.

Lemma service_falls_back_witness :
  exists v0 v1 v2,
    Gemini.generateDesignVariants (Some "key"%string) [] (sampleModel Gemini.Fails)
      sampleParse OPEN SignType.CHANNEL_LETTERS (Some sampleFonts) None (Some ""%string)
    = Gemini.Resolved {|
        Gemini.variants := [v0; v1; v2];
        Gemini.placement :=
          Some {| ymin := 2 # 10; xmin := 3 # 10; ymax := 4 # 10; xmax := 7 # 10 |}
      |}
    /\ Forall (fun v =>
                 fontFamily v <> ""%string
                 /\ (In (fontFamily v) sampleFonts \/ fontFamily v = "Arial"%string))
              [v0; v1; v2]
    /\ fontFamily v0 = "Montserrat"%string
    /\ fontFamily v1 = "Montserrat"%string
    /\ fontFamily v2 = "Oswald"%string.
Proof.
  destruct (service_falls_back (Some "key"%string) [] (sampleModel Gemini.Fails)
              sampleParse OPEN SignType.CHANNEL_LETTERS sampleFonts None ""%string
              eq_refl (or_introl eq_refl))
    as (v0 & v1 & v2 & Hr & Hall & H0 & H1 & H2).
  exists v0, v1, v2. split; [exact Hr |]. split; [exact Hall |].
  rewrite H1, H2, H0. repeat split; reflexivity.
Defined.

(** X14.  When the text of the response parses, the service keeps the first
    three variants of the model in their order: the fonts, spacing, backer,
    stroke, letter height and colours are the model's, and the placement is
    the parsed one. *)
Theorem service_keeps_the_design
    (API_KEY : option string) (getAllFonts : list string)
    (generateContent :
       JS.jsstring -> string -> list string -> option string -> string -> Gemini.Reply)
    (JSON_parse : string -> option Gemini.Parsed)
    (text : JS.jsstring) (signType : string) (allowedFonts : list string)
    (imageBase64 : option string) (userContext jsonText : string)
    (parsed : Gemini.Parsed) :
  JSArray.truthy API_KEY = true ->
  generateContent text signType allowedFonts imageBase64 userContext
  = Gemini.Response (Some jsonText) ->
  jsonText <> ""%string ->
  JSON_parse jsonText = Some parsed ->
  exists response,
    Gemini.generateDesignVariants API_KEY getAllFonts generateContent JSON_parse
      text signType (Some allowedFonts) imageBase64 (Some userContext)
    = Gemini.Resolved response
    /\ Gemini.placement response = Gemini.parsedPlacement parsed
    /\ List.length (Gemini.variants response)
       = Nat.min 3 (List.length (Gemini.parsedVariants parsed))
    /\ forall i v',
         nth_error (Gemini.variants response) i = Some v' ->
         exists v,
           nth_error (Gemini.parsedVariants parsed) i = Some v
           /\ fontFamily v' = fontFamily v
           /\ letterSpacing v' = letterSpacing v
           /\ roundedBacker v' = roundedBacker v
           /\ stroke v' = stroke v
           /\ strokeWidth v' = strokeWidth v
           /\ recommendedLetterHeightIn v' = recommendedLetterHeightIn v
           /\ color v' = color v
           /\ backgroundColor v' = backgroundColor v.
Proof.
  intros Hkey Hreply Hne Hparse.
  apply String.eqb_neq in Hne.
  unfold Gemini.generateDesignVariants, Gemini.tryGenerate.
  rewrite Hkey, Hreply, Hparse. unfold JSArray.truthy. rewrite Hne. cbn [negb].
  eexists. split; [reflexivity |]. cbn [Gemini.variants Gemini.placement].
  split; [reflexivity |]. split.
  - unfold JSArray.map, JSArray.slice0. now rewrite mapFrom_length, length_firstn.
  - intros i v' Hi. apply mapped_variant in Hi.
    destruct Hi as (_ & v & Hv & ->). exists v. now repeat split.
Qed.

Lemma service_keeps_the_design_witness :
  exists response,
    Gemini.generateDesignVariants (Some "key"%string) sampleFonts
      (sampleModel (Gemini.Response (Some "ok"%string))) sampleParse
      OPEN SignType.CHANNEL_LETTERS (Some sampleFonts) None (Some ""%string)
    = Gemini.Resolved response
    /\ Gemini.placement response = None
    /\ List.length (Gemini.variants response) = 3%nat
    /\ forall i v',
         nth_error (Gemini.variants response) i = Some v' ->
         exists v,
           nth_error
             [sampleVariant LightingType.NON_LIT false;
              sampleVariant LightingType.NON_LIT true;
              sampleVariant LightingType.NON_LIT false;
              sampleVariant LightingType.NON_LIT true] i = Some v
           /\ fontFamily v' = fontFamily v
           /\ letterSpacing v' = letterSpacing v
           /\ roundedBacker v' = roundedBacker v
           /\ stroke v' = stroke v
           /\ strokeWidth v' = strokeWidth v
           /\ recommendedLetterHeightIn v' = recommendedLetterHeightIn v
           /\ color v' = color v
           /\ backgroundColor v' = backgroundColor v.
Proof.
  refine (service_keeps_the_design (Some "key"%string) sampleFonts
            (sampleModel (Gemini.Response (Some "ok"%string))) sampleParse
            OPEN SignType.CHANNEL_LETTERS sampleFonts None ""%string "ok"%string
            _ eq_refl eq_refl _ eq_refl).
  discriminate.
Defined.

(** X15.  A variant that comes from the service is never priced as
    non-lit: a channel letters quote for it has a lighting line, and a
    lightbox quote for it has the illumination line unless it is the
    variant at index 1, the back-lit one. *)
Theorem service_variants_are_priced_lit
    (API_KEY : option string) (getAllFonts : list string)
    (generateContent :
       JS.jsstring -> string -> list string -> option string -> string -> Gemini.Reply)
    (JSON_parse : string -> option Gemini.Parsed)
    (text : JS.jsstring) (signType : string) (allowedFonts : option (list string))
    (imageBase64 userContext : option string) (response : Gemini.DesignResponse)
    (PRICING : Pricing.Table) (dimensions : Dimensions) (installConfig : InstallConfig)
    (isRush hasLamination : bool) (lightboxDepth : Q)
    (i : nat) (v : DesignVariant) (rC rL : QuoteResult) :
  Gemini.generateDesignVariants API_KEY getAllFonts generateContent JSON_parse
    text signType allowedFonts imageBase64 userContext = Gemini.Resolved response ->
  nth_error (Gemini.variants response) i = Some v ->
  calculateQuote PRICING SignType.CHANNEL_LETTERS dimensions text v installConfig
    isRush hasLamination lightboxDepth = JS.Ok rC ->
  calculateQuote PRICING SignType.LIGHTBOX dimensions text v installConfig
    isRush hasLamination lightboxDepth = JS.Ok rL ->
  existsb isLightingUpgrade (fabAdders (breakdown rC)) = true
  /\ (existsb (fun a => match a with InternalIllumination _ => true | _ => false end)
              (fabAdders (breakdown rL)) = true
      <-> i <> 1%nat).
Proof.
  intros Hs Hv HC HL.
  assert (Hlit : lighting v
                 = if (i =? 1)%nat then LightingType.BACK_LIT else LightingType.FRONT_LIT).
  { assert (Hkey : JSArray.truthy API_KEY = true).
    { unfold Gemini.generateDesignVariants in Hs.
      destruct (JSArray.truthy API_KEY); [reflexivity | discriminate]. }
    destruct (service_lighting_by_index API_KEY getAllFonts
                generateContent JSON_parse text signType allowedFonts imageBase64
                userContext Hkey) as (response' & Hr & Hall).
    rewrite Hs in Hr. injection Hr as <-. exact (Hall i v Hv). }
  apply calculateQuote_inv in HC, HL.
  destruct HC as (? & _ & _ & -> & _). destruct HL as (? & _ & _ & -> & _).
  rewrite !rushOrder_lines, !existsb_app.
  rewrite fabrication_channelLetters, fabrication_lightbox. simpl snd.
  unfold channelLettersRaw, lightboxRaw. rewrite Hlit.
  destruct (Nat.eqb_spec i 1) as [-> | Hne]; simpl String.eqb; cbv iota.
  - split.
    + destruct (roundedBacker v), (JS.ltb _ _), isRush; reflexivity.
    + destruct (JS.gtb lightboxDepth _), (JS.ltb _ _), isRush; simpl;
        intuition congruence.
  - split.
    + destruct (roundedBacker v), (JS.ltb _ _), isRush; reflexivity.
    + destruct (JS.gtb lightboxDepth _), (JS.ltb _ _), isRush; simpl;
        intuition congruence.
Qed.

Lemma service_variants_are_priced_lit_witness :
  exists response v rC rL,
    Gemini.generateDesignVariants (Some "key"%string) sampleFonts
      (sampleModel (Gemini.Response (Some "ok"%string))) sampleParse
      OPEN SignType.CHANNEL_LETTERS None None None = Gemini.Resolved response
    /\ nth_error (Gemini.variants response) 1 = Some v
    /\ calculateQuote samplePricing SignType.CHANNEL_LETTERS
         {| widthIn := 0; heightIn := 18 |} OPEN v (sampleInstall 10 "NONE")
         false false 4 = JS.Ok rC
    /\ calculateQuote samplePricing SignType.LIGHTBOX
         {| widthIn := 0; heightIn := 18 |} OPEN v (sampleInstall 10 "NONE")
         false false 4 = JS.Ok rL
    /\ existsb isLightingUpgrade (fabAdders (breakdown rC)) = true
    /\ (existsb (fun a => match a with InternalIllumination _ => true | _ => false end)
                (fabAdders (breakdown rL)) = true
        <-> 1%nat <> 1%nat).
Proof.
  do 4 eexists.
  split; [reflexivity |]. split; [reflexivity |].
  split; [reflexivity |]. split; [reflexivity |].
  exact (service_variants_are_priced_lit (Some "key"%string) sampleFonts
           (sampleModel (Gemini.Response (Some "ok"%string))) sampleParse
           OPEN SignType.CHANNEL_LETTERS None None None _
           samplePricing {| widthIn := 0; heightIn := 18 |} (sampleInstall 10 "NONE")
           false false 4 1%nat _ _ _ eq_refl eq_refl eq_refl eq_refl).
Defined.

(** * The application ([App.tsx]) *)

Lemma includes_spec (xs : list string) (x : string) :
  JSArray.includes xs x = true <-> In x xs.
Proof.
  unfold JSArray.includes. rewrite existsb_exists. split.
  - intros (y & Hy & E). apply String.eqb_eq in E. now subst.
  - intro H. exists x. split; [exact H | apply String.eqb_refl].
Qed.

Lemma without_spec (xs : list string) (x y : string) :
  In y (JSArray.without xs x) <-> In y xs /\ y <> x.
Proof.
  unfold JSArray.without. rewrite filter_In, negb_true_iff, String.eqb_neq. tauto.
Qed.

Lemma without_absent (xs : list string) (x : string) :
  ~ In x xs -> JSArray.without xs x = xs.
Proof.
  intro H. unfold JSArray.without. induction xs as [| a xs IH]; [reflexivity |].
  simpl. destruct (String.eqb_spec a x) as [-> | Hne]; simpl.
  - exfalso. apply H. now left.
  - f_equal. apply IH. intro Hin. apply H. now right.
Qed.

Lemma without_app (xs ys : list string) (x : string) :
  JSArray.without (xs ++ ys) x = JSArray.without xs x ++ JSArray.without ys x.
Proof. apply filter_app. Qed.

(** X16.  Toggling a font flips whether it is selected and nothing else:
    every other font stays in or out of the selection, in the order it
    had, and a selection without duplicates stays without duplicates. *)
Theorem toggleFontSelection_flips
    (font other : string) (prev : list string) :
  (In font (App.toggleFontSelection font prev) <-> ~ In font prev)
  /\ (other <> font ->
      (In other (App.toggleFontSelection font prev) <-> In other prev))
  /\ JSArray.without (App.toggleFontSelection font prev) font
     = JSArray.without prev font
  /\ (NoDup prev -> NoDup (App.toggleFontSelection font prev)).
Proof.
  unfold App.toggleFontSelection.
  destruct (JSArray.includes prev font) eqn:E.
  - apply includes_spec in E. split; [| split; [| split]].
    + rewrite without_spec. tauto.
    + intro Hne. rewrite without_spec. tauto.
    + apply without_absent. rewrite without_spec. tauto.
    + intro Hnd. now apply NoDup_filter.
  - assert (Hnot : ~ In font prev).
    { intro H. apply includes_spec in H. congruence. }
    split; [| split; [| split]].
    + rewrite in_app_iff. simpl. tauto.
    + intro Hne. rewrite in_app_iff. simpl. intuition congruence.
    + rewrite without_app. simpl. rewrite String.eqb_refl. simpl. apply app_nil_r.
    + intro Hnd. apply NoDup_app; [exact Hnd | repeat constructor; auto |].
      intros x Hx [<- | []]. contradiction.
Qed.

(** X17.  Toggling a font twice gives back a selection with the same
    fonts; it is the same list when the font was not selected, and the
    font has moved to the end when it was. *)
Theorem toggleFontSelection_twice (font : string) (prev : list string) :
  App.toggleFontSelection font (App.toggleFontSelection font prev)
  = if JSArray.includes prev font then JSArray.without prev font ++ [font] else prev.
Proof.
  destruct (JSArray.includes prev font) eqn:E.
  - assert (Hfirst : App.toggleFontSelection font prev = JSArray.without prev font)
      by (unfold App.toggleFontSelection; now rewrite E).
    assert (Hout : JSArray.includes (JSArray.without prev font) font = false).
    { destruct (JSArray.includes (JSArray.without prev font) font) eqn:E';
        [| reflexivity].
      apply includes_spec, without_spec in E'. tauto. }
    rewrite Hfirst. unfold App.toggleFontSelection. now rewrite Hout.
  - assert (Hfirst : App.toggleFontSelection font prev = prev ++ [font])
      by (unfold App.toggleFontSelection; now rewrite E).
    assert (Hin : JSArray.includes (prev ++ [font]) font = true).
    { apply includes_spec, in_or_app. right. now left. }
    rewrite Hfirst. unfold App.toggleFontSelection.
    rewrite Hin, without_app. simpl. rewrite String.eqb_refl. simpl.
    rewrite app_nil_r. apply without_absent.
    intro H. apply includes_spec in H. congruence.
Qed.

Lemma sorted_app (l1 l2 : list Q) (m : Q) :
  StronglySorted Qlt l1 -> StronglySorted Qlt l2 ->
  Forall (fun a => a < m) l1 -> Forall (fun b => m <= b) l2 ->
  StronglySorted Qlt (l1 ++ l2).
Proof.
  intros H1 H2 Hlo Hhi. induction H1 as [| a l1 Hs IH Ha]; simpl; [exact H2 |].
  inversion Hlo as [| ? ? Ham Hlo']; subst.
  constructor; [now apply IH |].
  apply Forall_app. split; [exact Ha |].
  eapply Forall_impl; [| exact Hhi]. intros b Hb. simpl in Hb. lra.
Qed.

Lemma ofNat_bounds (n m : nat) : (n <= m)%nat -> 0 <= JS.ofNat n <= JS.ofNat m.
Proof.
  intro H. unfold JS.ofNat. change 0 with (inject_Z 0).
  rewrite <- !Zle_Qle. lia.
Qed.

Lemma textRows_app (a b : list App.PdfOp) :
  App.textRows (a ++ b) = App.textRows a ++ App.textRows b.
Proof. apply flat_map_app. Qed.

(** The loop over the lines of a quote: where it ends, and the rows it
    prints on. *)
Lemma forEachLine_rows {A} (print : A -> App.PdfText) (lines : list A) (y : Q) :
  snd (App.forEachLine print lines y) == y + 5 * JS.ofNat (List.length lines)
  /\ StronglySorted Qlt (App.textRows (fst (App.forEachLine print lines y)))
  /\ Forall (fun row => y <= row /\ row + 5 <= snd (App.forEachLine print lines y))
            (App.textRows (fst (App.forEachLine print lines y))).
Proof.
  revert y. induction lines as [| l rest IH]; intro y.
  - simpl. repeat split; try constructor. unfold JS.ofNat. simpl. ring.
  - simpl. destruct (IH (y + 5)) as (Hend & Hsorted & Hrows).
    destruct (App.forEachLine print rest (y + 5)) as [ops y'] eqn:E.
    simpl in *. split; [| split].
    + rewrite Hend, ofNat_S. ring.
    + constructor; [exact Hsorted |].
      eapply Forall_impl; [| exact Hrows]. intros row Hrow. simpl in Hrow. lra.
    + assert (Hlen : 0 <= JS.ofNat (List.length rest)).
      { unfold JS.ofNat. change 0 with (inject_Z 0). rewrite <- Zle_Qle. lia. }
      constructor; [lra |].
      eapply Forall_impl; [| exact Hrows]. intros row Hrow. simpl in Hrow. lra.
Qed.

Lemma forEachLine_fabrication (lines : list FabAdder) (y : Q) :
  App.printedFabrication (fst (App.forEachLine App.FabricationLine lines y)) = lines
  /\ App.printedInstallation (fst (App.forEachLine App.FabricationLine lines y)) = [].
Proof.
  revert y. induction lines as [| l rest IH]; intro y; simpl; [now split |].
  destruct (IH (y + 5)) as [Hf Hi].
  destruct (App.forEachLine App.FabricationLine rest (y + 5)) as [ops y'].
  simpl in *. now rewrite Hf, Hi.
Qed.

Lemma forEachLine_installation (lines : list InstallAdder) (y : Q) :
  App.printedInstallation (fst (App.forEachLine App.InstallationLine lines y)) = lines
  /\ App.printedFabrication (fst (App.forEachLine App.InstallationLine lines y)) = [].
Proof.
  revert y. induction lines as [| l rest IH]; intro y; simpl; [now split |].
  destruct (IH (y + 5)) as [Hi Hf].
  destruct (App.forEachLine App.InstallationLine rest (y + 5)) as [ops y'].
  simpl in *. now rewrite Hf, Hi.
Qed.

(** X18.  The PDF of a computed quote: the export prints every fabrication
    line and every installation line of the quote once, in their order; all
    its text goes down the page, no two texts on one row, from row 20 to
    row 275 at the most; and saving the file is the last call. *)
Theorem exported_quote_layout
    (PRICING : Pricing.Table) (signType : string) (dimensions : Dimensions)
    (text : JS.jsstring) (variant : DesignVariant) (installConfig : InstallConfig)
    (isRush hasLamination : bool) (lightboxDepth : Q) (r : QuoteResult) :
  calculateQuote PRICING signType dimensions text variant installConfig
    isRush hasLamination lightboxDepth = JS.Ok r ->
  exists ops front,
    App.handleExportPDF (Some r) (Some variant) installConfig signType text
      (widthIn dimensions) (heightIn dimensions) = Some ops
    /\ ops = front ++ [App.save "sign_quote.pdf"]
    /\ Rows 20 275 (App.textRows ops)
    /\ App.printedFabrication ops = fabAdders (breakdown r)
    /\ App.printedInstallation ops = installAdders (breakdown r).
Proof.
  intro H. pose proof (quote_line_counts _ _ _ _ _ _ _ _ _ _ H) as [HF HI].
  unfold App.handleExportPDF.
  pose proof (forEachLine_rows App.FabricationLine (fabAdders (breakdown r))
                (120 + 8 + 5)) as (HendF & HsF & HrF).
  pose proof (forEachLine_fabrication (fabAdders (breakdown r)) (120 + 8 + 5))
    as (HpF & HpF').
  destruct (App.forEachLine App.FabricationLine _ _) as [fabOps y1].
  pose proof (forEachLine_rows App.InstallationLine (installAdders (breakdown r))
                (y1 + 5 + 5)) as (HendI & HsI & HrI).
  pose proof (forEachLine_installation (installAdders (breakdown r)) (y1 + 5 + 5))
    as (HpI & HpI').
  destruct (App.forEachLine App.InstallationLine _ _) as [installOps y2].
  cbn [fst snd] in *.
  do 2 eexists. split; [reflexivity |]. split; [reflexivity |].
  destruct (ofNat_bounds _ _ HF) as [HF0 HF6].
  destruct (ofNat_bounds _ _ (proj2 HI)) as [HI0 HI7].
  change (JS.ofNat 6) with 6 in HF6. change (JS.ofNat 7) with 7 in HI7.
  split; [| split].
  - unfold Rows, App.textRows in *. rewrite !flat_map_app. simpl.
    rewrite <- !app_assoc. simpl.
    set (rowsF := flat_map _ fabOps) in *.
    set (rowsI := flat_map _ installOps) in *.
    assert (HtailI : Forall (fun y => y2 + 10 + 10 <= y /\ y <= 275)
                       [y2 + 10 + 10; y2 + 10 + 10 + 7; y2 + 10 + 10 + 7 + 10;
                        y2 + 10 + 10 + 7 + 10 + 30]).
    { repeat (apply Forall_cons; [lra |]). apply Forall_nil. }
    assert (HboundI : Forall (fun y => y1 + 5 + 5 <= y /\ y <= 275)
                        (rowsI ++ [y2 + 10 + 10; y2 + 10 + 10 + 7;
                                   y2 + 10 + 10 + 7 + 10; y2 + 10 + 10 + 7 + 10 + 30])).
    { apply Forall_app. split.
      - eapply Forall_impl; [| exact HrI]. cbv beta. intros. lra.
      - eapply Forall_impl; [| exact HtailI]. cbv beta. intros. lra. }
    assert (HboundF : Forall (fun y => 120 + 8 + 5 <= y /\ y <= 275)
                        (rowsF ++ y1 + 5 :: rowsI
                           ++ [y2 + 10 + 10; y2 + 10 + 10 + 7;
                               y2 + 10 + 10 + 7 + 10; y2 + 10 + 10 + 7 + 10 + 30])).
    { apply Forall_app. split.
      - eapply Forall_impl; [| exact HrF]. cbv beta. intros. lra.
      - apply Forall_cons; [lra |].
        eapply Forall_impl; [| exact HboundI]. cbv beta. intros. lra. }
    split.
    + apply (sorted_app [20; 35; 42; 49; 65; 72; 77; 82; 87; 92; 105; 110; 120; 120 + 8]
               _ (120 + 8 + 5)).
      * repeat (apply SSorted_cons;
                [| repeat (apply Forall_cons; [lra |]); apply Forall_nil]).
        apply SSorted_nil.
      * apply (sorted_app _ _ (y1 + 5)); [exact HsF | | |].
        -- apply SSorted_cons.
           ++ apply (sorted_app _ _ (y2 + 10 + 10)); [exact HsI | | |].
              ** repeat (apply SSorted_cons;
                         [| repeat (apply Forall_cons; [lra |]); apply Forall_nil]).
                 apply SSorted_nil.
              ** eapply Forall_impl; [| exact HrI]. cbv beta. intros. lra.
              ** eapply Forall_impl; [| exact HtailI]. cbv beta. intros. lra.
           ++ eapply Forall_impl; [| exact HboundI]. cbv beta. intros. lra.
        -- eapply Forall_impl; [| exact HrF]. cbv beta. intros. lra.
        -- apply Forall_cons; [lra |].
           eapply Forall_impl; [| exact HboundI]. cbv beta. intros. lra.
      * repeat (apply Forall_cons; [lra |]). apply Forall_nil.
      * eapply Forall_impl; [| exact HboundF]. cbv beta. intros. lra.
    + repeat (apply Forall_cons; [lra |]).
      eapply Forall_impl; [| exact HboundF]. cbv beta. intros. lra.
  - unfold App.printedFabrication, App.printedInstallation in *.
    rewrite !flat_map_app. destruct (signType =? SignType.CHANNEL_LETTERS)%string;
      simpl; rewrite HpF, HpI'; simpl; now rewrite !app_nil_r.
  - unfold App.printedFabrication, App.printedInstallation in *.
    rewrite !flat_map_app. destruct (signType =? SignType.CHANNEL_LETTERS)%string;
      simpl; rewrite HpF', HpI; simpl; now rewrite !app_nil_r.
Qed.

Lemma exported_quote_layout_witness :
  exists r ops front,
    calculateQuote samplePricing SignType.CHANNEL_LETTERS
      {| widthIn := 0; heightIn := 18 |} OPEN
      (sampleVariant LightingType.FRONT_LIT false) (sampleInstall 10 "NONE")
      false false 4 = JS.Ok r
    /\ App.handleExportPDF (Some r) (Some (sampleVariant LightingType.FRONT_LIT false))
         (sampleInstall 10 "NONE") SignType.CHANNEL_LETTERS OPEN 0 18 = Some ops
    /\ ops = front ++ [App.save "sign_quote.pdf"]
    /\ Rows 20 275 (App.textRows ops)
    /\ App.printedFabrication ops = fabAdders (breakdown r)
    /\ App.printedInstallation ops = installAdders (breakdown r).
Proof.
  eexists.
  destruct (exported_quote_layout samplePricing SignType.CHANNEL_LETTERS
              {| widthIn := 0; heightIn := 18 |} OPEN
              (sampleVariant LightingType.FRONT_LIT false) (sampleInstall 10 "NONE")
              false false 4 _ eq_refl) as (ops & front & H).
  exists ops, front. split; [reflexivity | exact H].
Defined.

(** * The sign on the photo ([components/DraggableSign.tsx]) *)

Lemma run_app (es es' : list DraggableSign.Event) (s : DraggableSign.State) :
  DraggableSign.run (es ++ es') s = DraggableSign.run es' (DraggableSign.run es s).
Proof. apply fold_left_app. Qed.

(** Moves without a drag going on change nothing. *)
Lemma moves_when_idle (points : list DraggableSign.Point) (s : DraggableSign.State) :
  DraggableSign.isDragging s = false ->
  DraggableSign.run (moves points) s = s.
Proof.
  intro H. induction points as [| p points IH]; [reflexivity |].
  simpl. unfold DraggableSign.handleMouseMove. rewrite H. simpl. exact IH.
Qed.

(** Moves during a drag keep the grab offset. *)
Lemma moves_when_dragging (points : list DraggableSign.Point) (s : DraggableSign.State) :
  DraggableSign.isDragging s = true ->
  let s' := DraggableSign.run (moves points) s in
  DraggableSign.isDragging s' = true
  /\ DraggableSign.dragStart s' = DraggableSign.dragStart s
  /\ DraggableSign.hasInitialized s' = DraggableSign.hasInitialized s
  /\ (points = [] -> s' = s).
Proof.
  revert s. induction points as [| p points IH]; intros s H.
  - simpl. repeat split; auto.
  - simpl.
    set (s1 := DraggableSign.handleMouseMove _ _ s).
    assert (H1 : DraggableSign.isDragging s1 = true
                 /\ DraggableSign.dragStart s1 = DraggableSign.dragStart s
                 /\ DraggableSign.hasInitialized s1 = DraggableSign.hasInitialized s).
    { unfold s1, DraggableSign.handleMouseMove. rewrite H. simpl. auto. }
    destruct H1 as (Hd & Hs & Hi).
    destruct (IH s1 Hd) as (Hd' & Hs' & Hi' & _).
    repeat split; try congruence; discriminate.
Qed.

(** X19.  Drag and drop: pressing the mouse at c0 on the sign, moving it
    over any points and then to c1, and releasing it, leaves the sign
    displaced by c1 - c0, whatever the points in between; moves after the
    release, like moves before any press, do not move it. *)
Theorem drag_follows_the_pointer
    (s : DraggableSign.State) (c0 c1 : DraggableSign.Point)
    (between later before : list DraggableSign.Point) :
  let press := DraggableSign.MouseDown (DraggableSign.x c0) (DraggableSign.y c0) in
  let release := [DraggableSign.MouseMove (DraggableSign.x c1) (DraggableSign.y c1);
                  DraggableSign.MouseUp] in
  let s' := DraggableSign.run (press :: moves between ++ release ++ moves later) s in
  DraggableSign.x (DraggableSign.position s')
  == DraggableSign.x (DraggableSign.position s)
     + (DraggableSign.x c1 - DraggableSign.x c0)
  /\ DraggableSign.y (DraggableSign.position s')
     == DraggableSign.y (DraggableSign.position s)
        + (DraggableSign.y c1 - DraggableSign.y c0)
  /\ DraggableSign.isDragging s' = false
  /\ (DraggableSign.isDragging s = false ->
      DraggableSign.run (moves before) s = s).
Proof.
  intros press release s'. unfold s'.
  change (press :: moves between ++ release ++ moves later)
    with ([press] ++ moves between ++ release ++ moves later).
  rewrite !run_app.
  set (s0 := DraggableSign.run [press] s).
  assert (H0 : s0 = DraggableSign.handleMouseDown (DraggableSign.x c0)
                      (DraggableSign.y c0) s) by reflexivity.
  assert (Hd0 : DraggableSign.isDragging s0 = true) by now rewrite H0.
  destruct (moves_when_dragging between s0 Hd0) as (Hd & Hs & _).
  set (s1 := DraggableSign.run (moves between) s0) in *.
  set (s2 := DraggableSign.run release s1).
  assert (H2 : s2 = DraggableSign.handleMouseUp
                      (DraggableSign.handleMouseMove (DraggableSign.x c1)
                         (DraggableSign.y c1) s1)) by reflexivity.
  assert (Hidle : DraggableSign.isDragging s2 = false) by now rewrite H2.
  rewrite (moves_when_idle later s2 Hidle), H2.
  unfold DraggableSign.handleMouseUp, DraggableSign.handleMouseMove.
  rewrite Hd. simpl. rewrite Hs, H0. simpl.
  repeat split; try ring. apply moves_when_idle.
Qed.


Lemma depthPx_monotone (h1 h2 : Q) :
  h1 <= h2 -> (DraggableSign.depthPx h1 <= DraggableSign.depthPx h2)%Z.
Proof.
  intro H. unfold DraggableSign.depthPx, DraggableSign.Math_round.
  apply Z.max_le_compat_l, Qfloor_resp_le. lra.
Qed.

(** The stack of shadows ahead of the lighting layers. *)
Lemma channelLetterShadows_stack (variant : DesignVariant) (heightPx : Q) :
  exists lit,
    DraggableSign.channelLetterShadows variant heightPx
    = ({| DraggableSign.offsetX := -1; DraggableSign.offsetY := -1;
          DraggableSign.blur := 1;
          DraggableSign.shadowColor := "rgba(255,255,255,0.5)" |}
       :: List.map (fun i => {| DraggableSign.offsetX := JS.ofNat i;
                                DraggableSign.offsetY := JS.ofNat i;
                                DraggableSign.blur := 0;
                                DraggableSign.shadowColor := "#1a1a1a" |})
                   (seq 1 (Z.to_nat (DraggableSign.depthPx heightPx))))
      ++ lit
    /\ List.length lit
       = (if (lighting variant =? LightingType.BACK_LIT)%string then 2 else 1)%nat
    /\ Forall (fun sh =>
                 DraggableSign.offsetX sh
                 = inject_Z (DraggableSign.depthPx heightPx) + 3
                 /\ DraggableSign.offsetY sh
                    = inject_Z (DraggableSign.depthPx heightPx) + 3) lit.
Proof.
  unfold DraggableSign.channelLetterShadows.
  destruct (lighting variant =? LightingType.BACK_LIT)%string;
    [| destruct (lighting variant =? LightingType.FRONT_LIT)%string];
    eexists; (split; [simpl; try rewrite <- app_assoc; reflexivity |]);
    (split; [reflexivity |]); repeat constructor.
Qed.

(** X21.  The relief of channel letters on the photo: the depth is a whole
    number of pixels, 2 at the least (and 2 for letters under 62.5 px), that
    never decreases with the height of the letters.  After the highlight,
    layer i of the text shadow is the casing offset by i px, for i from 1 to
    the depth; the one or two lighting layers that follow (two for back-lit
    letters) are all cast 3 px beyond the depth. *)
Theorem channel_letter_relief
    (variant : DesignVariant) (heightPx taller : Q) :
  let depth := DraggableSign.depthPx heightPx in
  let shadows := DraggableSign.channelLetterShadows variant heightPx in
  (2 <= depth)%Z
  /\ (heightPx < 125 # 2 -> depth = 2%Z)
  /\ (heightPx <= taller -> (depth <= DraggableSign.depthPx taller)%Z)
  /\ List.length shadows
     = (1 + Z.to_nat depth
        + if (lighting variant =? LightingType.BACK_LIT)%string then 2 else 1)%nat
  /\ (forall i, (1 <= i <= Z.to_nat depth)%nat ->
      nth_error shadows i
      = Some {| DraggableSign.offsetX := JS.ofNat i;
                DraggableSign.offsetY := JS.ofNat i;
                DraggableSign.blur := 0;
                DraggableSign.shadowColor := "#1a1a1a" |})
  /\ (forall i sh, (Z.to_nat depth < i)%nat ->
      nth_error shadows i = Some sh ->
      DraggableSign.offsetX sh = inject_Z depth + 3
      /\ DraggableSign.offsetY sh = inject_Z depth + 3).
Proof.
  intros depth shadows.
  destruct (channelLetterShadows_stack variant heightPx) as (lit & Hs & Hlen & Hlit).
  fold depth shadows in Hs, Hlit. set (n := Z.to_nat depth) in *.
  split; [| split; [| split; [| split; [| split]]]].
  - apply Z.le_max_l.
  - intro H. unfold depth, DraggableSign.depthPx, DraggableSign.Math_round.
    apply Z.max_l.
    assert (Hlt : inject_Z (Qfloor (heightPx * (4 # 100) + (1 # 2))) < inject_Z 3).
    { eapply Qle_lt_trans; [apply Qfloor_le |]. change (inject_Z 3) with 3. lra. }
    rewrite <- Zlt_Qlt in Hlt. lia.
  - apply depthPx_monotone.
  - rewrite Hs. simpl. rewrite length_app, length_map, length_seq, Hlen. lia.
  - intros i Hi. rewrite Hs.
    rewrite nth_error_app1 by (simpl; rewrite length_map, length_seq; lia).
    destruct i as [| j]; [lia |]. simpl.
    rewrite nth_error_map, nth_error_seq.
    destruct (Nat.ltb_spec j n) as [_ | Hge]; [reflexivity | lia].
  - intros i sh Hi Hnth. rewrite Hs in Hnth.
    rewrite nth_error_app2 in Hnth by (simpl; rewrite length_map, length_seq; lia).
    apply nth_error_In in Hnth. rewrite Forall_forall in Hlit. now apply Hlit.
Qed.

(** * The handlers of the application ([App.tsx]) *)

Section AppProperties.

Variable PRICING : Pricing.Table.
Variable FONT_LIBRARY : string -> option (list string).
Variable fileToBase64 : App.File -> option (option string).
Variable API_KEY : option string.
Variable getAllFonts : list string.
Variable generateContent :
  JS.jsstring -> string -> list string -> option string -> string -> Gemini.Reply.
Variable JSON_parse : string -> option Gemini.Parsed.

Let generate :=
  App.handleGenerateDesigns FONT_LIBRARY fileToBase64 API_KEY getAllFonts
    generateContent JSON_parse.




(** X23.  A generation that fails, because the API key is missing or
    because the photo cannot be read, leaves every cell of the state as it
    was but the spinner, which is off; the user is alerted. *)
Theorem failed_generation_changes_nothing (s : App.State.t) :
  App.State.signText s <> [] ->
  (JSArray.truthy API_KEY = false
   \/ exists file, App.State.imageFile s = Some file /\ fileToBase64 file = None) ->
  generate s
  = [App.setIsGenerating true;
     App.alert "Failed to generate designs. Please try again.";
     App.setIsGenerating false]
  /\ App.run (generate s) s = App.apply s (App.setIsGenerating false)
  /\ App.quote PRICING (App.run (generate s) s) = App.quote PRICING s.
Proof.
  intros Htext Hfail.
  assert (Hcalls : generate s
                   = [App.setIsGenerating true;
                      App.alert "Failed to generate designs. Please try again.";
                      App.setIsGenerating false]).
  { unfold generate, App.handleGenerateDesigns.
    destruct (App.State.signText s) as [| c rest] eqn:Et; [congruence |].
    assert (Htry : App.tryGenerateDesigns FONT_LIBRARY fileToBase64 API_KEY getAllFonts
                     generateContent JSON_parse s = None).
    { unfold App.tryGenerateDesigns.
      destruct Hfail as [Hkey | (file & -> & ->)]; [| reflexivity].
      destruct (match App.State.imageFile s with
                | Some imageFile => fileToBase64 imageFile
                | None => Some None
                end); [| reflexivity].
      unfold Gemini.generateDesignVariants. now rewrite Hkey. }
    now rewrite Htry. }
  rewrite Hcalls. repeat split.
Qed.

End AppProperties.

(** X24.  The gate on generation: a calibration with a positive value
    moves to step 2 and enables the button (unless a generation runs); a
    calibration with 0 keeps the step and disables it.  Choosing a photo
    goes back to step 1 with the button disabled, no variant, no placement
    and no quote, whatever the state was. *)
Theorem calibration_gate
    (PRICING : Pricing.Table) (s : App.State.t) (val : Q) (file : App.File) :
  let calibrated := App.run (App.handleCalibrated val) s in
  let loaded := App.run (App.handleFileChange file) s in
  (0 < val ->
   App.State.step calibrated = 2%nat
   /\ App.generateDisabled calibrated = App.State.isGenerating s)
  /\ (val == 0 ->
      App.State.step calibrated = App.State.step s
      /\ App.generateDisabled calibrated = true)
  /\ App.State.step loaded = 1%nat
  /\ App.generateDisabled loaded = true
  /\ App.State.imageFile loaded = Some file
  /\ App.State.variants loaded = []
  /\ App.State.placement loaded = None
  /\ App.quote PRICING loaded = None.
Proof.
  intros calibrated loaded. unfold calibrated, loaded, App.handleCalibrated.
  split; [| split].
  - intro H. apply ltb_spec in H as Hb. unfold JS.gtb. rewrite Hb. simpl.
    split; [reflexivity |]. unfold App.generateDisabled. simpl.
    assert (Hne : JS.eqb val 0 = false).
    { unfold JS.eqb. destruct (Qeq_bool val 0) eqn:E; [| reflexivity].
      apply Qeq_bool_iff in E. lra. }
    rewrite Hne. simpl. apply orb_false_r.
  - intro H.
    assert (Hb : JS.ltb 0 val = false) by (apply ltb_false; lra).
    unfold JS.gtb. rewrite Hb. simpl. split; [reflexivity |].
    unfold App.generateDisabled. simpl.
    assert (He : JS.eqb val 0 = true) by (apply Qeq_bool_iff; exact H).
    rewrite He. simpl. apply orb_true_r.
  - unfold App.generateDisabled. simpl. repeat split. apply orb_true_r.
Qed.

(** X25.  Of the variants the service gives, the "Recommended" badge of the
    design list goes to the one at index 1, the back-lit one, and to no
    other. *)
Theorem recommended_is_the_back_lit_option
    (API_KEY : option string) (getAllFonts : list string)
    (generateContent :
       JS.jsstring -> string -> list string -> option string -> string -> Gemini.Reply)
    (JSON_parse : string -> option Gemini.Parsed)
    (text : JS.jsstring) (signType : string) (allowedFonts : option (list string))
    (imageBase64 userContext : option string) (response : Gemini.DesignResponse)
    (i : nat) (v : DesignVariant) :
  Gemini.generateDesignVariants API_KEY getAllFonts generateContent JSON_parse
    text signType allowedFonts imageBase64 userContext = Gemini.Resolved response ->
  nth_error (Gemini.variants response) i = Some v ->
  (App.isRecommended v = true <-> i = 1%nat)
  /\ (App.isRecommended v = true <-> lighting v = LightingType.BACK_LIT).
Proof.
  intros Hs Hv.
  assert (Hkey : JSArray.truthy API_KEY = true).
  { unfold Gemini.generateDesignVariants in Hs.
    destruct (JSArray.truthy API_KEY); [reflexivity | discriminate]. }
  destruct (service_options_by_index API_KEY getAllFonts generateContent JSON_parse
              text signType allowedFonts imageBase64 userContext Hkey)
    as (response' & Hr & _ & Hall).
  rewrite Hs in Hr. injection Hr as <-.
  destruct (Hall i v Hv) as (config & Hc & Hname & _ & Hlit).
  unfold App.isRecommended. rewrite Hname, Hlit.
  destruct i as [| [| [| i]]]; simpl in Hc; [| | | destruct i; discriminate];
    injection Hc as <-; simpl; split; split; try discriminate; try reflexivity; lia.
Qed.


Lemma failed_generation_changes_nothing_witness :
  App.handleGenerateDesigns (fun _ => Some sampleFonts) (fun _ => None)
    (Some "key"%string) sampleFonts (sampleModel Gemini.Fails) sampleParse
    (App.apply App.initialState (App.setImageFile (Some "storefront.jpg"%string)))
  = [App.setIsGenerating true;
     App.alert "Failed to generate designs. Please try again.";
     App.setIsGenerating false]
  /\ App.run
       (App.handleGenerateDesigns (fun _ => Some sampleFonts) (fun _ => None)
          (Some "key"%string) sampleFonts (sampleModel Gemini.Fails) sampleParse
          (App.apply App.initialState (App.setImageFile (Some "storefront.jpg"%string))))
       (App.apply App.initialState (App.setImageFile (Some "storefront.jpg"%string)))
     = App.apply
         (App.apply App.initialState (App.setImageFile (Some "storefront.jpg"%string)))
         (App.setIsGenerating false)
  /\ App.quote samplePricing
       (App.run
          (App.handleGenerateDesigns (fun _ => Some sampleFonts) (fun _ => None)
             (Some "key"%string) sampleFonts (sampleModel Gemini.Fails) sampleParse
             (App.apply App.initialState
                (App.setImageFile (Some "storefront.jpg"%string))))
          (App.apply App.initialState (App.setImageFile (Some "storefront.jpg"%string))))
     = App.quote samplePricing
         (App.apply App.initialState (App.setImageFile (Some "storefront.jpg"%string))).
Proof.
  apply (failed_generation_changes_nothing samplePricing (fun _ => Some sampleFonts)
           (fun _ => None) (Some "key"%string) sampleFonts (sampleModel Gemini.Fails)
           sampleParse
           (App.apply App.initialState (App.setImageFile (Some "storefront.jpg"%string)))).
  - discriminate.
  - right. exists "storefront.jpg"%string. split; reflexivity.
Defined.

Lemma recommended_is_the_back_lit_option_witness :
  exists response v,
    Gemini.generateDesignVariants (Some "key"%string) sampleFonts
      (sampleModel Gemini.Fails) sampleParse
      OPEN SignType.CHANNEL_LETTERS None None None = Gemini.Resolved response
    /\ nth_error (Gemini.variants response) 1 = Some v
    /\ (App.isRecommended v = true <-> 1%nat = 1%nat)
    /\ (App.isRecommended v = true <-> lighting v = LightingType.BACK_LIT).
Proof.
  do 2 eexists. split; [reflexivity |]. split; [reflexivity |].
  exact (recommended_is_the_back_lit_option (Some "key"%string) sampleFonts
           (sampleModel Gemini.Fails) sampleParse
           OPEN SignType.CHANNEL_LETTERS None None None _ 1%nat _ eq_refl eq_refl).
Defined.

(** * The calibration of the photo ([components/ImageCalibrator.tsx]) *)

Section CalibratorProperties.

Variable createObjectURL : App.File -> string.
Variable Math_sqrt : Q -> Q.
Variable parseFloat : string -> option Q.

(** The calls [handleFileChange] makes through its callbacks are the ones
    [App.handleFileChange] lists. *)
Lemma handleFileChange_calls (file : App.File) (s : ImageCalibrator.State) :
  flat_map ImageCalibrator.callApp
    (snd (ImageCalibrator.handleFileChange createObjectURL (Some file) s))
  = App.handleFileChange file.
Proof. reflexivity. Qed.

(** X26.  Calibration round trip: on a loaded, uncalibrated photo with no
    dialog open, a line drawn from one point to another (mouse down, move,
    mouse up) and a distance that parses to a positive number of inches
    make [submitCalibration] call [onCalibrated] once, close the dialog,
    and pass a ratio for which a sign as tall as the typed distance is
    drawn exactly as tall as the line is long; the application then moves
    to step 2 when that length is positive. *)
Theorem calibration_round_trip
    (s : ImageCalibrator.State) (pxPerInch : option Q)
    (rect : option ImageCalibrator.Rect) (ax ay bx by' inches widthIn : Q)
    (typed : string) (app : App.State.t) :
  JSArray.truthy (ImageCalibrator.imageUrl s) = true ->
  ImageCalibrator.truthyNumber pxPerInch = false ->
  ImageCalibrator.showInput s = false ->
  parseFloat typed = Some inches ->
  0 < inches ->
  let a := ImageCalibrator.getCoords rect ax ay in
  let b := ImageCalibrator.getCoords rect bx by' in
  let dx := ImageCalibrator.x b - ImageCalibrator.x a in
  let dy := ImageCalibrator.y b - ImageCalibrator.y a in
  let distPx := Math_sqrt (dx * dx + dy * dy) in
  let drawn :=
    ImageCalibrator.handleMouseUp
      (ImageCalibrator.handleMouseMove rect bx by'
         (ImageCalibrator.handleMouseDown pxPerInch rect ax ay s)) in
  ImageCalibrator.showInput drawn = true
  /\ exists s' ratio,
       ImageCalibrator.submitCalibration Math_sqrt parseFloat
         (ImageCalibrator.handleDistanceChange typed drawn)
       = (s', [ImageCalibrator.onCalibrated ratio])
       /\ ImageCalibrator.showInput s' = false
       /\ DraggableSign.heightPx {| widthIn := widthIn; heightIn := inches |} ratio
          == distPx
       /\ (0 < distPx ->
           App.State.step
             (App.run (ImageCalibrator.callApp (ImageCalibrator.onCalibrated ratio)) app)
           = 2%nat).
Proof.
  intros Hurl Hpx Hshow Hparse Hpos a b dx dy distPx drawn.
  assert (Hdrawn : drawn
                   = {| ImageCalibrator.imageUrl := ImageCalibrator.imageUrl s;
                        ImageCalibrator.isDrawing := false;
                        ImageCalibrator.startPoint := Some a;
                        ImageCalibrator.endPoint := Some b;
                        ImageCalibrator.showInput := true;
                        ImageCalibrator.realDistance := ImageCalibrator.realDistance s |}).
  { unfold drawn, ImageCalibrator.handleMouseDown. rewrite Hurl, Hpx, Hshow. reflexivity. }
  rewrite Hdrawn. split; [reflexivity |].
  unfold ImageCalibrator.submitCalibration, ImageCalibrator.handleDistanceChange.
  cbn [ImageCalibrator.startPoint ImageCalibrator.endPoint ImageCalibrator.realDistance].
  rewrite Hparse.
  assert (Hgt : JS.gtb inches 0 = true) by (now apply ltb_spec).
  rewrite Hgt. do 2 eexists. split; [reflexivity |]. split; [reflexivity |].
  fold dx dy distPx. split.
  - unfold DraggableSign.heightPx. cbn [heightIn]. field. lra.
  - intro Hlen. unfold ImageCalibrator.callApp, App.handleCalibrated.
    assert (Hratio : JS.gtb (distPx / inches) 0 = true).
    { apply ltb_spec. apply Qlt_shift_div_l; lra. }
    rewrite Hratio. reflexivity.
Qed.

(** X27.  What the calibrator ignores: a mouse down when no photo is loaded,
    when the photo is calibrated or when the dialog is open; moves and mouse
    up when no line is being drawn; and a submission without a line, or
    with a distance that is not a number or is not positive, which makes no
    call and leaves the dialog as it is. *)
Theorem calibrator_ignores
    (s : ImageCalibrator.State) (pxPerInch : option Q)
    (rect : option ImageCalibrator.Rect) (clientX clientY : Q) :
  ((JSArray.truthy (ImageCalibrator.imageUrl s) = false
    \/ ImageCalibrator.truthyNumber pxPerInch = true
    \/ ImageCalibrator.showInput s = true) ->
   ImageCalibrator.handleMouseDown pxPerInch rect clientX clientY s = s)
  /\ (ImageCalibrator.isDrawing s = false ->
      ImageCalibrator.handleMouseMove rect clientX clientY s = s
      /\ ImageCalibrator.handleMouseUp s = s)
  /\ ((ImageCalibrator.startPoint s = None
       \/ ImageCalibrator.endPoint s = None
       \/ parseFloat (ImageCalibrator.realDistance s) = None
       \/ exists inches,
            parseFloat (ImageCalibrator.realDistance s) = Some inches /\ inches <= 0) ->
      ImageCalibrator.submitCalibration Math_sqrt parseFloat s = (s, [])).
Proof.
  split; [| split].
  - unfold ImageCalibrator.handleMouseDown. intros [H | [H | H]]; rewrite H.
    + reflexivity.
    + now rewrite orb_true_r.
    + now destruct (_ || _).
  - intro H. unfold ImageCalibrator.handleMouseMove, ImageCalibrator.handleMouseUp.
    now rewrite H.
  - unfold ImageCalibrator.submitCalibration.
    intros [H | [H | [H | (inches & H & Hle)]]].
    + now rewrite H.
    + rewrite H. now destruct (ImageCalibrator.startPoint s).
    + rewrite H.
      now destruct (ImageCalibrator.startPoint s), (ImageCalibrator.endPoint s).
    + rewrite H. apply ltb_false in Hle. unfold JS.gtb. rewrite Hle.
      now destruct (ImageCalibrator.startPoint s), (ImageCalibrator.endPoint s).
Qed.

End CalibratorProperties.

Lemma calibration_round_trip_witness :
  let s := {| ImageCalibrator.imageUrl := Some "blob:storefront"%string;
              ImageCalibrator.isDrawing := false;
              ImageCalibrator.startPoint := None;
              ImageCalibrator.endPoint := None;
              ImageCalibrator.showInput := false;
              ImageCalibrator.realDistance := "" |} in
  let rect := Some {| ImageCalibrator.left := 10; ImageCalibrator.top := 20 |} in
  let drawn :=
    ImageCalibrator.handleMouseUp
      (ImageCalibrator.handleMouseMove rect 310 420
         (ImageCalibrator.handleMouseDown None rect 10 20 s)) in
  ImageCalibrator.showInput drawn = true
  /\ exists s' ratio,
       ImageCalibrator.submitCalibration sampleSqrt sampleParseFloat
         (ImageCalibrator.handleDistanceChange "36" drawn)
       = (s', [ImageCalibrator.onCalibrated ratio])
       /\ ImageCalibrator.showInput s' = false
       /\ DraggableSign.heightPx {| widthIn := 0; heightIn := 36 |} ratio == 500
       /\ App.State.step
            (App.run (ImageCalibrator.callApp (ImageCalibrator.onCalibrated ratio))
               App.initialState)
          = 2%nat.
Proof.
  intros s rect drawn.
  destruct (calibration_round_trip sampleSqrt sampleParseFloat s None rect
              10 20 310 420 36 0 "36"%string App.initialState
              eq_refl eq_refl eq_refl eq_refl eq_refl)
    as (Hshow & s' & ratio & Hsubmit & Hclosed & Hheight & Hstep).
  split; [exact Hshow |]. exists s', ratio.
  split; [exact Hsubmit |]. split; [exact Hclosed |].
  split; [rewrite Hheight; reflexivity | apply Hstep; reflexivity].
Defined.
